(** * Cursor usage summary: the fetch-and-cache client ([UsageService])

    A shallow embedding of [usageService.ts]: the transport
    ([getRequestOptions], [makeHttpsRequest]), the orchestrator
    ([getUsageSummary], [clearCache], [updateApiToken],
    [testConnectivity]) and the derived accessors
    ([getIndividualUsagePercentage], [getTeamUsageInfo]).

    Conventions of the embedding:
    - a JavaScript value produced by [JSON.parse] is a [JSValue]; a JS
      [number] is an IEEE-754 binary64 value, [spec_float] at precision 53.
      Neither the service nor its callers assign to a summary, so values
      are immutable and returning [cached.data] is returning the value;
    - a JavaScript string is held as the bytes of its UTF-8 encoding;
    - a promise that resolves or rejects, and a call that returns or throws,
      is a [Result];
    - the service's mutable state and everything it makes observable (the
      requests it issues, the notifications it shows) live in a [World];
    - what the service only reads or calls (settings, process environment,
      clock, the network, [URL], [JSON.parse], the proxy agent constructor)
      is a [Host].  Settings, environment and clock are indexed by an epoch
      that advances each time the service waits for the network, because the
      source reads them afresh on every request;
    - one call runs from start to end without another call of the service
      interleaved, and every request settles in exactly one way;
    - [console.log] / [console.warn] / [console.error] calls are not
      modelled: they change nothing the service or its callers observe. *)

From Stdlib Require Import ZArith String Ascii List Lia Bool.
From Stdlib Require Import Floats.SpecFloat.
From stdpp Require Import gmap strings list fin_maps pretty.

Local Open Scope string_scope.
Local Open Scope Z_scope.

(** ** The JavaScript fragment the module relies on *)

Module JS.

(** [number]: binary64. *)
Definition prec : Z := 53.
Definition emax : Z := 1024.
Definition number := spec_float.

Definition of_Z (z : Z) : number := binary_normalize prec emax z 0 false.
Definition NaN : number := S754_nan.
Definition Infinity : number := S754_infinity false.
Definition div (x y : number) : number := SFdiv prec emax x y.
Definition mul (x y : number) : number := SFmul prec emax x y.

(** [Math.round]: NaN, the infinities and the zeros are returned as they
    are; so is a value with a non-negative exponent, an integer already.
    Otherwise the value is [sm * 2^e] with [e < 0], and the result is
    [floor (sm * 2^e + 1/2)], a zero keeping the sign of the argument. *)
Definition Math_round (x : number) : number :=
  match x with
  | S754_finite s m e =>
      if 0 <=? e then x
      else
        let sm := if s then Z.neg m else Z.pos m in
        let n := (2 * sm + 2 ^ (- e)) / 2 ^ (1 - e) in
        if n =? 0 then S754_zero s else of_Z n
  | _ => x
  end.

#[warnings="-register-all"] Inductive JSValue :=
| JSUndefined
| JSNull
| JSBool (b : bool)
| JSNumber (n : number)
| JSString (s : string)
| JSArray (elements : list JSValue)
| JSObject (properties : list (string * JSValue)).

(** What a [throw] or a promise rejection carries: an [Error] object with
    its [name] and [message], or any other value, kept as its text. *)
Inductive Thrown :=
| ErrorObject (name message : string)
| ThrownValue (text : string).

Definition Error (message : string) : Thrown := ErrorObject "Error" message.
Definition TypeError (message : string) : Thrown := ErrorObject "TypeError" message.

(** [String(error)] *)
Definition String_of_thrown (e : Thrown) : string :=
  match e with
  | ErrorObject name message =>
      if String.eqb message "" then name
      else if String.eqb name "" then message
      else name +:+ ": " +:+ message
  | ThrownValue text => text
  end.

Inductive Result (A : Type) :=
| Ok (a : A)
| Throws (e : Thrown).
Arguments Ok {A} a.
Arguments Throws {A} e.

(** *** Strings *)

Definition startsWith (s searchString : string) : bool :=
  String.prefix searchString s.

Fixpoint includes (s searchString : string) : bool :=
  String.prefix searchString s ||
  match s with
  | EmptyString => false
  | String _ rest => includes rest searchString
  end.

(** A string is held as the bytes of its UTF-8 encoding.  The code points
    that [trim] strips are ECMAScript's [WhiteSpace] (TAB, VT, FF, U+FEFF
    and the space separators U+0020, U+00A0, U+1680, U+2000 to U+200A,
    U+202F, U+205F, U+3000) and [LineTerminator] (LF, CR, U+2028,
    U+2029), each given here by its encoding. *)
Definition bytes (codes : list nat) : string :=
  fold_right (fun n s => String (ascii_of_nat n) s) EmptyString codes.

Definition whiteSpace : list string :=
  List.map bytes
    [ [9]; [10]; [11]; [12]; [13]; [32];
      [194; 160];
      [225; 154; 128];
      [226; 128; 128]; [226; 128; 129]; [226; 128; 130]; [226; 128; 131];
      [226; 128; 132]; [226; 128; 133]; [226; 128; 134]; [226; 128; 135];
      [226; 128; 136]; [226; 128; 137]; [226; 128; 138];
      [226; 128; 168]; [226; 128; 169]; [226; 128; 175];
      [226; 129; 159];
      [227; 128; 128];
      [239; 187; 191] ]%nat.

(** What is left of [s] once the prefix [p] is taken off. *)
Fixpoint dropPrefix (p s : string) : option string :=
  match p, s with
  | EmptyString, _ => Some s
  | String a p', String b s' => if Ascii.eqb a b then dropPrefix p' s' else None
  | String _ _, EmptyString => None
  end.

Fixpoint dropAny (patterns : list string) (s : string) : option string :=
  match patterns with
  | [] => None
  | p :: rest =>
      match dropPrefix p s with
      | Some r => Some r
      | None => dropAny rest s
      end
  end.

(** Takes leading [patterns] off [s] for as long as there is one; every
    round removes a byte at least, so [length s] rounds are enough. *)
Fixpoint strip (patterns : list string) (fuel : nat) (s : string) : string :=
  match fuel with
  | O => s
  | S fuel =>
      match dropAny patterns s with
      | Some r => strip patterns fuel r
      | None => s
      end
  end.

Definition trimStart (s : string) : string :=
  strip whiteSpace (String.length s) s.

Definition trimEnd (s : string) : string :=
  String.rev (strip (List.map String.rev whiteSpace) (String.length s) (String.rev s)).

Definition trim (s : string) : string := trimEnd (trimStart s).

(** *** Truthiness, [||], property access *)

Definition ToBoolean (v : JSValue) : bool :=
  match v with
  | JSUndefined | JSNull => false
  | JSBool b => b
  | JSNumber (S754_zero _) | JSNumber S754_nan => false
  | JSNumber _ => true
  | JSString s => negb (String.eqb s "")
  | JSArray _ | JSObject _ => true
  end.

(** [a || b] *)
Definition or (a b : JSValue) : JSValue := if ToBoolean a then a else b.

(** Truthiness of a [string | undefined], and [||] on such values. *)
Definition truthy (s : option string) : bool :=
  match s with
  | Some s => negb (String.eqb s "")
  | None => false
  end.

Definition or_string (a b : option string) : option string :=
  if truthy a then a else b.

Fixpoint assoc (key : string) (properties : list (string * JSValue)) : JSValue :=
  match properties with
  | [] => JSUndefined
  | (k, v) :: rest => if String.eqb k key then v else assoc key rest
  end.

(** [key in v] for the own keys of an object that [JSON.parse] built. *)
Definition hasOwn (key : string) (properties : list (string * JSValue)) : bool :=
  existsb (fun kv => String.eqb kv.1 key) properties.

(** [v.key] for a key that no prototype defines: the own property of an
    object, [undefined] on any other value that can be read, and a
    [TypeError] on [undefined] and [null]. *)
Definition get (v : JSValue) (key : string) : Result JSValue :=
  match v with
  | JSUndefined =>
      Throws (TypeError ("Cannot read properties of undefined (reading '" +:+ key +:+ "')"))
  | JSNull =>
      Throws (TypeError ("Cannot read properties of null (reading '" +:+ key +:+ "')"))
  | JSObject properties => Ok (assoc key properties)
  | _ => Ok JSUndefined
  end.

(** [v?.key] *)
Definition get_opt (v : JSValue) (key : string) : JSValue :=
  match get v key with
  | Ok x => x
  | Throws _ => JSUndefined
  end.

(** *** [ToString] and [ToNumber]

    Printing a number and reading a numeric literal are the platform's;
    they are taken as parameters. *)
Section Conversions.
Variable NumberToString : number -> string.
Variable StringToNumber : string -> number.

(** [ToPrimitive] on what [JSON.parse] builds.  No property of such a
    value is callable, so an own [toString] key hides
    [Object.prototype.toString] and no conversion is left: a [TypeError].
    Without that key an object prints as [[object Object]], whether or not
    it has a [valueOf] key, under either hint.  An array has index
    properties only and prints with [Array.prototype.join], which converts
    its elements in order. *)
Fixpoint ToString (v : JSValue) : Result string :=
  match v with
  | JSUndefined => Ok "undefined"
  | JSNull => Ok "null"
  | JSBool true => Ok "true"
  | JSBool false => Ok "false"
  | JSNumber n => Ok (NumberToString n)
  | JSString s => Ok s
  | JSArray elements =>
      (fix join (xs : list JSValue) : Result string :=
         match xs with
         | [] => Ok ""
         | x :: rest =>
             match (match x with
                    | JSUndefined | JSNull => Ok ""
                    | _ => ToString x
                    end) with
             | Throws error => Throws error
             | Ok sx =>
                 match rest with
                 | [] => Ok sx
                 | _ =>
                     match join rest with
                     | Throws error => Throws error
                     | Ok sr => Ok (sx +:+ "," +:+ sr)
                     end
                 end
             end
         end) elements
  | JSObject properties =>
      if hasOwn "toString" properties
      then Throws (TypeError "Cannot convert object to primitive value")
      else Ok "[object Object]"
  end.

Definition ToNumber (v : JSValue) : Result number :=
  match v with
  | JSUndefined => Ok NaN
  | JSNull => Ok (of_Z 0)
  | JSBool true => Ok (of_Z 1)
  | JSBool false => Ok (of_Z 0)
  | JSNumber n => Ok n
  | JSString s => Ok (StringToNumber s)
  | JSArray _ | JSObject _ =>
      match ToString v with
      | Ok s => Ok (StringToNumber s)
      | Throws error => Throws error
      end
  end.
End Conversions.

End JS.
Export JS.

(** ** What the service sees of its surroundings *)

(** [vscode.workspace.getConfiguration('cursorUsageSummary')], the two
    settings the service reads. *)
Record Config := {
  apiToken : option string;
  proxy : option string
}.

(** [process.env], the four variables the service reads. *)
Record ProcessEnv := {
  https_proxy : option string;
  HTTPS_PROXY : option string;
  http_proxy : option string;
  HTTP_PROXY : option string
}.

(** [new URL(url)], the four components the service reads. *)
Record URL := {
  hostname : string;
  port : string;
  pathname : string;
  search : string
}.

Inductive Agent :=
| HttpsProxyAgent (proxyUrl : string)
| https_Agent (keepAlive : bool) (maxSockets : Z).

(** [options.port] is [urlObj.port || 443]: a string or a number. *)
Inductive Port :=
| PortString (s : string)
| PortNumber (n : Z).

(** [https.RequestOptions] as [makeHttpsRequest] fills them. *)
Record RequestOptions := {
  opt_hostname : string;
  opt_port : Port;
  opt_path : string;
  opt_method : string;
  opt_headers : gmap string string;
  opt_agent : option Agent;
  opt_rejectUnauthorized : bool;
  opt_timeout : Z
}.

(** [http.IncomingMessage] as the response callback uses it: status line,
    [headers.location], and the body stream, which delivers its chunks and
    then either ends or fails. *)
Record IncomingMessage := {
  statusCode : option Z;
  statusMessage : option string;
  location : option string;
  chunks : list string;
  streamError : option Thrown
}.

(** How one [https.request] settles. [RequestError] stands for an ['error']
    event of the request and for [https.request] itself throwing (inside the
    promise executor, which rejects with what was thrown). *)
Inductive Outcome :=
| RequestError (e : Thrown)
| RequestTimeout
| Response (res : IncomingMessage).

Record Host := {
  getConfiguration : nat -> Config;
  process_env : nat -> ProcessEnv;
  Date_now : nat -> Z;
  https_request : nat -> RequestOptions -> Outcome;
  URL_new : string -> option URL;
  HttpsProxyAgent_new : string -> option Thrown;
  JSON_parse : string -> option JSValue;
  NumberToString : number -> string;
  StringToNumber : string -> number
}.

(** ** The service's state and what it makes observable *)

Record CacheEntry := {
  data : JSValue;
  timestamp : Z
}.

Inductive Event :=
| Request (options : RequestOptions)
| showErrorMessage (message : string)
| showWarningMessage (message : string).

Record World := {
  cache : gmap string CacheEntry;
  epoch : nat;
  trace : list Event
}.

Definition emit (ev : Event) (w : World) : World :=
  {| cache := cache w; epoch := epoch w; trace := trace w ++ [ev] |}.

(** The service waited for the network: settings, environment and clock may
    have moved on. *)
Definition tick (w : World) : World :=
  {| cache := cache w; epoch := S (epoch w); trace := trace w |}.

(** The requests issued so far, oldest first. *)
Definition requests (w : World) : list RequestOptions :=
  omap (fun ev => match ev with Request o => Some o | _ => None end) (trace w).

(** ** The service *)

Module UsageService.

Definition CACHE_DURATION : Z := 60 * 1000.
Definition API_BASE_URL : string := "https://cursor.com".
Definition API_ENDPOINT : string := "/api/usage-summary".

Definition getMockUsageData : JSValue :=
  JSObject [
    ("billingCycleStart", JSString "2026-01-01T00:00:00.000Z");
    ("billingCycleEnd", JSString "2026-02-01T00:00:00.000Z");
    ("membershipType", JSString "enterprise");
    ("limitType", JSString "team");
    ("isUnlimited", JSBool false);
    ("autoModelSelectedDisplayMessage",
      JSString "You've used 0% of your included total usage");
    ("namedModelSelectedDisplayMessage",
      JSString "You've used 0% of your included API usage");
    ("individualUsage", JSObject [
      ("overall", JSObject [
        ("enabled", JSBool true);
        ("used", JSNumber (of_Z 794));
        ("limit", JSNumber (of_Z 5000));
        ("remaining", JSNumber (of_Z 4206))])]);
    ("teamUsage", JSObject [
      ("onDemand", JSObject [
        ("enabled", JSBool true);
        ("used", JSNumber (of_Z 0));
        ("limit", JSNumber (of_Z 15000000));
        ("remaining", JSNumber (of_Z 15000000))]);
      ("pooled", JSObject [
        ("enabled", JSBool true);
        ("used", JSNumber (of_Z 6175916));
        ("limit", JSNumber (of_Z 180000000));
        ("remaining", JSNumber (of_Z 173824084))])])
  ].

(** The percentage of one bucket, [Math.round((used / limit) * 100)], and
    the record [getTeamUsageInfo] returns per bucket. *)
Record BucketInfo := {
  percentage : number;
  used : JSValue;
  limit : JSValue
}.

Record TeamUsageInfo := {
  onDemand : BucketInfo;
  pooled : BucketInfo
}.

Section Service.
Context (h : Host).

Definition toNumber : JSValue -> Result number :=
  ToNumber (NumberToString h) (StringToNumber h).

(** *** Transport *)

(** The [Cookie] header for a configured token. *)
Definition cookieHeader (apiToken : string) : string :=
  if startsWith apiToken "WorkosCursorSessionToken=" then apiToken
  else "WorkosCursorSessionToken=" +:+ apiToken.

Definition getRequestOptions (w : World)
  : option Agent * gmap string string * World :=
  let config := getConfiguration h (epoch w) in
  let env := process_env h (epoch w) in
  let apiToken := apiToken config in
  let proxyUrl := proxy config in
  let proxyUrl :=
    if negb (truthy proxyUrl) || negb (truthy (trim <$> proxyUrl)) then
      or_string (or_string (or_string (or_string
        (https_proxy env) (HTTPS_PROXY env)) (http_proxy env)) (HTTP_PROXY env))
        (Some "")
    else proxyUrl in
  let headers : gmap string string :=
    <["Accept" := "application/json"]>
      (<["User-Agent" := "Cursor-Usage-Summary-Extension/1.0.0"]> ∅) in
  let headers :=
    match apiToken with
    | Some token =>
        if truthy apiToken then <["Cookie" := cookieHeader token]> headers
        else headers
    | None => headers
    end in
  match proxyUrl with
  | Some url =>
      if truthy proxyUrl && truthy (trim <$> proxyUrl) then
        match HttpsProxyAgent_new h url with
        | None => (Some (HttpsProxyAgent url), headers, w)
        | Some error =>
            (None, headers,
             emit (showErrorMessage
                     ("Cursor Usage: Failed to configure proxy: "
                      +:+ String_of_thrown error)) w)
        end
      else (Some (https_Agent false 1), headers, w)
  | None => (Some (https_Agent false 1), headers, w)
  end.

Definition requestOptions (urlObj : URL) (headers : gmap string string)
    (agent : option Agent) : RequestOptions :=
  {| opt_hostname := hostname urlObj;
     opt_port := if String.eqb (port urlObj) "" then PortNumber 443
                 else PortString (port urlObj);
     opt_path := pathname urlObj +:+ search urlObj;
     opt_method := "GET";
     opt_headers := headers;
     opt_agent := agent;
     opt_rejectUnauthorized := true;
     opt_timeout := 30000 |}.

(** Relative redirects are resolved against the base host. *)
Definition redirectUrl (location : string) : string :=
  if startsWith location "http" then location
  else API_BASE_URL +:+ location.

(** [res.statusCode && res.statusCode >= 300 && res.statusCode < 400] *)
Definition isRedirect (res : IncomingMessage) : bool :=
  match statusCode res with
  | Some code => negb (code =? 0) && (300 <=? code) && (code <? 400)
  | None => false
  end.

(** [res.statusCode !== 200] *)
Definition isNot200 (res : IncomingMessage) : bool :=
  match statusCode res with
  | Some code => negb (code =? 200)
  | None => true
  end.

(** The message of the error for a response that is neither a redirect
    nor a 200: [`HTTP ${res.statusCode}: ${res.statusMessage}`]. *)
Definition httpStatusMessage (res : IncomingMessage) : string :=
  "HTTP " +:+ from_option pretty "undefined" (statusCode res)
  +:+ ": " +:+ default "undefined" (statusMessage res).

(** [data += chunk] for every chunk, from [data = '']. *)
Definition collect (chunks : list string) : string :=
  fold_left String.append chunks "".

(** [maxRedirects] is 5 at the only outer calls and decreases by one per
    redirect followed while it is positive: a natural number. *)
Fixpoint makeHttpsRequest (url : string) (maxRedirects : nat) (w : World)
    {struct maxRedirects} : Result string * World :=
  let '(agent, headers, w) := getRequestOptions w in
  match URL_new h url with
  | None => (Throws (TypeError "Invalid URL"), w)
  | Some urlObj =>
      let options := requestOptions urlObj headers agent in
      let w := emit (Request options) w in
      match https_request h (epoch w) options with
      | RequestError error => (Throws error, tick w)
      | RequestTimeout =>
          (Throws (Error "Request timeout - connection took too long"), tick w)
      | Response res =>
          let w := tick w in
          if isRedirect res then
            match location res with
            | Some loc =>
                if negb (truthy (location res)) then
                  (Throws (Error "Redirect without location header"), w)
                else
                  match maxRedirects with
                  | O =>
                      (Throws (Error "Too many redirects - authentication likely failed"), w)
                  | S remaining =>
                      makeHttpsRequest (redirectUrl loc) remaining w
                  end
            | None => (Throws (Error "Redirect without location header"), w)
            end
          else if isNot200 res then
            (Throws (Error (httpStatusMessage res)), w)
          else
            match streamError res with
            | Some error => (Throws error, w)
            | None => (Ok (collect (chunks res)), w)
            end
      end
  end.

(** *** Orchestrator *)

Definition cacheKey : string := "usage-summary".

(** The [try] block of [getUsageSummary]. *)
Definition getUsageSummary_try (w : World) : Result JSValue * World :=
  let '(response, w) := makeHttpsRequest (API_BASE_URL +:+ API_ENDPOINT) 5 w in
  match response with
  | Throws error => (Throws error, w)
  | Ok responseData =>
      match JSON_parse h responseData with
      | None => (Throws (Error "Invalid JSON response from API"), w)
      | Some parsedData =>
          if negb (ToBoolean parsedData) then
            (Throws (Error "Invalid response structure from API"), w)
          else
            match get parsedData "individualUsage" with
            | Throws error => (Throws error, w)
            | Ok individualUsage =>
                if negb (ToBoolean individualUsage) then
                  (Throws (Error "Invalid response structure from API"), w)
                else
                  (Ok parsedData,
                   {| cache := <[cacheKey :=
                                  {| data := parsedData;
                                     timestamp := Date_now h (epoch w) |}]> (cache w);
                      epoch := epoch w;
                      trace := trace w |})
            end
      end
  end.

(** The text shown for a failed fetch. *)
Definition errorNotification (error : Thrown) : string :=
  match error with
  | ErrorObject _ message =>
      "Cursor Usage: " +:+
      ("Failed to fetch usage data from Cursor API: " +:+
       (if includes message "Too many redirects" then
          "Redirect loop detected. Your API token may be invalid or expired."
        else if includes message "ECONNREFUSED" then
          "Connection refused. Check if proxy is accessible."
        else if includes message "ENOTFOUND" then
          "DNS resolution failed. Check network connectivity."
        else if includes message "timeout" then
          "Request timed out. Check network connectivity and proxy settings."
        else if includes message "401" then
          "Invalid or expired authentication token."
        else if includes message "403" then
          "Access denied. The API token may not have the required permissions."
        else if includes message "404" then
          "API endpoint not found."
        else message))
  | ThrownValue _ =>
      "Cursor Usage: Network error - " +:+ String_of_thrown error
  end.

(** The [catch] block of [getUsageSummary]; [cached] is what the cache
    held when the call started. *)
Definition getUsageSummary_catch (cached : option CacheEntry)
    (error : Thrown) (w : World) : Result JSValue * World :=
  let w := emit (showErrorMessage (errorNotification error)) w in
  match cached with
  | Some entry =>
      (Ok (data entry),
       emit (showWarningMessage "Cursor Usage: Using cached data due to API error") w)
  | None =>
      (Ok getMockUsageData,
       emit (showWarningMessage "Cursor Usage: Using demo data") w)
  end.

(** [!forceRefresh && cached && Date.now() - cached.timestamp < CACHE_DURATION] *)
Definition cacheHit (forceRefresh : bool) (cached : option CacheEntry)
    (now : Z) : bool :=
  negb forceRefresh &&
  match cached with
  | Some entry => now - timestamp entry <? CACHE_DURATION
  | None => false
  end.

Definition getUsageSummary (forceRefresh : bool) (w : World)
  : Result JSValue * World :=
  let cached := cache w !! cacheKey in
  match cached, cacheHit forceRefresh cached (Date_now h (epoch w)) with
  | Some entry, true => (Ok (data entry), w)
  | _, _ =>
      let apiConfig := getConfiguration h (epoch w) in
      if negb (truthy (apiToken apiConfig)) then
        (Ok getMockUsageData,
         emit (showWarningMessage
                 "Cursor Usage: No API token configured. Using mock data.") w)
      else
        match getUsageSummary_try w with
        | (Ok parsedData, w) => (Ok parsedData, w)
        | (Throws error, w) => getUsageSummary_catch cached error w
        end
  end.

Definition clearCache (w : World) : World :=
  {| cache := ∅; epoch := epoch w; trace := trace w |}.

Definition updateApiToken (w : World) : World := clearCache w.

Definition testConnectivity (w : World) : bool * World :=
  let '(response, w) := makeHttpsRequest (API_BASE_URL +:+ API_ENDPOINT) 5 w in
  match response with
  | Ok responseData =>
      match JSON_parse h responseData with
      | Some _ => (true, w)
      | None => (false, w)
      end
  | Throws _ => (false, w)
  end.

(** *** Derived accessors *)

(** [Math.round((used / limit) * 100)] on the two properties of a bucket:
    both are read, then converted to numbers, [used] first. *)
Definition bucketPercentage (bucket : JSValue) : Result number :=
  match get bucket "used", get bucket "limit" with
  | Ok used, Ok limit =>
      match toNumber used with
      | Throws error => Throws error
      | Ok u =>
          match toNumber limit with
          | Throws error => Throws error
          | Ok l => Ok (Math_round (mul (div u l) (of_Z 100)))
          end
      end
  | Throws error, _ => Throws error
  | _, Throws error => Throws error
  end.

Definition getIndividualUsagePercentage (usageData : JSValue) : Result number :=
  match get usageData "individualUsage" with
  | Throws error => Throws error
  | Ok individualUsage =>
      let overall := get_opt individualUsage "overall" in
      if negb (ToBoolean overall) then Ok (of_Z 0)
      else bucketPercentage overall
  end.

(** One bucket of [getTeamUsageInfo]; [name] is ["onDemand"] or
    ["pooled"]. *)
Definition teamBucket (teamUsage : JSValue) (name : string) : Result BucketInfo :=
  let bucket := get_opt teamUsage name in
  match (if ToBoolean bucket then bucketPercentage bucket else Ok (of_Z 0)) with
  | Throws error => Throws error
  | Ok p =>
      Ok {| percentage := p;
            used := JS.or (get_opt bucket "used") (JSNumber (of_Z 0));
            limit := JS.or (get_opt bucket "limit") (JSNumber (of_Z 0)) |}
  end.

Definition getTeamUsageInfo (usageData : JSValue) : Result TeamUsageInfo :=
  match get usageData "teamUsage" with
  | Throws error => Throws error
  | Ok teamUsage =>
      match teamBucket teamUsage "onDemand", teamBucket teamUsage "pooled" with
      | Ok od, Ok po => Ok {| onDemand := od; pooled := po |}
      | Throws error, _ => Throws error
      | _, Throws error => Throws error
      end
  end.

End Service.

End UsageService.
Export UsageService.

(** ** Vocabulary of the statements *)

Definition endpoint : string := API_BASE_URL +:+ API_ENDPOINT.

(** What the fallback ladder yields in a world: the resident entry's data,
    whatever its age, else the placeholder. *)
Definition fallback (w : World) : JSValue :=
  match cache w !! cacheKey with
  | Some entry => data entry
  | None => getMockUsageData
  end.

(** The three ways a fetch fails. *)
Inductive FetchFailure (h : Host) (w : World) : Prop :=
| TransportFailure error w1 :
    makeHttpsRequest h endpoint 5 w = (Throws error, w1) ->
    FetchFailure h w
| ParseFailure body w1 :
    makeHttpsRequest h endpoint 5 w = (Ok body, w1) ->
    JSON_parse h body = None ->
    FetchFailure h w
| StructureFailure body w1 parsed :
    makeHttpsRequest h endpoint 5 w = (Ok body, w1) ->
    JSON_parse h body = Some parsed ->
    ToBoolean parsed && ToBoolean (get_opt parsed "individualUsage") = false ->
    FetchFailure h w.

(** A fetch that succeeds and validates: the body, what it parses to, and
    the world the transport leaves. *)
Definition FetchSuccess (h : Host) (w : World) (parsed : JSValue) (w1 : World) : Prop :=
  exists body,
    makeHttpsRequest h endpoint 5 w = (Ok body, w1) /\
    JSON_parse h body = Some parsed /\
    ToBoolean parsed = true /\
    ToBoolean (get_opt parsed "individualUsage") = true.

Definition nonNull (v : JSValue) : Prop := v <> JSNull /\ v <> JSUndefined.

Definition cacheInvariant (w : World) : Prop :=
  forall key entry,
    cache w !! key = Some entry ->
    nonNull (get_opt (data entry) "individualUsage").

(** The buckets the percentage helpers read. *)
Definition individualBucket (usageData : JSValue) : JSValue :=
  get_opt (get_opt usageData "individualUsage") "overall".

Definition teamBucketOf (usageData : JSValue) (name : string) : JSValue :=
  get_opt (get_opt usageData "teamUsage") name.

(** From epoch [e] on, request number [k] is answered, whatever its
    options, by a 3xx response carrying the [k]-th of [locs] as its
    [Location], and every such location leads to a well-formed URL. *)
Definition redirectChain (h : Host) (e : nat) (locs : list string) : Prop :=
  forall (k : nat) (loc : string),
    locs !! k = Some loc ->
    loc <> "" /\
    is_Some (URL_new h (redirectUrl loc)) /\
    forall options, exists res,
      https_request h (e + k)%nat options = Response res /\
      isRedirect res = true /\
      location res = Some loc.

(** The [Cookie] header that the settings of epoch [e] give rise to. *)
Definition configuredCookie (h : Host) (e : nat) : option string :=
  match apiToken (getConfiguration h e) with
  | Some token => if truthy (Some token) then Some (cookieHeader token) else None
  | None => None
  end.

(** The options of the request the transport issues first, for a parsed
    [url], in world [w]. *)
Definition firstOptions (h : Host) (urlObj : URL) (w : World) : RequestOptions :=
  requestOptions urlObj (getRequestOptions h w).1.2 (getRequestOptions h w).1.1.

(** The world once that request has been issued and answered. *)
Definition afterFirst (h : Host) (urlObj : URL) (w : World) : World :=
  tick (emit (Request (firstOptions h urlObj w)) (getRequestOptions h w).2).

(** What [Math.round((used / limit) * 100)] is when [limit] is the zero of
    sign [s]: no number for a zero or NaN [used], an infinity otherwise. *)
Definition zeroLimitPercentage (used : number) (s : bool) : number :=
  match used with
  | S754_zero _ | S754_nan => NaN
  | S754_infinity su | S754_finite su _ _ => S754_infinity (xorb su s)
  end.

(** A value other than an object or an array. *)
Definition primitive (v : JSValue) : Prop :=
  match v with
  | JSArray _ | JSObject _ => False
  | _ => True
  end.

(** [used] and [limit] of a bucket convert to the numbers [u] and [l]. *)
Definition figuresOf (h : Host) (bucket : JSValue) (u l : number) : Prop :=
  toNumber h (get_opt bucket "used") = Ok u /\
  toNumber h (get_opt bucket "limit") = Ok l.

(** A bucket that is absent, or whose [used] and [limit] convert to
    numbers. *)
Definition convertible (h : Host) (bucket : JSValue) : Prop :=
  ToBoolean bucket = false \/ exists u l, figuresOf h bucket u l.

(** The requests a step added to the trace. *)
Definition newRequests (w w' : World) (added : list RequestOptions) : Prop :=
  requests w' = (requests w ++ added)%list.

(** ** Concrete hosts and worlds, used to exercise the statements *)

Module Demo.

(** A [URL] that reads the URLs of the service's own host. *)
Definition parseURL (url : string) : option URL :=
  if startsWith url "https://cursor.com/" then
    Some {| hostname := "cursor.com"; port := "";
            pathname := String.substring 18 (String.length url - 18) url;
            search := "" |}
  else None.

Definition quote : string := String (ascii_of_nat 34) EmptyString.

(** The body [{"individualUsage":{}}]. *)
Definition minimalBody : string :=
  "{" +:+ quote +:+ "individualUsage" +:+ quote +:+ ":{}}".

Definition minimalSummary : JSValue :=
  JSObject [("individualUsage", JSObject [])].

(** [JSON.parse] on the three bodies the demonstrations use; it rejects
    every other text. *)
Definition parseJSON (text : string) : option JSValue :=
  if String.eqb text minimalBody then Some minimalSummary
  else if String.eqb text "{}" then Some (JSObject [])
  else if String.eqb text "null" then Some JSNull
  else None.

Definition host (token : option string) (network : nat -> Outcome) : Host :=
  {| getConfiguration := fun _ => {| apiToken := token; proxy := None |};
     process_env := fun _ =>
       {| https_proxy := None; HTTPS_PROXY := None;
          http_proxy := None; HTTP_PROXY := None |};
     Date_now := fun e => 1000000 + 1000 * Z.of_nat e;
     https_request := fun e _ => network e;
     URL_new := parseURL;
     HttpsProxyAgent_new := fun _ => None;
     JSON_parse := parseJSON;
     NumberToString := fun _ => "";
     StringToNumber := fun _ => NaN |}.

Definition respond (code : Z) (message : string) (loc : option string)
    (body : list string) : Outcome :=
  Response {| statusCode := Some code; statusMessage := Some message;
              location := loc; chunks := body; streamError := None |}.

(** Every request is redirected to the login page. *)
Definition loginLoop : nat -> Outcome :=
  fun _ => respond 302 "Found" (Some "/login") [].

(** Three redirects, then the summary in two chunks. *)
Definition threeHops : nat -> Outcome :=
  fun e => if (e <? 3)%nat then respond 307 "Temporary Redirect" (Some "/api/usage-summary") []
           else respond 200 "OK" None ["{" +:+ quote +:+ "individualUsage"; quote +:+ ":{}}"].

Definition created : nat -> Outcome :=
  fun _ => respond 201 "Created" None ["{}"].

Definition refused : nat -> Outcome :=
  fun _ => RequestError (Error "connect ECONNREFUSED 127.0.0.1:443").

Definition start : World := {| cache := ∅; epoch := 0; trace := [] |}.

(** A world whose cache holds [value], written at time [at_]. *)
Definition holding (value : JSValue) (at_ : Z) : World :=
  {| cache := {[ cacheKey := {| data := value; timestamp := at_ |} ]};
     epoch := 0; trace := [] |}.

(** A summary whose individual and on-demand buckets have a zero limit. *)
Definition zeroLimit : JSValue :=
  JSObject [
    ("individualUsage", JSObject [
      ("overall", JSObject [
        ("enabled", JSBool true);
        ("used", JSNumber (of_Z 0));
        ("limit", JSNumber (of_Z 0));
        ("remaining", JSNumber (of_Z 0))])]);
    ("teamUsage", JSObject [
      ("onDemand", JSObject [
        ("enabled", JSBool true);
        ("used", JSNumber (of_Z 794));
        ("limit", JSNumber (of_Z 0));
        ("remaining", JSNumber (of_Z 0))])])
  ].

(** A summary that validates, with a [used] that is an object with a
    [toString] key. *)
Definition unconvertible : JSValue :=
  JSObject [("individualUsage", JSObject [("overall", JSObject [
    ("used", JSObject [("toString", JSNumber (of_Z 1))]);
    ("limit", JSNumber (of_Z 5000))])])].

End Demo.

(** ** Further vocabulary *)

(** From epoch [e] on, request number [k] is answered by [res], whatever
    its options. *)
Definition answersWith (h : Host) (e : nat) (res : IncomingMessage) : Prop :=
  forall options, https_request h e options = Response res.

(** What every request of the service looks like, its target apart. *)
Definition standardRequest (o : RequestOptions) : Prop :=
  opt_method o = "GET" /\
  opt_timeout o = 30000 /\
  opt_rejectUnauthorized o = true /\
  opt_headers o !! "User-Agent" = Some "Cursor-Usage-Summary-Extension/1.0.0" /\
  opt_headers o !! "Accept" = Some "application/json" /\
  forall name : string,
    is_Some (opt_headers o !! name) ->
    name = "User-Agent" \/ name = "Accept" \/ name = "Cookie".

(** The same host in another process environment. *)
Definition withEnvironment (h : Host) (env : nat -> ProcessEnv) : Host :=
  {| getConfiguration := getConfiguration h;
     process_env := env;
     Date_now := Date_now h;
     https_request := https_request h;
     URL_new := URL_new h;
     HttpsProxyAgent_new := HttpsProxyAgent_new h;
     JSON_parse := JSON_parse h;
     NumberToString := NumberToString h;
     StringToNumber := StringToNumber h |}.

(** The four proxy variables in the order the service consults them. *)
Definition proxyVariables (env : ProcessEnv) : list (option string) :=
  [https_proxy env; HTTPS_PROXY env; http_proxy env; HTTP_PROXY env].

(** The agent for a proxy URL that is not blank: the proxy agent, or none
    when its constructor throws. *)
Definition proxyAgentFor (h : Host) (proxyUrl : string) : option Agent :=
  match HttpsProxyAgent_new h proxyUrl with
  | None => Some (HttpsProxyAgent proxyUrl)
  | Some _ => None
  end.

(** More hosts for the demonstrations: with a proxy setting, a process
    environment and a proxy agent constructor that rejects some URLs. *)
Module Scenario.

Definition environment (a b c d : option string) : ProcessEnv :=
  {| https_proxy := a; HTTPS_PROXY := b; http_proxy := c; HTTP_PROXY := d |}.

Definition host (token proxySetting : option string) (env : ProcessEnv)
    (network : nat -> Outcome) : Host :=
  {| getConfiguration := fun _ => {| apiToken := token; proxy := proxySetting |};
     process_env := fun _ => env;
     Date_now := fun e => 1000000 + 1000 * Z.of_nat e;
     https_request := fun e _ => network e;
     URL_new := Demo.parseURL;
     HttpsProxyAgent_new := fun url =>
       if startsWith (trim url) "http" then None
       else Some (TypeError "Invalid URL");
     JSON_parse := Demo.parseJSON;
     NumberToString := fun _ => "";
     StringToNumber := fun _ => NaN |}.

Definition noProxy : ProcessEnv := environment None None None None.

End Scenario.

(** [!proxyUrl || !proxyUrl.trim()]: unset, empty, or white space only. *)
Definition isBlank (s : option string) : bool :=
  negb (truthy s) || negb (truthy (trim <$> s)).

(** The proxy URL that [getRequestOptions] settles on in world [w] is
    [url], which is not blank: the setting, or with a blank setting the
    first proxy variable that is set and not empty. *)
Definition settlesOn (h : Host) (w : World) (url : string) : Prop :=
  trim url <> "" /\
  (proxy (getConfiguration h (epoch w)) = Some url \/
   isBlank (proxy (getConfiguration h (epoch w))) = true /\
   exists i : nat,
     proxyVariables (process_env h (epoch w)) !! i = Some (Some url) /\
     forall (j : nat) (u : option string),
       (j < i)%nat ->
       proxyVariables (process_env h (epoch w)) !! j = Some u ->
       truthy u = false).

(** The warning that goes with the fallback ladder. *)
Definition fallbackWarning (w : World) : string :=
  match cache w !! cacheKey with
  | Some _ => "Cursor Usage: Using cached data due to API error"
  | None => "Cursor Usage: Using demo data"
  end.

(** A call that falls back, in world [w1] once the transport is done, with
    the given explanation shown to the user. *)
Definition fallsBack (h : Host) (forceRefresh : bool) (w w1 : World)
    (explanation : string) : Prop :=
  getUsageSummary h forceRefresh w =
    (Ok (fallback w),
     emit (showWarningMessage (fallbackWarning w))
       (emit (showErrorMessage
                ("Cursor Usage: Failed to fetch usage data from Cursor API: "
                 +:+ explanation)) w1)).

(** [message] contains none of [keywords]. *)
Definition mentionsNone (message : string) (keywords : list string) : Prop :=
  forall keyword : string, keyword ∈ keywords -> includes message keyword = false.

(** A number other than the zeros and NaN. *)
Definition isNonZero (n : number) : Prop :=
  match n with
  | S754_zero _ | S754_nan => False
  | _ => True
  end.

(** What [x || 0] can be: [x] itself when truthy, the number 0 otherwise. *)
Definition truthyOrZero (v : JSValue) : Prop :=
  ToBoolean v = true \/ v = JSNumber (of_Z 0).

(** [field] is the summary's [own] value when that is truthy, and the
    number 0 when it is not. *)
Definition ownOrZero (own field : JSValue) : Prop :=
  (ToBoolean own = true -> field = own) /\
  (ToBoolean own = false -> field = JSNumber (of_Z 0)).

Definition emptyBucketInfo : BucketInfo :=
  {| percentage := of_Z 0; used := JSNumber (of_Z 0); limit := JSNumber (of_Z 0) |}.

(** ** The token prompt of the extension ([extension.ts]) *)

Module Extension.

(** [validateInput] of the token input box: the complaint shown, or
    [None] for [undefined], which accepts the value. Lengths are counted in
    characters of the string as it is held here, which are the UTF-16 units
    of the source for a token in ASCII. *)
Definition validateInput (value : string) : option string :=
  if negb (truthy (Some value)) || (String.length (trim value) =? 0)%nat then
    Some "Token cannot be empty"
  else if (String.length value <? 50)%nat then
    Some "Token seems too short. Make sure you copied the entire value."
  else if negb (includes value "::") && negb (includes value "user_") then
    Some "Token format looks incorrect. Should contain user_ID::JWT_TOKEN"
  else None.

End Extension.

(** ** The request of the diagnostic script ([test-api.js]) *)

Module TestApi.

(** What the script fixes when it starts: the token of its first argument,
    the proxy of its second argument or of the environment, and whether the
    optional [https-proxy-agent] module could be loaded. *)
Record Script := {
  token : string;
  proxyUrl : option string;
  proxyAgentLoaded : bool
}.

(** How a call of [makeRequest] comes out: its promise settles, or the
    response stream fails, which nothing listens for, and the process
    dies of it. *)
Inductive Ending :=
| Settled (r : Result string)
| Uncaught (e : Thrown).

Section Script.
Context (h : Host) (script : Script).

Definition cookieHeader : string :=
  if startsWith (token script) "WorkosCursorSessionToken=" then token script
  else "WorkosCursorSessionToken=" +:+ token script.

Definition headers : gmap string string :=
  <["Cookie" := cookieHeader]>
    (<["Accept" := "application/json"]>
       (<["User-Agent" := "Cursor-Usage-Summary-Extension/1.0.0"]> ∅)).

Definition requestOptions (urlObj : URL) (agent : option Agent) : RequestOptions :=
  {| opt_hostname := hostname urlObj;
     opt_port := if String.eqb (port urlObj) "" then PortNumber 443
                 else PortString (port urlObj);
     opt_path := pathname urlObj +:+ search urlObj;
     opt_method := "GET";
     opt_headers := headers;
     opt_agent := agent;
     opt_rejectUnauthorized := true;
     opt_timeout := 15000 |}.

(** [res.statusCode >= 300 && res.statusCode < 400] *)
Definition isRedirect (res : IncomingMessage) : bool :=
  match statusCode res with
  | Some code => (300 <=? code) && (code <? 400)
  | None => false
  end.

Fixpoint makeRequest (url : string) (maxRedirects : nat) (w : World)
    {struct maxRedirects} : Ending * World :=
  match URL_new h url with
  | None => (Settled (Throws (TypeError "Invalid URL")), w)
  | Some urlObj =>
      let agent :=
        match proxyUrl script with
        | Some proxy =>
            if truthy (proxyUrl script) && proxyAgentLoaded script then
              match HttpsProxyAgent_new h proxy with
              | None => Ok (Some (HttpsProxyAgent proxy))
              | Some error => Throws error
              end
            else Ok None
        | None => Ok None
        end in
      match agent with
      | Throws error => (Settled (Throws error), w)
      | Ok agent =>
          let options := requestOptions urlObj agent in
          let w := emit (Request options) w in
          match https_request h (epoch w) options with
          | RequestError error => (Settled (Throws error), tick w)
          | RequestTimeout => (Settled (Throws (Error "Request timed out")), tick w)
          | Response res =>
              let w := tick w in
              if isRedirect res then
                match location res with
                | Some loc =>
                    if negb (truthy (location res)) then
                      (Settled (Throws (Error "Redirect without location header")), w)
                    else
                      match maxRedirects with
                      | O =>
                          (Settled (Throws (Error
                             "Too many redirects - authentication likely failed")), w)
                      | S remaining =>
                          makeRequest
                            (if startsWith loc "http" then loc
                             else "https://cursor.com" +:+ loc)
                            remaining w
                      end
                | None =>
                    (Settled (Throws (Error "Redirect without location header")), w)
                end
              else if isNot200 res then
                (Settled (Throws (Error (httpStatusMessage res))), w)
              else
                match streamError res with
                | Some error => (Uncaught error, w)
                | None => (Settled (Ok (collect (chunks res))), w)
                end
          end
      end
  end.

End Script.

End TestApi.

(** Two options that differ at most in agent and timeout. *)
Definition sameTarget (o o' : RequestOptions) : Prop :=
  opt_hostname o = opt_hostname o' /\
  opt_port o = opt_port o' /\
  opt_path o = opt_path o' /\
  opt_method o = opt_method o' /\
  opt_headers o = opt_headers o' /\
  opt_rejectUnauthorized o = opt_rejectUnauthorized o'.

(** A network whose answers do not depend on the agent or on the timeout
    of a request, that times no request out and breaks no response
    stream. *)
Definition steadyNetwork (h : Host) : Prop :=
  (forall (e : nat) (o o' : RequestOptions),
     sameTarget o o' -> https_request h e o = https_request h e o') /\
  (forall (e : nat) (o : RequestOptions),
     https_request h e o <> RequestTimeout) /\
  (forall (e : nat) (o : RequestOptions) (res : IncomingMessage),
     https_request h e o = Response res -> streamError res = None).



(** Whenever the script builds a proxy agent, which it does when it has a
    proxy URL and the module is loaded, the constructor succeeds. *)
Definition scriptProxyWorks (h : Host) (script : TestApi.Script) : Prop :=
  forall proxy : string,
    TestApi.proxyUrl script = Some proxy ->
    proxy <> "" ->
    TestApi.proxyAgentLoaded script = true ->
    HttpsProxyAgent_new h proxy = None.

(** ** The status bar ([statusBarManager.ts]) *)

Module StatusBar.

(** The three properties of the status bar item that an update writes. *)
Record StatusBarItem := {
  text : string;
  tooltip : string;
  backgroundColor : option string
}.

(** What the display reads besides the service: the [compactMode] setting,
    and the platform's [toLocaleString], which for a number always gives a
    text and for another value that is not [null] or [undefined] gives a
    text or throws. *)
Record Display := {
  compactMode : nat -> bool;
  NumberToLocaleString : number -> string;
  toLocaleString_other : JSValue -> Result string
}.

Definition newline : string := String (ascii_of_nat 10) EmptyString.

Definition errorBackground : option string := Some "statusBarItem.errorBackground".

Section Manager.
Context (h : Host) (d : Display).

(** [v.toLocaleString()] *)
Definition toLocaleString (v : JSValue) : Result string :=
  match v with
  | JSUndefined =>
      Throws (TypeError "Cannot read properties of undefined (reading 'toLocaleString')")
  | JSNull =>
      Throws (TypeError "Cannot read properties of null (reading 'toLocaleString')")
  | JSNumber n => Ok (NumberToLocaleString d n)
  | _ => toLocaleString_other d v
  end.

(** [a >= b] and [a > b] on numbers. *)
Definition ge (a b : number) : bool := SFleb b a.
Definition gt (a b : number) : bool := SFltb b a.

(** [`${used.toLocaleString()} / ${limit.toLocaleString()} (${percentage}%)`] *)
Definition figures (used limit : JSValue) (percentage : number) : Result string :=
  match toLocaleString used with
  | Throws error => Throws error
  | Ok u =>
      match toLocaleString limit with
      | Throws error => Throws error
      | Ok l => Ok (u +:+ " / " +:+ l +:+ " (" +:+ NumberToString h percentage +:+ "%)")
      end
  end.

(** One line of the team part of the tooltip, when the bucket is in use. *)
(** [v > 0]: [v] is converted to a number first. *)
Definition positive (v : JSValue) : Result bool :=
  match toNumber h v with
  | Throws error => Throws error
  | Ok n => Ok (gt n (of_Z 0))
  end.

Definition teamLine (label : string) (bucket : BucketInfo) (tooltipMessage : string)
  : Result string :=
  match positive (used bucket) with
  | Throws error => Throws error
  | Ok true =>
      match figures (used bucket) (limit bucket) (percentage bucket) with
      | Throws error => Throws error
      | Ok f => Ok (tooltipMessage +:+ newline +:+ "• " +:+ label +:+ ": " +:+ f)
      end
  | Ok false => Ok tooltipMessage
  end.

Definition updateStatusBarDisplay (usageData : JSValue) (e : nat)
    (item : StatusBarItem) : Result unit * StatusBarItem :=
  match get usageData "individualUsage" with
  | Throws error => (Throws error, item)
  | Ok individualUsageSection =>
      let individualUsage := get_opt individualUsageSection "overall" in
      let isCompact := compactMode d e in
      if negb (ToBoolean individualUsage) then
        (Ok tt,
         {| text := if isCompact then "$(warning) N/A" else "$(warning) Usage: N/A";
            tooltip := tooltip item;
            backgroundColor := None |})
      else
        match getIndividualUsagePercentage h usageData with
        | Throws error => (Throws error, item)
        | Ok percentage =>
            let remaining := get_opt individualUsage "remaining" in
            let '(icon, background) :=
              if ge percentage (of_Z 80) then ("$(error)", errorBackground)
              else if ge percentage (of_Z 60) then ("$(warning)", None)
              else ("$(check)", None) in
            let newText :=
              if isCompact then
                Ok (icon +:+ " " +:+ NumberToString h percentage +:+ "%")
              else
                match toLocaleString remaining with
                | Throws error => Throws error
                | Ok r =>
                    Ok (icon +:+ " Usage: " +:+ NumberToString h percentage
                        +:+ "% (" +:+ r +:+ " remaining)")
                end in
            match newText with
            | Throws error => (Throws error, item)
            | Ok newText =>
                let item := {| text := newText;
                               tooltip := tooltip item;
                               backgroundColor := background |} in
                match figures (get_opt individualUsage "used")
                              (get_opt individualUsage "limit") percentage with
                | Throws error => (Throws error, item)
                | Ok f =>
                    let tooltipMessage := "Individual Usage: " +:+ f in
                    match getTeamUsageInfo h usageData with
                    | Throws error => (Throws error, item)
                    | Ok teamUsage =>
                        let inUse :=
                          match positive (used (onDemand teamUsage)) with
                          | Throws error => Throws error
                          | Ok true => Ok true
                          | Ok false => positive (used (pooled teamUsage))
                          end in
                        let withTeam :=
                          match inUse with
                          | Throws error => Throws error
                          | Ok true =>
                              match teamLine "On-Demand" (onDemand teamUsage)
                                      (tooltipMessage +:+ newline +:+ newline
                                       +:+ "Team Usage:") with
                              | Throws error => Throws error
                              | Ok t => teamLine "Pooled" (pooled teamUsage) t
                              end
                          | Ok false => Ok tooltipMessage
                          end in
                        match withTeam with
                        | Throws error => (Throws error, item)
                        | Ok t =>
                            (Ok tt,
                             {| text := text item;
                                tooltip := t +:+ newline +:+ newline
                                           +:+ "Click for detailed view";
                                backgroundColor := backgroundColor item |})
                        end
                    end
                end
            end
        end
  end.

Definition setErrorState (e : nat) (item : StatusBarItem) : StatusBarItem :=
  {| text := if compactMode d e then "$(error) Error" else "$(error) Usage: Error";
     backgroundColor := errorBackground;
     tooltip := "Error fetching usage data. Click to retry." |}.

Definition updateStatusBar (state : World * StatusBarItem) : World * StatusBarItem :=
  let '(w, item) := state in
  match getUsageSummary h false w with
  | (Ok usageData, w) =>
      match updateStatusBarDisplay usageData (epoch w) item with
      | (Ok _, item) => (w, item)
      | (Throws _, item) => (w, setErrorState (epoch w) item)
      end
  | (Throws _, w) => (w, setErrorState (epoch w) item)
  end.

End Manager.

End StatusBar.

(** [null] or [undefined]. *)
Definition nullish (v : JSValue) : Prop := v = JSNull \/ v = JSUndefined.

(** A bucket whose three figures are numbers. *)
Definition numericBucket (bucket : JSValue) : Prop :=
  exists u l r,
    get_opt bucket "used" = JSNumber u /\
    get_opt bucket "limit" = JSNumber l /\
    get_opt bucket "remaining" = JSNumber r.

(** A team bucket that is absent, or whose [used] and [limit] are numbers. *)
Definition numericOrAbsent (bucket : JSValue) : Prop :=
  ToBoolean bucket = false \/
  exists u l, get_opt bucket "used" = JSNumber u /\ get_opt bucket "limit" = JSNumber l.

(** Numbers as the demonstrations print them: NaN, the infinities and the
    integers as JavaScript does, any other number by its integer part. *)
Definition printNumber (n : number) : string :=
  match n with
  | S754_nan => "NaN"
  | S754_infinity false => "Infinity"
  | S754_infinity true => "-Infinity"
  | S754_zero _ => "0"
  | S754_finite s m e =>
      (if s then "-" else "")
      +:+ pretty (if 0 <=? e then Z.pos m * 2 ^ e else Z.pos m / 2 ^ (- e))
  end.

(** The same host, printing numbers. *)
Definition printing (h : Host) : Host :=
  {| getConfiguration := getConfiguration h;
     process_env := process_env h;
     Date_now := Date_now h;
     https_request := https_request h;
     URL_new := URL_new h;
     HttpsProxyAgent_new := HttpsProxyAgent_new h;
     JSON_parse := JSON_parse h;
     NumberToString := printNumber;
     StringToNumber := StringToNumber h |}.

(** A display for the demonstrations. *)
Definition demoDisplay (compact : bool) : StatusBar.Display :=
  {| StatusBar.compactMode := fun _ => compact;
     StatusBar.NumberToLocaleString := printNumber;
     StatusBar.toLocaleString_other := fun _ => Ok "?" |}.

Definition isNumber (v : JSValue) : Prop := exists n, v = JSNumber n.

(** The icon and the background the display picks for a percentage. *)
Definition iconFor (p : number) : string :=
  if StatusBar.ge p (of_Z 80) then "$(error)"
  else if StatusBar.ge p (of_Z 60) then "$(warning)"
  else "$(check)".

(** A summary whose individual bucket holds the numbers [used] and [limit]
    and the properties [more]. *)
Definition sampleSummary (used limit : Z) (more : list (string * JSValue)) : JSValue :=
  JSObject [("individualUsage", JSObject [("overall", JSObject (
    ("used", JSNumber (of_Z used)) :: ("limit", JSNumber (of_Z limit)) :: more))])].

(** Every key of the cache is the one key the service uses. *)
Definition singleEntry (w : World) : Prop :=
  forall key entry, cache w !! key = Some entry -> key = cacheKey.

(** ** Facts about the trace *)

Lemma requests_emit (ev : Event) (w : World) :
  requests (emit ev w) =
  (requests w ++ match ev with Request o => [o] | _ => [] end)%list.
Proof.
  unfold requests, emit; simpl.
  rewrite omap_app; simpl.
  destruct ev; reflexivity.
Qed.

Lemma requests_tick (w : World) : requests (tick w) = requests w.
Proof. reflexivity. Qed.

Lemma newRequests_refl (w : World) : newRequests w w [].
Proof. unfold newRequests. now rewrite app_nil_r. Qed.

(** Closes a branch of [makeHttpsRequest] that issued exactly one request,
    given the fact [H] about such branches. *)
Ltac settle H :=
  apply H;
  [ reflexivity
  | reflexivity
  | cbn [snd]; rewrite requests_tick, requests_emit; reflexivity ].

Section Transport.
Context (h : Host).

(** [getRequestOptions] touches neither the cache nor the clock and
    issues no request. *)
Lemma getRequestOptions_frame (w : World) :
  cache (getRequestOptions h w).2 = cache w /\
  epoch (getRequestOptions h w).2 = epoch w /\
  requests (getRequestOptions h w).2 = requests w.
Proof.
  unfold getRequestOptions.
  repeat case_match; simpl; rewrite ?requests_emit, ?app_nil_r; auto.
Qed.

Lemma getRequestOptions_cookie (w : World) :
  (getRequestOptions h w).1.2 !! "Cookie" = configuredCookie h (epoch w).
Proof.
  unfold getRequestOptions, configuredCookie.
  destruct (apiToken (getConfiguration h (epoch w))) as [token|];
    repeat case_match; simpl; simplify_map_eq; auto.
Qed.

(** One call of the transport: the cache is untouched; every request it
    issues advances the epoch by one, and request number [k] carries the
    cookie of the settings read at that moment. *)
Lemma makeHttpsRequest_frame (n : nat) :
  forall (url : string) (w : World),
    cache (makeHttpsRequest h url n w).2 = cache w /\
    exists added,
      newRequests w (makeHttpsRequest h url n w).2 added /\
      epoch (makeHttpsRequest h url n w).2 = (epoch w + length added)%nat /\
      (is_Some (URL_new h url) -> added <> []) /\
      forall (k : nat) (o : RequestOptions),
        added !! k = Some o ->
        opt_headers o !! "Cookie" = configuredCookie h (epoch w + k).
Proof.
  induction n as [|n IH]; intros url w; simpl;
    pose proof (getRequestOptions_frame w) as (Hc & He & Hr);
    pose proof (getRequestOptions_cookie w) as Hk;
    destruct (getRequestOptions h w) as [[agent headers] w1]; simpl in *.
  all: destruct (URL_new h url) as [urlObj|]; simpl;
    [| split; [done|]; exists []; rewrite Nat.add_0_r;
       split; [unfold newRequests; now rewrite Hr, app_nil_r|];
       split; [done|]; split; [intros [? ?]; done|done] ].
  all: set (options := requestOptions urlObj headers agent).
  all: assert (Hone : forall w2 : World,
         cache w2 = cache w1 -> epoch w2 = S (epoch w1) ->
         requests w2 = (requests w1 ++ [options])%list ->
         cache w2 = cache w /\
         exists added, newRequests w w2 added /\
           epoch w2 = (epoch w + length added)%nat /\
           (is_Some (Some urlObj) -> added <> []) /\
           forall (k : nat) (o : RequestOptions), added !! k = Some o ->
             opt_headers o !! "Cookie" = configuredCookie h (epoch w + k)).
  1,3: intros w2 Hc2 He2 Hr2; split; [congruence|]; exists [options];
       split; [unfold newRequests; congruence|];
       split; [simpl; lia|]; split; [done|];
       intros [|k] o Hko; [|done]; simpl in Hko; inversion Hko; subst o;
       rewrite Nat.add_0_r; exact Hk.
  all: destruct (https_request h (epoch w1) options) as [error| |res];
    [settle Hone | settle Hone |].
  all: destruct (isRedirect res);
    [| destruct (isNot200 res); [|destruct (streamError res)]; settle Hone].
  all: destruct (location res) as [loc|]; [| settle Hone].
  all: destruct (negb (truthy (Some loc))); try settle Hone.
  (* the redirect is followed *)
  set (w2 := tick (emit (Request options) w1)).
  destruct (IH (redirectUrl loc) w2) as (IHc & rest & IHr & IHe & _ & IHk).
  split; [rewrite IHc; exact Hc|].
  exists (options :: rest). split; [|split; [|split; [done|]]].
  - unfold newRequests in *. rewrite IHr. unfold w2.
    rewrite requests_tick, requests_emit, Hr. now rewrite <- app_assoc.
  - rewrite IHe. unfold w2; simpl. lia.
  - intros [|k] o Hko; simpl in Hko.
    + inversion Hko; subst o. rewrite Nat.add_0_r. exact Hk.
    + rewrite (IHk k o Hko). unfold w2; simpl.
      f_equal. lia.
Qed.

(** What one answered request leads to. *)
Lemma makeHttpsRequest_response (url : string) (n : nat) (w : World)
    (urlObj : URL) (res : IncomingMessage) :
  URL_new h url = Some urlObj ->
  https_request h (epoch w) (firstOptions h urlObj w) = Response res ->
  makeHttpsRequest h url n w =
    let w2 := afterFirst h urlObj w in
    if isRedirect res then
      match location res with
      | Some loc =>
          if negb (truthy (Some loc)) then
            (Throws (Error "Redirect without location header"), w2)
          else
            match n with
            | O => (Throws (Error "Too many redirects - authentication likely failed"), w2)
            | S m => makeHttpsRequest h (redirectUrl loc) m w2
            end
      | None => (Throws (Error "Redirect without location header"), w2)
      end
    else if isNot200 res then (Throws (Error (httpStatusMessage res)), w2)
    else
      match streamError res with
      | Some error => (Throws error, w2)
      | None => (Ok (collect (chunks res)), w2)
      end.
Proof.
  intros Hurl Hres.
  unfold afterFirst, firstOptions in *.
  pose proof (getRequestOptions_frame w) as (_ & He & _).
  destruct n; simpl;
    destruct (getRequestOptions h w) as [[agent headers] w1]; simpl in *;
    rewrite Hurl; simpl; rewrite He, Hres;
    destruct (isRedirect res); try destruct (location res); reflexivity.
Qed.

Lemma truthy_Some (s : string) : s <> "" -> truthy (Some s) = true.
Proof.
  intros Hs. simpl. destruct (String.eqb_spec s ""); [contradiction|reflexivity].
Qed.

Lemma afterFirst_epoch (urlObj : URL) (w : World) :
  epoch (afterFirst h urlObj w) = S (epoch w).
Proof.
  unfold afterFirst; simpl. f_equal. apply getRequestOptions_frame.
Qed.

Lemma redirectChain_tail (e : nat) (loc : string) (locs : list string) :
  redirectChain h e (loc :: locs) -> redirectChain h (S e) locs.
Proof.
  intros Hchain k l Hk.
  destruct (Hchain (S k) l Hk) as (Hne & Hurl & Hres).
  repeat split; auto.
  intros options. replace (S e + k)%nat with (e + S k)%nat by lia. apply Hres.
Qed.

(** A chain one redirect longer than the budget exhausts it. *)
Lemma makeHttpsRequest_redirects (n : nat) :
  forall (locs : list string) (url : string) (w : World),
    length locs = S n ->
    redirectChain h (epoch w) locs ->
    is_Some (URL_new h url) ->
    exists w',
      makeHttpsRequest h url n w =
        (Throws (Error "Too many redirects - authentication likely failed"), w').
Proof.
  induction n as [|n IH]; intros [|loc locs] url w Hlen Hchain [urlObj Hurl];
    try discriminate.
  all: destruct (Hchain 0%nat loc eq_refl) as (Hne & Hnext & Hres).
  all: destruct (Hres (firstOptions h urlObj w)) as (res & Hans & Hred & Hloc).
  all: rewrite Nat.add_0_r in Hans.
  all: rewrite (makeHttpsRequest_response _ _ _ _ _ Hurl Hans).
  all: cbn zeta; rewrite Hred, Hloc, (truthy_Some _ Hne); cbn [negb].
  - eauto.
  - apply (IH locs).
    + simpl in Hlen. lia.
    + rewrite afterFirst_epoch. eapply redirectChain_tail, Hchain.
    + exact Hnext.
Qed.

(** A response that is not a redirect ends the call with the request that
    it answers. *)
Lemma makeHttpsRequest_final (url : string) (n : nat) (w : World)
    (urlObj : URL) (res : IncomingMessage) :
  URL_new h url = Some urlObj ->
  https_request h (epoch w) (firstOptions h urlObj w) = Response res ->
  isRedirect res = false ->
  (makeHttpsRequest h url n w).2 = afterFirst h urlObj w.
Proof.
  intros Hurl Hres Hnot.
  rewrite (makeHttpsRequest_response _ _ _ _ _ Hurl Hres). cbv zeta.
  rewrite Hnot. destruct (isNot200 res); [reflexivity|].
  destruct (streamError res); reflexivity.
Qed.

(** Redirects within the budget are all followed: past [k] of them the
    transport has waited for the network [k + 1] times at least, and just
    so many times when the answer that comes next is not a redirect. *)
Lemma makeHttpsRequest_chain (locs : list string) :
  forall (n : nat) (url : string) (w : World),
    (length locs <= n)%nat ->
    redirectChain h (epoch w) locs ->
    is_Some (URL_new h url) ->
    (epoch w + S (length locs) <= epoch (makeHttpsRequest h url n w).2)%nat /\
    forall res : IncomingMessage,
      (forall options,
         https_request h (epoch w + length locs) options = Response res) ->
      isRedirect res = false ->
      epoch (makeHttpsRequest h url n w).2 = (epoch w + S (length locs))%nat.
Proof.
  induction locs as [|loc locs IH]; intros n url w Hlen Hchain [urlObj Hurl].
  - split.
    + destruct (makeHttpsRequest_frame n url w) as (_ & added & _ & He & Hne & _).
      rewrite He. destruct added as [|first rest]; [|simpl; lia].
      destruct Hne; [now exists urlObj|reflexivity].
    + intros res Hfinal Hnot. simpl in Hfinal. rewrite Nat.add_0_r in Hfinal.
      rewrite (makeHttpsRequest_final _ _ _ _ _ Hurl (Hfinal _) Hnot).
      rewrite afterFirst_epoch. simpl. lia.
  - destruct n as [|n]; [simpl in Hlen; lia|].
    destruct (Hchain 0%nat loc eq_refl) as (Hne & Hnext & Hres).
    destruct (Hres (firstOptions h urlObj w)) as (res0 & Hans & Hred & Hloc).
    rewrite Nat.add_0_r in Hans.
    rewrite (makeHttpsRequest_response _ _ _ _ _ Hurl Hans). cbv zeta.
    rewrite Hred, Hloc, (truthy_Some _ Hne). cbn [negb].
    destruct (IH n (redirectUrl loc) (afterFirst h urlObj w)) as [Hge Hexact].
    + simpl in Hlen. lia.
    + rewrite afterFirst_epoch. eapply redirectChain_tail, Hchain.
    + exact Hnext.
    + rewrite afterFirst_epoch in *. split; [simpl; lia|].
      intros res Hfinal Hnot. rewrite (Hexact res); [simpl; lia| |exact Hnot].
      intros options.
      replace (S (epoch w) + length locs)%nat
        with (epoch w + length (loc :: locs))%nat by (simpl; lia).
      apply Hfinal.
Qed.
End Transport.

Section Orchestrator.
Context (h : Host).

Lemma get_truthy (v : JSValue) (key : string) :
  ToBoolean v = true -> get v key = Ok (get_opt v key).
Proof. destruct v; simpl; intros Hv; try discriminate; reflexivity. Qed.

Lemma truthy_nonNull (v : JSValue) : ToBoolean v = true -> nonNull v.
Proof. destruct v; simpl; intros Hv; try discriminate; split; discriminate. Qed.

(** The [try] block either validates and writes the one cache entry, or
    fails in one of the three ways and writes nothing. *)
Lemma getUsageSummary_try_cases (w : World) :
  (exists parsed w1,
      FetchSuccess h w parsed w1 /\
      getUsageSummary_try h w =
        (Ok parsed,
         {| cache := <[cacheKey := {| data := parsed;
                                      timestamp := Date_now h (epoch w1) |}]> (cache w1);
            epoch := epoch w1;
            trace := trace w1 |})) \/
  (FetchFailure h w /\
   exists error,
     getUsageSummary_try h w = (Throws error, (makeHttpsRequest h endpoint 5 w).2)).
Proof.
  unfold getUsageSummary_try. fold endpoint.
  destruct (makeHttpsRequest h endpoint 5 w) as [[body|error] w1] eqn:Hreq.
  - destruct (JSON_parse h body) as [parsed|] eqn:Hparse.
    + destruct (ToBoolean parsed) eqn:Hp; simpl.
      * rewrite (get_truthy _ _ Hp).
        destruct (ToBoolean (get_opt parsed "individualUsage")) eqn:Hi; simpl.
        -- left. exists parsed, w1. split; [|reflexivity].
           exists body. auto.
        -- right. split; [|eauto].
           eapply StructureFailure; eauto. now rewrite Hp, Hi.
      * right. split; [|eauto].
        eapply StructureFailure; eauto. now rewrite Hp.
    + right. split; [|eauto]. eapply ParseFailure; eauto.
  - right. split; [|eauto]. eapply TransportFailure; eauto.
Qed.

(** A fetch cannot both fail and succeed. *)
Lemma FetchFailure_not_success (w : World) (parsed : JSValue) (w1 : World) :
  FetchFailure h w -> FetchSuccess h w parsed w1 -> False.
Proof.
  intros Hfail (body & Hreq & Hparse & Hp & Hi).
  destruct Hfail as [e w2 H1 | b w2 H1 H2 | b w2 p H1 H2 H3];
    rewrite Hreq in H1; inversion H1; subst.
  - congruence.
  - rewrite Hparse in H2. inversion H2; subst. now rewrite Hp, Hi in H3.
Qed.

Lemma getUsageSummary_hit (w : World) (entry : CacheEntry) :
  cache w !! cacheKey = Some entry ->
  Date_now h (epoch w) - timestamp entry < CACHE_DURATION ->
  getUsageSummary h false w = (Ok (data entry), w).
Proof.
  intros Hcached Hage. unfold getUsageSummary. rewrite Hcached.
  unfold cacheHit. cbn [negb andb].
  destruct (Z.ltb_spec (Date_now h (epoch w) - timestamp entry) CACHE_DURATION);
    [reflexivity|lia].
Qed.

Lemma getUsageSummary_no_token (forceRefresh : bool) (w : World) :
  cacheHit forceRefresh (cache w !! cacheKey) (Date_now h (epoch w)) = false ->
  truthy (apiToken (getConfiguration h (epoch w))) = false ->
  getUsageSummary h forceRefresh w =
    (Ok getMockUsageData,
     emit (showWarningMessage
             "Cursor Usage: No API token configured. Using mock data.") w).
Proof.
  intros Hmiss Htoken. unfold getUsageSummary. cbv zeta.
  destruct (cache w !! cacheKey); rewrite ?Hmiss, Htoken; reflexivity.
Qed.

Lemma getUsageSummary_fetch (forceRefresh : bool) (w : World) :
  cacheHit forceRefresh (cache w !! cacheKey) (Date_now h (epoch w)) = false ->
  truthy (apiToken (getConfiguration h (epoch w))) = true ->
  getUsageSummary h forceRefresh w =
    match getUsageSummary_try h w with
    | (Ok parsedData, w1) => (Ok parsedData, w1)
    | (Throws error, w1) => getUsageSummary_catch (cache w !! cacheKey) error w1
    end.
Proof.
  intros Hmiss Htoken. unfold getUsageSummary. cbv zeta.
  destruct (cache w !! cacheKey); rewrite ?Hmiss, Htoken; reflexivity.
Qed.

Lemma getUsageSummary_catch_value (cached : option CacheEntry)
    (error : Thrown) (w : World) :
  (getUsageSummary_catch cached error w).1 =
    Ok (match cached with Some entry => data entry | None => getMockUsageData end).
Proof. unfold getUsageSummary_catch. destruct cached; reflexivity. Qed.

Lemma getUsageSummary_catch_frame (cached : option CacheEntry)
    (error : Thrown) (w : World) :
  cache (getUsageSummary_catch cached error w).2 = cache w /\
  requests (getUsageSummary_catch cached error w).2 = requests w.
Proof.
  unfold getUsageSummary_catch.
  destruct cached; simpl; rewrite !requests_emit, !app_nil_r; auto.
Qed.

(** The four ways a call of [getUsageSummary] goes. *)
Lemma getUsageSummary_cases (forceRefresh : bool) (w : World) :
  (exists entry,
      cache w !! cacheKey = Some entry /\
      cacheHit forceRefresh (Some entry) (Date_now h (epoch w)) = true /\
      getUsageSummary h forceRefresh w = (Ok (data entry), w)) \/
  (cacheHit forceRefresh (cache w !! cacheKey) (Date_now h (epoch w)) = false /\
   ((truthy (apiToken (getConfiguration h (epoch w))) = false /\
     getUsageSummary h forceRefresh w =
       (Ok getMockUsageData,
        emit (showWarningMessage
                "Cursor Usage: No API token configured. Using mock data.") w)) \/
    (truthy (apiToken (getConfiguration h (epoch w))) = true /\
     ((exists parsed w1,
         FetchSuccess h w parsed w1 /\
         getUsageSummary h forceRefresh w =
           (Ok parsed,
            {| cache := <[cacheKey := {| data := parsed;
                                         timestamp := Date_now h (epoch w1) |}]> (cache w1);
               epoch := epoch w1;
               trace := trace w1 |})) \/
      (FetchFailure h w /\
       exists error,
         getUsageSummary h forceRefresh w =
           getUsageSummary_catch (cache w !! cacheKey) error
             (makeHttpsRequest h endpoint 5 w).2))))).
Proof.
  destruct (cacheHit forceRefresh (cache w !! cacheKey) (Date_now h (epoch w)))
    eqn:Hhit.
  - left. destruct (cache w !! cacheKey) as [entry|] eqn:Hcached.
    + exists entry. repeat split; auto.
      unfold getUsageSummary. cbv zeta. now rewrite Hcached, Hhit.
    + unfold cacheHit in Hhit. now rewrite andb_false_r in Hhit.
  - right. split; [reflexivity|].
    destruct (truthy (apiToken (getConfiguration h (epoch w)))) eqn:Htoken.
    + right. split; [reflexivity|].
      rewrite (getUsageSummary_fetch _ _ Hhit Htoken).
      destruct (getUsageSummary_try_cases w)
        as [(parsed & w1 & Hok & Heq)|(Hfail & error & Heq)]; rewrite Heq.
      * left. eauto.
      * right. eauto.
    + left. split; [reflexivity|].
      now apply getUsageSummary_no_token.
Qed.

(** What a call does to the cache: nothing, or one whole-entry write of a
    summary that was fetched and validated. *)
Lemma getUsageSummary_cache (forceRefresh : bool) (w : World) :
  cache (getUsageSummary h forceRefresh w).2 = cache w \/
  exists parsed w1,
    FetchSuccess h w parsed w1 /\
    (getUsageSummary h forceRefresh w).1 = Ok parsed /\
    cache (getUsageSummary h forceRefresh w).2 =
      <[cacheKey := {| data := parsed; timestamp := Date_now h (epoch w1) |}]> (cache w).
Proof.
  pose proof (makeHttpsRequest_frame h 5 endpoint w) as (Hframe & _).
  destruct (getUsageSummary_cases forceRefresh w)
    as [(entry & _ & _ & Heq)
       |(_ & [(_ & Heq)|(_ & [(parsed & w1 & Hok & Heq)|(Hfail & error & Heq)])])];
    rewrite Heq.
  - now left.
  - now left.
  - right. exists parsed, w1. repeat split; [exact Hok|].
    destruct Hok as (body & Hreq & _). rewrite Hreq in Hframe.
    cbn [snd cache] in *. now rewrite Hframe.
  - left.
    destruct (getUsageSummary_catch_frame (cache w !! cacheKey) error
                (makeHttpsRequest h endpoint 5 w).2) as (Hc & _).
    now rewrite Hc.
Qed.

(** A call that is not answered from the cache, with a token configured,
    reaches the network. *)
Lemma getUsageSummary_miss_requests (forceRefresh : bool) (w : World) :
  cacheHit forceRefresh (cache w !! cacheKey) (Date_now h (epoch w)) = false ->
  truthy (apiToken (getConfiguration h (epoch w))) = true ->
  is_Some (URL_new h endpoint) ->
  exists first rest,
    newRequests w (getUsageSummary h forceRefresh w).2 (first :: rest).
Proof.
  intros Hmiss Htoken Hurl.
  destruct (makeHttpsRequest_frame h 5 endpoint w)
    as (_ & added & Hadded & _ & Hsome & _).
  specialize (Hsome Hurl).
  destruct added as [|first rest]; [contradiction|]. exists first, rest.
  destruct (getUsageSummary_cases forceRefresh w)
    as [(entry & Hcached & Hhit & _)
       |(_ & [(Hno & _)|(_ & [(parsed & w1 & Hok & Heq)|(_ & error & Heq)])])].
  - rewrite Hcached in Hmiss. congruence.
  - congruence.
  - rewrite Heq. destruct Hok as (body & Hreq & _).
    rewrite Hreq in Hadded. exact Hadded.
  - rewrite Heq. unfold newRequests in *.
    destruct (getUsageSummary_catch_frame (cache w !! cacheKey) error
                (makeHttpsRequest h endpoint 5 w).2) as (_ & Hr).
    now rewrite Hr.
Qed.

(** After [clearCache], the next call cannot be answered from the cache. *)
Lemma clearCache_then_fetch (w : World) :
  truthy (apiToken (getConfiguration h (epoch w))) = true ->
  is_Some (URL_new h endpoint) ->
  exists first rest,
    newRequests w (getUsageSummary h false (clearCache w)).2 (first :: rest).
Proof.
  intros Htoken Hurl.
  destruct (getUsageSummary_miss_requests false (clearCache w))
    as (first & rest & Hreq); auto.
  exists first, rest. exact Hreq.
Qed.
End Orchestrator.

(** ** The claims *)

(** C1. [getUsageSummary] is total: whatever [forceRefresh], the transport's
    outcome and the response body, it does not throw and returns a summary.
    When a token is configured and the fetch fails (transport error, JSON
    parse failure or structural-validation failure), what it returns is the
    entry the cache held, whatever its age, and the placeholder when the
    cache held none. *)
Theorem getUsageSummary_total (h : Host) (forceRefresh : bool) (w : World) :
  (exists summary w', getUsageSummary h forceRefresh w = (Ok summary, w')) /\
  (truthy (apiToken (getConfiguration h (epoch w))) = true ->
   FetchFailure h w ->
   (getUsageSummary h forceRefresh w).1 = Ok (fallback w)).
Proof.
  destruct (getUsageSummary_cases h forceRefresh w)
    as [(entry & Hcached & _ & Heq)
       |(_ & [(Hno & Heq)|(_ & [(parsed & w1 & Hok & Heq)|(Hfail & error & Heq)])])].
  - split; [rewrite Heq; eauto|].
    intros _ _. rewrite Heq. unfold fallback. now rewrite Hcached.
  - split; [rewrite Heq; eauto|].
    intros Htoken. congruence.
  - split; [rewrite Heq; eauto|].
    intros _ Hfail. destruct (FetchFailure_not_success _ _ _ _ Hfail Hok).
  - rewrite Heq. split.
    + unfold getUsageSummary_catch. destruct (cache w !! cacheKey); eauto.
    + intros _ _. apply getUsageSummary_catch_value.
Qed.

(** C1, exercised: the connection is refused while the cache holds an entry
    written a thousand seconds before; that entry is what comes back. *)
Lemma getUsageSummary_total_witness :
  (getUsageSummary (Demo.host (Some "abc") Demo.refused) true
     (Demo.holding Demo.minimalSummary 0)).1 = Ok Demo.minimalSummary.
Proof.
  apply (proj2 (getUsageSummary_total (Demo.host (Some "abc") Demo.refused) true
                  (Demo.holding Demo.minimalSummary 0))).
  - reflexivity.
  - eapply TransportFailure. vm_compute. reflexivity.
Defined.

(** C4. [getUsageSummary(false)], called while the cache holds an entry
    younger than 60 seconds, returns that entry's summary and leaves the
    world as it was: no request is issued, nothing is shown, the cache is
    not written. *)
Theorem fresh_cache_is_served (h : Host) (w : World) (entry : CacheEntry) :
  cache w !! cacheKey = Some entry ->
  Date_now h (epoch w) - timestamp entry < 60000 ->
  getUsageSummary h false w = (Ok (data entry), w) /\
  newRequests w (getUsageSummary h false w).2 [].
Proof.
  intros Hcached Hage.
  assert (Heq : getUsageSummary h false w = (Ok (data entry), w))
    by (apply getUsageSummary_hit; [exact Hcached | exact Hage]).
  split; [exact Heq|].
  rewrite Heq. apply newRequests_refl.
Qed.

(** C4, exercised: an entry written one second ago. *)
Lemma fresh_cache_is_served_witness :
  getUsageSummary (Demo.host (Some "abc") Demo.loginLoop) false
    (Demo.holding Demo.minimalSummary 999000)
  = (Ok Demo.minimalSummary, Demo.holding Demo.minimalSummary 999000)
  /\ newRequests (Demo.holding Demo.minimalSummary 999000)
       (getUsageSummary (Demo.host (Some "abc") Demo.loginLoop) false
          (Demo.holding Demo.minimalSummary 999000)).2 [].
Proof.
  apply (fresh_cache_is_served (Demo.host (Some "abc") Demo.loginLoop)
           (Demo.holding Demo.minimalSummary 999000)
           {| data := Demo.minimalSummary; timestamp := 999000 |}).
  - reflexivity.
  - vm_compute. reflexivity.
Defined.

(** C6. With no auth token configured (absent or empty), a call that is not
    answered from a fresh cache entry returns the placeholder dataset, whose
    individual bucket has [used = 794] and [limit = 5000]; it issues no
    request and does not write the cache. *)
Theorem no_token_gives_placeholder (h : Host) (forceRefresh : bool) (w : World) :
  truthy (apiToken (getConfiguration h (epoch w))) = false ->
  cacheHit forceRefresh (cache w !! cacheKey) (Date_now h (epoch w)) = false ->
  (getUsageSummary h forceRefresh w).1 = Ok getMockUsageData /\
  newRequests w (getUsageSummary h forceRefresh w).2 [] /\
  cache (getUsageSummary h forceRefresh w).2 = cache w /\
  get (individualBucket getMockUsageData) "used" = Ok (JSNumber (of_Z 794)) /\
  get (individualBucket getMockUsageData) "limit" = Ok (JSNumber (of_Z 5000)).
Proof.
  intros Htoken Hmiss.
  rewrite (getUsageSummary_no_token h _ _ Hmiss Htoken). cbn [fst snd].
  repeat split.
  unfold newRequests. now rewrite requests_emit.
Qed.

(** C6, exercised: no token, an empty cache, a forced refresh. *)
Lemma no_token_gives_placeholder_witness :
  (getUsageSummary (Demo.host None Demo.loginLoop) true Demo.start).1
  = Ok getMockUsageData.
Proof.
  apply (no_token_gives_placeholder (Demo.host None Demo.loginLoop) true Demo.start);
    reflexivity.
Defined.

(** C9. The cache is written only by a fetch that succeeded and validated,
    and then the one entry is replaced as a whole by the parsed summary and
    the time of the write; a fetch that fails (transport error, parse
    failure or structural-validation failure) leaves the cache as it was,
    and so does a call that makes no fetch. *)
Theorem cache_written_only_on_success (h : Host) (forceRefresh : bool) (w : World) :
  (FetchFailure h w -> cache (getUsageSummary h forceRefresh w).2 = cache w) /\
  (cache (getUsageSummary h forceRefresh w).2 = cache w \/
   exists parsed w1,
     FetchSuccess h w parsed w1 /\
     (getUsageSummary h forceRefresh w).1 = Ok parsed /\
     cache (getUsageSummary h forceRefresh w).2 =
       <[cacheKey := {| data := parsed; timestamp := Date_now h (epoch w1) |}]> (cache w)).
Proof.
  split; [|apply getUsageSummary_cache].
  intros Hfail.
  destruct (getUsageSummary_cache h forceRefresh w)
    as [Hsame|(parsed & w1 & Hok & _)]; [exact Hsame|].
  destruct (FetchFailure_not_success _ _ _ _ Hfail Hok).
Qed.

(** C9, exercised: a refused connection leaves the resident entry alone. *)
Lemma cache_written_only_on_success_witness :
  cache (getUsageSummary (Demo.host (Some "abc") Demo.refused) true
           (Demo.holding Demo.minimalSummary 0)).2
  = cache (Demo.holding Demo.minimalSummary 0).
Proof.
  apply (proj1 (cache_written_only_on_success (Demo.host (Some "abc") Demo.refused)
                  true (Demo.holding Demo.minimalSummary 0))).
  eapply TransportFailure. vm_compute. reflexivity.
Defined.

(** C10. Every operation of the service preserves the invariant that each
    summary resident in the cache has a non-null [individualUsage]:
    [getUsageSummary] writes only a summary that passed the structural
    check, [testConnectivity] never writes, [clearCache] and
    [updateApiToken] empty the cache. *)
Theorem cacheInvariant_preserved (h : Host) (forceRefresh : bool) (w : World) :
  cacheInvariant w ->
  cacheInvariant (getUsageSummary h forceRefresh w).2 /\
  cacheInvariant (clearCache w) /\
  cacheInvariant (testConnectivity h w).2 /\
  cacheInvariant (updateApiToken w).
Proof.
  intros Hinv.
  assert (Hsame : forall w' : World, cache w' = cache w -> cacheInvariant w').
  { intros w' Hc key entry. rewrite Hc. apply Hinv. }
  assert (Hempty : forall w' : World, cache w' = ∅ -> cacheInvariant w').
  { intros w' Hc key entry. rewrite Hc, lookup_empty. discriminate. }
  split; [|split; [|split]].
  - destruct (getUsageSummary_cache h forceRefresh w)
      as [Hc|(parsed & w1 & (body & _ & _ & _ & Hvalid) & _ & Hc)].
    + now apply Hsame.
    + intros key entry. rewrite Hc.
      destruct (decide (key = cacheKey)) as [->|Hne].
      * rewrite lookup_insert_eq. intros [= <-]. cbn [data].
        now apply truthy_nonNull.
      * rewrite lookup_insert_ne by congruence. apply Hinv.
  - now apply Hempty.
  - apply Hsame. unfold testConnectivity. fold endpoint.
    pose proof (makeHttpsRequest_frame h 5 endpoint w) as (Hframe & _).
    destruct (makeHttpsRequest h endpoint 5 w) as [[body|error] w1];
      [destruct (JSON_parse h body)|]; exact Hframe.
  - now apply Hempty.
Qed.

(** C10, exercised: a successful fetch into a cache that satisfies the
    invariant. *)
Lemma cacheInvariant_preserved_witness :
  cacheInvariant
    (getUsageSummary (Demo.host (Some "abc") Demo.threeHops) true
       (Demo.holding Demo.minimalSummary 0)).2.
Proof.
  apply (cacheInvariant_preserved (Demo.host (Some "abc") Demo.threeHops) true
           (Demo.holding Demo.minimalSummary 0)).
  intros key entry.
  destruct (decide (key = cacheKey)) as [->|Hne].
  - intros [= <-]. split; discriminate.
  - unfold Demo.holding; cbn [cache].
    rewrite lookup_singleton_ne by congruence. discriminate.
Defined.

(** C3. When the six requests of a fetch are each answered by a redirect
    with a [Location] (one more than the five the outer call may follow),
    the transport fails with the too-many-redirects error; and when the
    cache holds an entry, [getUsageSummary] returns that entry's summary,
    not the placeholder, after showing the redirect-loop message. *)
Theorem six_redirects_fall_back_to_cache (h : Host) (forceRefresh : bool)
    (w : World) (locs : list string) (entry : CacheEntry) :
  length locs = 6%nat ->
  redirectChain h (epoch w) locs ->
  is_Some (URL_new h endpoint) ->
  truthy (apiToken (getConfiguration h (epoch w))) = true ->
  cache w !! cacheKey = Some entry ->
  (exists w1,
      makeHttpsRequest h endpoint 5 w =
        (Throws (Error "Too many redirects - authentication likely failed"), w1)) /\
  (getUsageSummary h forceRefresh w).1 = Ok (data entry) /\
  (cacheHit forceRefresh (Some entry) (Date_now h (epoch w)) = false ->
   exists w1,
     getUsageSummary h forceRefresh w =
       (Ok (data entry),
        emit (showWarningMessage "Cursor Usage: Using cached data due to API error")
          (emit (showErrorMessage
                   "Cursor Usage: Failed to fetch usage data from Cursor API: Redirect loop detected. Your API token may be invalid or expired.")
             w1))).
Proof.
  intros Hlen Hchain Hurl Htoken Hcached.
  destruct (makeHttpsRequest_redirects h 5 locs endpoint w Hlen Hchain Hurl)
    as (w1 & Hreq).
  assert (Hslow :
    cacheHit forceRefresh (Some entry) (Date_now h (epoch w)) = false ->
    getUsageSummary h forceRefresh w =
      (Ok (data entry),
       emit (showWarningMessage "Cursor Usage: Using cached data due to API error")
         (emit (showErrorMessage
                  "Cursor Usage: Failed to fetch usage data from Cursor API: Redirect loop detected. Your API token may be invalid or expired.")
            w1))).
  { intros Hmiss. rewrite <- Hcached in Hmiss.
    rewrite (getUsageSummary_fetch h _ _ Hmiss Htoken).
    unfold getUsageSummary_try. fold endpoint. rewrite Hreq, Hcached.
    reflexivity. }
  split; [eauto|]. split; [|eauto].
  destruct (cacheHit forceRefresh (Some entry) (Date_now h (epoch w))) eqn:Hhit.
  - unfold getUsageSummary. cbv zeta. now rewrite Hcached, Hhit.
  - now rewrite Hslow.
Qed.

(** C3, exercised: every request is sent to the login page while the cache
    holds an old entry. *)
Lemma six_redirects_fall_back_to_cache_witness :
  (getUsageSummary (Demo.host (Some "abc") Demo.loginLoop) true
     (Demo.holding Demo.minimalSummary 0)).1 = Ok Demo.minimalSummary.
Proof.
  apply (six_redirects_fall_back_to_cache
           (Demo.host (Some "abc") Demo.loginLoop) true
           (Demo.holding Demo.minimalSummary 0)
           (replicate 6 "/login")
           {| data := Demo.minimalSummary; timestamp := 0 |}).
  - reflexivity.
  - intros k loc Hk.
    assert (loc = "/login") as ->.
    { do 6 (destruct k as [|k]; [now inversion Hk|]). discriminate. }
    split; [discriminate|]. split; [eexists; reflexivity|].
    intros options. eexists. repeat split.
  - eexists; reflexivity.
  - reflexivity.
  - reflexivity.
Defined.

(** C5, as stated, fails: with no token configured a forced refresh returns
    the placeholder and issues no request. *)
Lemma forced_refresh_without_token :
  getUsageSummary (Demo.host None Demo.loginLoop) true Demo.start
  = (Ok getMockUsageData,
     emit (showWarningMessage
             "Cursor Usage: No API token configured. Using mock data.") Demo.start)
  /\ requests (getUsageSummary (Demo.host None Demo.loginLoop) true Demo.start).2 = [].
Proof. split; reflexivity. Qed.

(** C5, amended. While an auth token is configured, [getUsageSummary(true)]
    issues at least one request, whatever the cache holds and however fresh
    it is. *)
Theorem forced_refresh_fetches (h : Host) (w : World) :
  truthy (apiToken (getConfiguration h (epoch w))) = true ->
  is_Some (URL_new h endpoint) ->
  exists first rest,
    newRequests w (getUsageSummary h true w).2 (first :: rest).
Proof.
  intros Htoken Hurl.
  apply getUsageSummary_miss_requests; [reflexivity | exact Htoken | exact Hurl].
Qed.

(** C5 amended, exercised: a token and an entry written one second ago. *)
Lemma forced_refresh_fetches_witness :
  exists first rest,
    newRequests (Demo.holding Demo.minimalSummary 999000)
      (getUsageSummary (Demo.host (Some "abc") Demo.threeHops) true
         (Demo.holding Demo.minimalSummary 999000)).2
      (first :: rest).
Proof.
  apply (forced_refresh_fetches (Demo.host (Some "abc") Demo.threeHops)
           (Demo.holding Demo.minimalSummary 999000)).
  - reflexivity.
  - eexists; reflexivity.
Defined.

(** C7. For a configured (non-empty) auth token, the [Cookie] header is the
    token itself when it begins with [WorkosCursorSessionToken=] and
    [WorkosCursorSessionToken=<token>] otherwise; the headers being derived
    anew for every hop, each request of a redirect chain carries that same
    cookie for as long as the configured token stays the same.  The
    requests are sent indeed: one at least for a well-formed URL, [k + 1]
    at least when the first [k] answers are redirects within the budget,
    and [k + 1] exactly when the answer after these is not a redirect. *)
Theorem cookie_on_every_hop (h : Host) (token url : string) (n : nat) (w : World) :
  token <> "" ->
  (forall e : nat, (epoch w <= e)%nat ->
     apiToken (getConfiguration h e) = Some token) ->
  (getRequestOptions h w).1.2 !! "Cookie" =
    Some (if startsWith token "WorkosCursorSessionToken=" then token
          else "WorkosCursorSessionToken=" +:+ token) /\
  exists added,
    newRequests w (makeHttpsRequest h url n w).2 added /\
    Forall (fun o : RequestOptions =>
              opt_headers o !! "Cookie" =
                Some (if startsWith token "WorkosCursorSessionToken=" then token
                      else "WorkosCursorSessionToken=" +:+ token))
           added /\
    (is_Some (URL_new h url) -> added <> []) /\
    (forall locs : list string,
       is_Some (URL_new h url) ->
       (length locs <= n)%nat ->
       redirectChain h (epoch w) locs ->
       (length locs < length added)%nat /\
       forall res : IncomingMessage,
         answersWith h (epoch w + length locs) res ->
         isRedirect res = false ->
         length added = S (length locs)).
Proof.
  intros Hne Hconfig.
  assert (Hcookie : forall e : nat, (epoch w <= e)%nat ->
            configuredCookie h e = Some (cookieHeader token)).
  { intros e He. unfold configuredCookie.
    now rewrite (Hconfig e He), (truthy_Some _ Hne). }
  split.
  - rewrite getRequestOptions_cookie. apply Hcookie. lia.
  - destruct (makeHttpsRequest_frame h n url w)
      as (_ & added & Hadded & Hepoch & Hsent & Hk).
    exists added. split; [exact Hadded|]. split; [|split; [exact Hsent|]].
    + apply Forall_lookup. intros k o Hko.
      rewrite (Hk k o Hko). apply Hcookie. lia.
    + intros locs Hurl Hlen Hchain.
      destruct (makeHttpsRequest_chain h locs n url w Hlen Hchain Hurl)
        as [Hge Hexact].
      split; [lia|].
      intros res Hfinal Hnot. specialize (Hexact res Hfinal Hnot). lia.
Qed.

(** C7, exercised: the raw token [abc] through three redirects and the
    answer that ends them, four requests in all. *)
Lemma cookie_on_every_hop_witness :
  exists added,
    newRequests Demo.start
      (makeHttpsRequest (Demo.host (Some "abc") Demo.threeHops) endpoint 5
         Demo.start).2 added /\
    Forall (fun o : RequestOptions =>
              opt_headers o !! "Cookie" = Some "WorkosCursorSessionToken=abc")
           added /\
    length added = 4%nat.
Proof.
  destruct (cookie_on_every_hop (Demo.host (Some "abc") Demo.threeHops)
              "abc" endpoint 5 Demo.start)
    as (_ & added & Hadded & Hcookie & _ & Hchain).
  - discriminate.
  - reflexivity.
  - exists added. split; [exact Hadded|]. split; [exact Hcookie|].
    refine (proj2 (Hchain (replicate 3 "/api/usage-summary") _ _ _)
              {| statusCode := Some 200; statusMessage := Some "OK";
                 location := None;
                 chunks := ["{" +:+ Demo.quote +:+ "individualUsage";
                            Demo.quote +:+ ":{}}"];
                 streamError := None |} _ eq_refl).
    + eexists; reflexivity.
    + simpl. lia.
    + intros k loc Hk.
      assert (loc = "/api/usage-summary" /\ (k < 3)%nat) as [-> Hlt].
      { do 3 (destruct k as [|k]; [injection Hk as <-; split; [reflexivity|lia]|]).
        discriminate. }
      split; [discriminate|]. split; [eexists; reflexivity|].
      intros options.
      do 3 (destruct k as [|k]; [eexists; repeat split|]). lia.
    + intros options. reflexivity.
Defined.

(** The chain of that demonstration: three redirects and the final answer
    make four requests, and the body comes back whole. *)
Example three_hops_four_requests :
  (makeHttpsRequest (Demo.host (Some "abc") Demo.threeHops) endpoint 5
     Demo.start).1 = Ok Demo.minimalBody /\
  length (requests (makeHttpsRequest (Demo.host (Some "abc") Demo.threeHops)
                      endpoint 5 Demo.start).2) = 4%nat /\
  (fun o : RequestOptions => opt_headers o !! "Cookie") <$>
    requests (makeHttpsRequest (Demo.host (Some "abc") Demo.threeHops)
                endpoint 5 Demo.start).2
  = replicate 4 (Some "WorkosCursorSessionToken=abc").
Proof. vm_compute. repeat split. Qed.

(** A token pasted with the cookie name is sent as it is. *)
Example full_cookie_is_verbatim :
  (getRequestOptions
     (Demo.host (Some "WorkosCursorSessionToken=abc") Demo.threeHops)
     Demo.start).1.2 !! "Cookie" = Some "WorkosCursorSessionToken=abc".
Proof. reflexivity. Qed.

(** C8, as stated, fails: a 201 response, a 2xx, is rejected with its status
    and its body is dropped. *)
Lemma created_is_rejected :
  (makeHttpsRequest (Demo.host (Some "abc") Demo.created) endpoint 5
     Demo.start).1 = Throws (Error "HTTP 201: Created").
Proof. reflexivity. Qed.

(** C8, amended. A response with status exactly 200 whose stream ends
    without error yields the concatenation of its chunks; a response whose
    status is neither 200 nor in 300..399 (the other 2xx included) yields
    the error [HTTP <code>: <message>] and nothing of the body. *)
Theorem only_200_returns_body (h : Host) (url : string) (n : nat) (w : World)
    (urlObj : URL) (res : IncomingMessage) :
  URL_new h url = Some urlObj ->
  https_request h (epoch w) (firstOptions h urlObj w) = Response res ->
  (statusCode res = Some 200 -> streamError res = None ->
   (makeHttpsRequest h url n w).1 = Ok (collect (chunks res))) /\
  (forall code : Z,
     statusCode res = Some code -> code <> 200 -> ~ (300 <= code < 400) ->
     (makeHttpsRequest h url n w).1 =
       Throws (Error ("HTTP " +:+ pretty code +:+ ": "
                      +:+ default "undefined" (statusMessage res)))).
Proof.
  intros Hurl Hres.
  rewrite (makeHttpsRequest_response h _ _ _ _ _ Hurl Hres). cbv zeta.
  unfold isRedirect, isNot200, httpStatusMessage. split.
  - intros Hcode Hend. rewrite Hcode, Hend. reflexivity.
  - intros code Hcode H200 H3xx. rewrite Hcode. cbn [from_option].
    replace (negb (code =? 0) && (300 <=? code) && (code <? 400)) with false
      by (symmetry; apply andb_false_iff;
          destruct (Z.ltb_spec code 400); [left|now right];
          apply andb_false_iff; right; apply Z.leb_gt; lia).
    replace (negb (code =? 200)) with true
      by (symmetry; apply negb_true_iff, Z.eqb_neq, H200).
    reflexivity.
Qed.

(** C8 amended, exercised: a one-request exchange answered by a 404. *)
Lemma only_200_returns_body_witness :
  (makeHttpsRequest (Demo.host (Some "abc")
                       (fun _ => Demo.respond 404 "Not Found" None ["gone"]))
     endpoint 5 Demo.start).1 = Throws (Error "HTTP 404: Not Found").
Proof.
  refine (proj2 (only_200_returns_body
                   (Demo.host (Some "abc")
                      (fun _ => Demo.respond 404 "Not Found" None ["gone"]))
                   endpoint 5 Demo.start
                   {| hostname := "cursor.com"; port := "";
                      pathname := "/api/usage-summary"; search := "" |}
                   {| statusCode := Some 404; statusMessage := Some "Not Found";
                      location := None; chunks := ["gone"]; streamError := None |}
                   eq_refl eq_refl) 404 eq_refl _ _); lia.
Defined.

(** A 200 answered in two chunks comes back as their concatenation. *)
Example two_chunks_are_joined :
  (makeHttpsRequest (Demo.host (Some "abc")
                       (fun _ => Demo.respond 200 "OK" None ["nu"; "ll"]))
     endpoint 5 Demo.start).1 = Ok "null".
Proof. reflexivity. Qed.

(** ** The percentage helpers *)

Section Percentages.
Context (h : Host).

Lemma get_defined_inv (v : JSValue) (key : string) (x : JSValue) :
  get v key = Ok x -> x <> JSUndefined ->
  exists properties, v = JSObject properties.
Proof.
  destruct v; simpl; intros [= <-] Hx; try contradiction; eauto.
Qed.

Lemma percentage_zero_limit (used : number) (s : bool) :
  Math_round (mul (div used (S754_zero s)) (of_Z 100)) = zeroLimitPercentage used s.
Proof.
  change (of_Z 100) with (S754_finite false 7036874417766400 (-46)).
  destruct used as [su|su| |su m e]; simpl; try reflexivity;
    now rewrite xorb_false_r.
Qed.

Lemma zeroLimitPercentage_not_zero (used : number) (s : bool) :
  zeroLimitPercentage used s <> of_Z 0.
Proof. destruct used; discriminate. Qed.

Lemma toNumber_primitive (v : JSValue) :
  primitive v -> exists n, toNumber h v = Ok n.
Proof. destruct v as [| |[|]| | | |]; simpl; intros Hv; try contradiction; eauto. Qed.

(** The percentage of a bucket that is there: the conversion of [used],
    then that of [limit], then the arithmetic. *)
Lemma bucketPercentage_truthy (bucket : JSValue) :
  ToBoolean bucket = true ->
  bucketPercentage h bucket =
    match toNumber h (get_opt bucket "used") with
    | Throws error => Throws error
    | Ok u =>
        match toNumber h (get_opt bucket "limit") with
        | Throws error => Throws error
        | Ok l => Ok (Math_round (mul (div u l) (of_Z 100)))
        end
    end.
Proof.
  intros Hb. unfold bucketPercentage. now rewrite !get_truthy by exact Hb.
Qed.

Lemma bucketPercentage_figures (bucket : JSValue) (u l : number) :
  ToBoolean bucket = true -> figuresOf h bucket u l ->
  bucketPercentage h bucket = Ok (Math_round (mul (div u l) (of_Z 100))).
Proof.
  intros Hb [Hu Hl]. now rewrite bucketPercentage_truthy, Hu, Hl by exact Hb.
Qed.

(** A bucket that is there has a percentage exactly when its two figures
    convert. *)
Lemma bucketPercentage_throws (bucket : JSValue) :
  ToBoolean bucket = true ->
  (exists error, bucketPercentage h bucket = Throws error) <->
  ~ convertible h bucket.
Proof.
  intros Hb. rewrite bucketPercentage_truthy by exact Hb.
  unfold convertible, figuresOf. split.
  - intros (error & Hthrows) [Hfalse|(u & l & Hu & Hl)]; [congruence|].
    rewrite Hu, Hl in Hthrows. discriminate.
  - intros Hnot.
    destruct (toNumber h (get_opt bucket "used")) as [u|error]; [|eauto].
    destruct (toNumber h (get_opt bucket "limit")) as [l|error]; [|eauto].
    destruct Hnot. right. eauto.
Qed.

Lemma get_limit_truthy (bucket limit : JSValue) :
  get bucket "limit" = Ok limit -> limit <> JSUndefined -> ToBoolean bucket = true.
Proof.
  intros Hlimit Hdefined.
  destruct (get_defined_inv _ _ _ Hlimit Hdefined) as (properties & ->).
  reflexivity.
Qed.

Lemma bucketPercentage_zero_limit (bucket : JSValue) (s : bool) (u : number) :
  get bucket "limit" = Ok (JSNumber (S754_zero s)) ->
  toNumber h (get_opt bucket "used") = Ok u ->
  ToBoolean bucket = true /\
  bucketPercentage h bucket = Ok (zeroLimitPercentage u s).
Proof.
  intros Hlimit Hused.
  assert (Hb : ToBoolean bucket = true)
    by (eapply get_limit_truthy; [exact Hlimit|discriminate]).
  split; [exact Hb|].
  rewrite (bucketPercentage_figures bucket u (S754_zero s) Hb).
  - now rewrite percentage_zero_limit.
  - split; [exact Hused|]. unfold get_opt. now rewrite Hlimit.
Qed.

(** A team bucket that is absent or convertible is reported; nothing is
    thrown. *)
Lemma teamBucket_convertible (teamUsage : JSValue) (name : string) :
  convertible h (get_opt teamUsage name) ->
  exists info, teamBucket h teamUsage name = Ok info.
Proof.
  intros Hc. unfold teamBucket.
  destruct (ToBoolean (get_opt teamUsage name)) eqn:Hb; [|eauto].
  destruct Hc as [Hfalse|(u & l & Hfig)]; [congruence|].
  rewrite (bucketPercentage_figures _ u l Hb Hfig). eauto.
Qed.

Lemma teamBucket_zero_limit (teamUsage : JSValue) (name : string) (s : bool)
    (u : number) :
  get (get_opt teamUsage name) "limit" = Ok (JSNumber (S754_zero s)) ->
  toNumber h (get_opt (get_opt teamUsage name) "used") = Ok u ->
  exists info,
    teamBucket h teamUsage name = Ok info /\
    percentage info = zeroLimitPercentage u s.
Proof.
  intros Hlimit Hused.
  destruct (bucketPercentage_zero_limit _ _ _ Hlimit Hused) as [Hb Hp].
  unfold teamBucket. rewrite Hb, Hp. eexists. split; reflexivity.
Qed.

(** A summary with an object two levels down can be read at the first. *)
Lemma get_parent (usageData : JSValue) (a b : string)
    (properties : list (string * JSValue)) :
  get_opt (get_opt usageData a) b = JSObject properties ->
  get usageData a = Ok (get_opt usageData a).
Proof. destruct usageData; simpl; intros Hb; try discriminate; reflexivity. Qed.

Lemma individual_zero_limit (usageData : JSValue) (s : bool) (u : number) :
  get (individualBucket usageData) "limit" = Ok (JSNumber (S754_zero s)) ->
  toNumber h (get_opt (individualBucket usageData) "used") = Ok u ->
  getIndividualUsagePercentage h usageData = Ok (zeroLimitPercentage u s).
Proof.
  intros Hlimit Hused.
  destruct (get_defined_inv _ _ _ Hlimit) as (properties & Hbucket);
    [discriminate|].
  destruct (bucketPercentage_zero_limit _ _ _ Hlimit Hused) as [Hb Hp].
  unfold getIndividualUsagePercentage.
  rewrite (get_parent _ _ _ _ Hbucket).
  fold (individualBucket usageData). now rewrite Hb, Hp.
Qed.

(** Both team buckets reported, the summary is. *)
Lemma team_of_buckets (usageData : JSValue) (od po : BucketInfo) :
  get usageData "teamUsage" = Ok (get_opt usageData "teamUsage") ->
  teamBucket h (get_opt usageData "teamUsage") "onDemand" = Ok od ->
  teamBucket h (get_opt usageData "teamUsage") "pooled" = Ok po ->
  getTeamUsageInfo h usageData = Ok {| onDemand := od; pooled := po |}.
Proof.
  intros Hget Hod Hpo. unfold getTeamUsageInfo. now rewrite Hget, Hod, Hpo.
Qed.

Lemma team_zero_limit (usageData : JSValue) (name other : string) (s : bool)
    (u : number) :
  get (teamBucketOf usageData name) "limit" = Ok (JSNumber (S754_zero s)) ->
  toNumber h (get_opt (teamBucketOf usageData name) "used") = Ok u ->
  convertible h (teamBucketOf usageData other) ->
  get usageData "teamUsage" = Ok (get_opt usageData "teamUsage") /\
  (exists info,
     teamBucket h (get_opt usageData "teamUsage") name = Ok info /\
     percentage info = zeroLimitPercentage u s) /\
  (exists info, teamBucket h (get_opt usageData "teamUsage") other = Ok info).
Proof.
  intros Hlimit Hused Hother.
  destruct (get_defined_inv _ _ _ Hlimit) as (properties & Hbucket);
    [discriminate|].
  split; [exact (get_parent _ _ _ _ Hbucket)|]. split.
  - now apply teamBucket_zero_limit.
  - now apply teamBucket_convertible.
Qed.

(** The helpers answer 0 for a bucket that is absent. *)
Lemma absent_bucket_percentage (usageData : JSValue) :
  nonNull usageData ->
  (ToBoolean (individualBucket usageData) = false ->
   getIndividualUsagePercentage h usageData = Ok (of_Z 0)) /\
  (forall name : string,
     ToBoolean (teamBucketOf usageData name) = false ->
     exists info,
       teamBucket h (get_opt usageData "teamUsage") name = Ok info /\
       percentage info = of_Z 0).
Proof.
  intros [Hnull Hundef]. split.
  - intros Habsent. unfold getIndividualUsagePercentage.
    destruct usageData; try contradiction;
      unfold individualBucket in Habsent; cbn [get get_opt] in *;
      now rewrite Habsent.
  - intros name Habsent. unfold teamBucket.
    unfold teamBucketOf in Habsent. rewrite Habsent. eauto.
Qed.
End Percentages.

(** C2, as stated, fails: with [limit = 0] the individual percentage of a
    summary with [used = 0] is NaN and the on-demand percentage of one with
    [used = 794] is Infinity; neither is 0. *)
Lemma zero_limit_gives_NaN_and_Infinity :
  get (individualBucket Demo.zeroLimit) "limit" = Ok (JSNumber (of_Z 0)) /\
  get (teamBucketOf Demo.zeroLimit "onDemand") "limit" = Ok (JSNumber (of_Z 0)) /\
  getIndividualUsagePercentage (Demo.host None Demo.refused) Demo.zeroLimit = Ok NaN /\
  getTeamUsageInfo (Demo.host None Demo.refused) Demo.zeroLimit
    = Ok {| onDemand := {| percentage := Infinity;
                           used := JSNumber (of_Z 794);
                           limit := JSNumber (of_Z 0) |};
            pooled := {| percentage := of_Z 0;
                         used := JSNumber (of_Z 0);
                         limit := JSNumber (of_Z 0) |} |} /\
  NaN <> of_Z 0 /\ Infinity <> of_Z 0.
Proof. repeat split; discriminate. Qed.

(** C2, amended. When the bucket a helper reads has [limit == 0] (either
    zero) and a [used] that converts to a number [u], and, for the team
    helper, the other team bucket is absent or has figures that convert,
    the helper does not throw, and the percentage it returns for that
    bucket is NaN when [u] is zero or NaN and an infinity otherwise: never
    0.  Every value that is not an object or an array converts. *)
Theorem zero_limit_percentages (h : Host) (usageData : JSValue) (s : bool)
    (u : number) :
  (get (individualBucket usageData) "limit" = Ok (JSNumber (S754_zero s)) ->
   toNumber h (get_opt (individualBucket usageData) "used") = Ok u ->
   getIndividualUsagePercentage h usageData = Ok (zeroLimitPercentage u s)) /\
  (get (teamBucketOf usageData "onDemand") "limit" = Ok (JSNumber (S754_zero s)) ->
   toNumber h (get_opt (teamBucketOf usageData "onDemand") "used") = Ok u ->
   convertible h (teamBucketOf usageData "pooled") ->
   exists info,
     getTeamUsageInfo h usageData = Ok info /\
     percentage (onDemand info) = zeroLimitPercentage u s) /\
  (get (teamBucketOf usageData "pooled") "limit" = Ok (JSNumber (S754_zero s)) ->
   toNumber h (get_opt (teamBucketOf usageData "pooled") "used") = Ok u ->
   convertible h (teamBucketOf usageData "onDemand") ->
   exists info,
     getTeamUsageInfo h usageData = Ok info /\
     percentage (pooled info) = zeroLimitPercentage u s) /\
  zeroLimitPercentage u s <> of_Z 0 /\
  (forall v : JSValue, primitive v -> exists n, toNumber h v = Ok n).
Proof.
  split; [apply individual_zero_limit|].
  split; [|split; [|split; [apply zeroLimitPercentage_not_zero
                           |apply toNumber_primitive]]].
  - intros Hlimit Hused Hother.
    destruct (team_zero_limit h _ _ _ _ _ Hlimit Hused Hother)
      as (Hget & (od & Hod & Hp) & (po & Hpo)).
    exists {| onDemand := od; pooled := po |}.
    split; [now apply team_of_buckets|exact Hp].
  - intros Hlimit Hused Hother.
    destruct (team_zero_limit h _ _ _ _ _ Hlimit Hused Hother)
      as (Hget & (po & Hpo & Hp) & (od & Hod)).
    exists {| onDemand := od; pooled := po |}.
    split; [now apply team_of_buckets|exact Hp].
Qed.

(** C2 amended, exercised: the summary whose individual bucket is
    [used = 0, limit = 0] and whose on-demand bucket is
    [used = 794, limit = 0], with no pooled bucket. *)
Lemma zero_limit_percentages_witness :
  getIndividualUsagePercentage (Demo.host None Demo.refused) Demo.zeroLimit = Ok NaN /\
  exists info,
    getTeamUsageInfo (Demo.host None Demo.refused) Demo.zeroLimit = Ok info /\
    percentage (onDemand info) = Infinity.
Proof.
  split.
  - refine (proj1 (zero_limit_percentages (Demo.host None Demo.refused)
                     Demo.zeroLimit false (of_Z 0)) _ _); reflexivity.
  - refine (proj1 (proj2 (zero_limit_percentages (Demo.host None Demo.refused)
                            Demo.zeroLimit false (of_Z 794))) _ _ _);
      [reflexivity|reflexivity|left; reflexivity].
Defined.

(** A [used] that does not convert: the body
    [{"individualUsage":{"overall":{"used":{"toString":1},"limit":0}}}]
    makes the helper throw before any division. *)
Example unconvertible_used_throws :
  getIndividualUsagePercentage (Demo.host None Demo.refused)
    (JSObject [("individualUsage", JSObject [("overall", JSObject [
       ("used", JSObject [("toString", JSNumber (of_Z 1))]);
       ("limit", JSNumber (of_Z 0))])])])
  = Throws (TypeError "Cannot convert object to primitive value").
Proof. reflexivity. Qed.

(** The placeholder's own percentages: 16, 0 and 3. *)
Example placeholder_percentages :
  getIndividualUsagePercentage (Demo.host None Demo.refused) getMockUsageData
    = Ok (of_Z 16) /\
  getTeamUsageInfo (Demo.host None Demo.refused) getMockUsageData
    = Ok {| onDemand := {| percentage := of_Z 0;
                           used := JSNumber (of_Z 0);
                           limit := JSNumber (of_Z 15000000) |};
            pooled := {| percentage := of_Z 3;
                         used := JSNumber (of_Z 6175916);
                         limit := JSNumber (of_Z 180000000) |} |}.
Proof. split; vm_compute; reflexivity. Qed.

(** ** The remaining scenarios of the specification, run *)

(** A 200 whose body is not JSON: the placeholder without a cache, the
    resident entry with one; both after the error notification. *)
Example malformed_body_without_cache :
  getUsageSummary (Demo.host (Some "abc")
                     (fun _ => Demo.respond 200 "OK" None ["<html>"]))
    false Demo.start
  = (Ok getMockUsageData,
     {| cache := ∅; epoch := 1;
        trace := [
          Request {| opt_hostname := "cursor.com";
                     opt_port := PortNumber 443;
                     opt_path := "/api/usage-summary";
                     opt_method := "GET";
                     opt_headers :=
                       <["Cookie" := "WorkosCursorSessionToken=abc"]>
                         (<["Accept" := "application/json"]>
                            (<["User-Agent" := "Cursor-Usage-Summary-Extension/1.0.0"]> ∅));
                     opt_agent := Some (https_Agent false 1);
                     opt_rejectUnauthorized := true;
                     opt_timeout := 30000 |};
          showErrorMessage
            "Cursor Usage: Failed to fetch usage data from Cursor API: Invalid JSON response from API";
          showWarningMessage "Cursor Usage: Using demo data"] |}).
Proof. vm_compute. reflexivity. Qed.

Example malformed_body_with_cache :
  (getUsageSummary (Demo.host (Some "abc")
                      (fun _ => Demo.respond 200 "OK" None ["<html>"]))
     false (Demo.holding Demo.minimalSummary 0)).1 = Ok Demo.minimalSummary.
Proof. reflexivity. Qed.

(** A body that parses but lacks [individualUsage] is refused and not
    cached. *)
Example empty_object_is_refused :
  (getUsageSummary (Demo.host (Some "abc")
                      (fun _ => Demo.respond 200 "OK" None ["{}"]))
     true Demo.start).1 = Ok getMockUsageData /\
  cache (getUsageSummary (Demo.host (Some "abc")
                            (fun _ => Demo.respond 200 "OK" None ["{}"]))
           true Demo.start).2 = ∅.
Proof. split; reflexivity. Qed.

(** A successful fetch is cached with the time of the write, and served
    again within the minute without a second request. *)
Example fetch_then_hit :
  cache (getUsageSummary (Demo.host (Some "abc") Demo.threeHops) false Demo.start).2
    = {[ cacheKey := {| data := Demo.minimalSummary; timestamp := 1004000 |} ]} /\
  getUsageSummary (Demo.host (Some "abc") Demo.threeHops) false
    (getUsageSummary (Demo.host (Some "abc") Demo.threeHops) false Demo.start).2
  = (Ok Demo.minimalSummary,
     (getUsageSummary (Demo.host (Some "abc") Demo.threeHops) false Demo.start).2).
Proof. split; vm_compute; reflexivity. Qed.

(** [testConnectivity] reports the outcome and leaves the cache alone. *)
Example connectivity_probe :
  testConnectivity (Demo.host (Some "abc") Demo.threeHops) Demo.start
    = (true, (makeHttpsRequest (Demo.host (Some "abc") Demo.threeHops)
                endpoint 5 Demo.start).2) /\
  (testConnectivity (Demo.host (Some "abc") Demo.loginLoop) Demo.start).1 = false /\
  cache (testConnectivity (Demo.host (Some "abc") Demo.threeHops) Demo.start).2 = ∅.
Proof. repeat split. Qed.

(** ** More about the transport *)

Section TransportMore.
Context (h : Host).

(** The options of a request depend on the world only through its epoch. *)
Lemma getRequestOptions_epoch_only (w w' : World) :
  epoch w = epoch w' ->
  (getRequestOptions h w).1 = (getRequestOptions h w').1.
Proof.
  intros He. unfold getRequestOptions. rewrite He.
  repeat case_match; reflexivity.
Qed.

Lemma firstOptions_standard (urlObj : URL) (w : World) :
  standardRequest (firstOptions h urlObj w).
Proof.
  unfold standardRequest, firstOptions, requestOptions; cbn [opt_method opt_timeout
    opt_rejectUnauthorized opt_headers].
  repeat split.
  - unfold getRequestOptions. repeat case_match; cbn [fst snd]; simplify_map_eq; reflexivity.
  - unfold getRequestOptions. repeat case_match; cbn [fst snd]; simplify_map_eq; reflexivity.
  - intros name [value Hname]. revert Hname.
    unfold getRequestOptions. repeat case_match; cbn [fst snd]; intros Hname;
      repeat (apply lookup_insert_Some in Hname as [[<- _]|[_ Hname]]; [tauto|]);
      rewrite lookup_empty in Hname; discriminate.
Qed.

(** One hop: the URL does not parse and nothing is sent; or one request is
    sent and the call ends there; or one request is sent and the call goes
    on at the redirect target with one redirect less to spend. *)
Lemma makeHttpsRequest_step (url : string) (n : nat) (w : World) :
  (URL_new h url = None /\
   requests (makeHttpsRequest h url n w).2 = requests w) \/
  (exists urlObj,
     URL_new h url = Some urlObj /\
     ((makeHttpsRequest h url n w).2 = afterFirst h urlObj w \/
      exists m loc,
        n = S m /\
        makeHttpsRequest h url n w =
          makeHttpsRequest h (redirectUrl loc) m (afterFirst h urlObj w))).
Proof.
  destruct (URL_new h url) as [urlObj|] eqn:Hurl.
  - right. exists urlObj. split; [reflexivity|].
    destruct (https_request h (epoch w) (firstOptions h urlObj w))
      as [error| |res] eqn:Hres.
    1,2: left; destruct n; simpl;
      pose proof (getRequestOptions_frame h w) as (_ & He & _);
      unfold afterFirst, firstOptions in *;
      destruct (getRequestOptions h w) as [[agent headers] w1]; simpl in *;
      rewrite Hurl; simpl; rewrite He, Hres; reflexivity.
    rewrite (makeHttpsRequest_response h _ _ _ _ _ Hurl Hres); cbv zeta.
    destruct (isRedirect res);
      [|left; destruct (isNot200 res); [|destruct (streamError res)]; reflexivity].
    destruct (location res) as [loc|]; [|now left].
    destruct (negb (truthy (Some loc))); [now left|].
    destruct n as [|m]; [now left|].
    right. exists m, loc. split; reflexivity.
  - left. split; [reflexivity|].
    pose proof (getRequestOptions_frame h w) as (_ & _ & Hr).
    destruct n; simpl;
      destruct (getRequestOptions h w) as [[agent headers] w1]; simpl in *;
      rewrite Hurl; exact Hr.
Qed.

Lemma afterFirst_requests (urlObj : URL) (w : World) :
  newRequests w (afterFirst h urlObj w) [firstOptions h urlObj w].
Proof.
  unfold newRequests, afterFirst. rewrite requests_tick, requests_emit.
  f_equal. apply getRequestOptions_frame.
Qed.

(** Each request of a call is the first request of some hop, one epoch
    after the one before; a call with budget [n] makes at most [n + 1]. *)
Lemma makeHttpsRequest_hops (n : nat) :
  forall (url : string) (w : World),
    exists added,
      newRequests w (makeHttpsRequest h url n w).2 added /\
      (length added <= S n)%nat /\
      forall (k : nat) (o : RequestOptions),
        added !! k = Some o ->
        exists urlObj wk,
          epoch wk = (epoch w + k)%nat /\ o = firstOptions h urlObj wk.
Proof.
  induction n as [|n IH]; intros url w;
    [destruct (makeHttpsRequest_step url 0 w)
       as [(_ & Hnone)|(urlObj & _ & [Hend|(m & loc & Hm & Hgo)])]
    |destruct (makeHttpsRequest_step url (S n) w)
       as [(_ & Hnone)|(urlObj & _ & [Hend|(m & loc & Hm & Hgo)])]].
  1,4: exists []; split; [unfold newRequests; now rewrite Hnone, app_nil_r|];
       split; [simpl; lia|intros k o Hk; discriminate].
  1,3: exists [firstOptions h urlObj w]; rewrite Hend;
       split; [apply afterFirst_requests|]; split; [simpl; lia|];
       intros [|k] o Hk; [|discriminate]; injection Hk as <-;
       exists urlObj, w; split; [lia|reflexivity].
  - discriminate.
  - injection Hm as <-. rewrite Hgo.
    destruct (IH (redirectUrl loc) (afterFirst h urlObj w))
      as (rest & Hrest & Hlen & Hk).
    exists (firstOptions h urlObj w :: rest). split; [|split].
    + pose proof (afterFirst_requests urlObj w) as Hone.
      unfold newRequests in *. rewrite Hrest, Hone. now rewrite <- app_assoc.
    + simpl. lia.
    + intros [|k] o Hko; simpl in Hko.
      * injection Hko as <-. exists urlObj, w. split; [lia|reflexivity].
      * destruct (Hk k o Hko) as (u & wk & He & Ho).
        exists u, wk. split; [|exact Ho].
        rewrite He, afterFirst_epoch. lia.
Qed.

(** What a call of [getUsageSummary] adds to the requests is nothing, or
    what its one call of the transport adds. *)
Lemma getUsageSummary_requests (forceRefresh : bool) (w : World) :
  newRequests w (getUsageSummary h forceRefresh w).2 [] \/
  requests (getUsageSummary h forceRefresh w).2 =
    requests (makeHttpsRequest h endpoint 5 w).2.
Proof.
  destruct (getUsageSummary_cases h forceRefresh w)
    as [(entry & _ & _ & Heq)
       |(_ & [(_ & Heq)|(_ & [(parsed & w1 & Hok & Heq)|(_ & error & Heq)])])];
    rewrite Heq.
  - left. apply newRequests_refl.
  - left. unfold newRequests. cbn [snd]. now rewrite requests_emit.
  - right. destruct Hok as (body & Hreq & _). now rewrite Hreq.
  - right. apply getUsageSummary_catch_frame.
Qed.

Lemma testConnectivity_world (w : World) :
  (testConnectivity h w).2 = (makeHttpsRequest h endpoint 5 w).2.
Proof.
  unfold testConnectivity. fold endpoint.
  destruct (makeHttpsRequest h endpoint 5 w) as [[body|error] w1];
    [destruct (JSON_parse h body)|]; reflexivity.
Qed.
End TransportMore.

(** X1. No call exceeds its redirect budget: the transport called with
    budget [n] issues at most [n + 1] requests, so one [getUsageSummary]
    and one [testConnectivity] issue at most six each. *)
Theorem at_most_six_requests (h : Host) (forceRefresh : bool) (w : World) :
  (forall (url : string) (n : nat),
     exists added,
       newRequests w (makeHttpsRequest h url n w).2 added /\
       (length added <= S n)%nat) /\
  (exists added,
     newRequests w (getUsageSummary h forceRefresh w).2 added /\
     (length added <= 6)%nat) /\
  (exists added,
     newRequests w (testConnectivity h w).2 added /\
     (length added <= 6)%nat).
Proof.
  assert (Hsix : exists added,
            newRequests w (makeHttpsRequest h endpoint 5 w).2 added /\
            (length added <= 6)%nat).
  { destruct (makeHttpsRequest_hops h 5 endpoint w) as (added & Hadded & Hlen & _).
    eauto. }
  split; [|split].
  - intros url n.
    destruct (makeHttpsRequest_hops h n url w) as (added & Hadded & Hlen & _).
    eauto.
  - destruct (getUsageSummary_requests h forceRefresh w) as [Hnone|Hsame].
    + exists []. split; [exact Hnone|simpl; lia].
    + destruct Hsix as (added & Hadded & Hlen). exists added.
      split; [|exact Hlen]. unfold newRequests in *. now rewrite Hsame.
  - rewrite testConnectivity_world. exact Hsix.
Qed.

(** X4. Every request the service issues is a [GET] with a 30-second
    timeout and certificate verification on, and carries the fixed
    [User-Agent] and [Accept] headers and no header besides these and
    [Cookie]. *)
Theorem every_request_is_standard (h : Host) (url : string) (n : nat) (w : World) :
  exists added,
    newRequests w (makeHttpsRequest h url n w).2 added /\
    Forall standardRequest added.
Proof.
  destruct (makeHttpsRequest_hops h n url w) as (added & Hadded & _ & Hk).
  exists added. split; [exact Hadded|].
  apply Forall_lookup. intros k o Hko.
  destruct (Hk k o Hko) as (urlObj & wk & _ & ->).
  apply firstOptions_standard.
Qed.

Section TransportOutcomes.
Context (h : Host).

Lemma isRedirect_range (res : IncomingMessage) (code : Z) :
  statusCode res = Some code -> 300 <= code < 400 -> isRedirect res = true.
Proof.
  intros Hcode Hrange. unfold isRedirect. rewrite Hcode.
  apply andb_true_iff. split; [apply andb_true_iff; split|].
  - apply negb_true_iff, Z.eqb_neq. lia.
  - apply Z.leb_le. lia.
  - apply Z.ltb_lt. lia.
Qed.

Lemma ok_is_final (res : IncomingMessage) :
  statusCode res = Some 200 -> isRedirect res = false /\ isNot200 res = false.
Proof. intros Hcode. unfold isRedirect, isNot200. now rewrite Hcode. Qed.

(** A chain of redirects no longer than the budget, then a 200. *)
Lemma makeHttpsRequest_follows (locs : list string) :
  forall (n : nat) (url : string) (w : World) (res : IncomingMessage),
    (length locs <= n)%nat ->
    redirectChain h (epoch w) locs ->
    is_Some (URL_new h url) ->
    answersWith h (epoch w + length locs) res ->
    statusCode res = Some 200 ->
    streamError res = None ->
    exists w',
      makeHttpsRequest h url n w = (Ok (collect (chunks res)), w') /\
      epoch w' = (epoch w + S (length locs))%nat.
Proof.
  induction locs as [|loc locs IH];
    intros n url w res Hlen Hchain [urlObj Hurl] Hfinal Hcode Hend.
  - simpl in Hfinal. rewrite Nat.add_0_r in Hfinal.
    rewrite (makeHttpsRequest_response h _ _ _ _ _ Hurl (Hfinal _)). cbv zeta.
    destruct (ok_is_final _ Hcode) as (-> & ->). rewrite Hend.
    eexists. split; [reflexivity|]. rewrite afterFirst_epoch. simpl. lia.
  - destruct n as [|n]; [simpl in Hlen; lia|].
    destruct (Hchain 0%nat loc eq_refl) as (Hne & Hnext & Hres).
    destruct (Hres (firstOptions h urlObj w)) as (res0 & Hans & Hred & Hloc).
    rewrite Nat.add_0_r in Hans.
    rewrite (makeHttpsRequest_response h _ _ _ _ _ Hurl Hans). cbv zeta.
    rewrite Hred, Hloc, (truthy_Some _ Hne). cbn [negb].
    destruct (IH n (redirectUrl loc) (afterFirst h urlObj w) res) as (w' & Heq & He).
    + simpl in Hlen. lia.
    + rewrite afterFirst_epoch. eapply redirectChain_tail, Hchain.
    + exact Hnext.
    + rewrite afterFirst_epoch. intros options.
      replace (S (epoch w) + length locs)%nat
        with (epoch w + length (loc :: locs))%nat by (simpl; lia).
      apply Hfinal.
    + exact Hcode.
    + exact Hend.
    + exists w'. split; [exact Heq|]. rewrite He, afterFirst_epoch. simpl. lia.
Qed.

Lemma makeHttpsRequest_bad_url (url : string) (n : nat) (w : World) :
  URL_new h url = None ->
  makeHttpsRequest h url n w =
    (Throws (TypeError "Invalid URL"), (getRequestOptions h w).2).
Proof.
  intros Hbad.
  destruct n; simpl; destruct (getRequestOptions h w) as [[agent headers] w1];
    simpl; now rewrite Hbad.
Qed.

(** The requests of a call are as many as the epochs it spans. *)
Lemma makeHttpsRequest_count (url : string) (n : nat) (w : World) :
  exists added,
    newRequests w (makeHttpsRequest h url n w).2 added /\
    epoch (makeHttpsRequest h url n w).2 = (epoch w + length added)%nat.
Proof.
  destruct (makeHttpsRequest_frame h n url w) as (_ & added & Hadded & He & _).
  eauto.
Qed.
End TransportOutcomes.

(** X2. Redirects within the budget are followed to the end: when the
    first [k <= n] requests are answered by redirects with a [Location] and
    the next by a 200 whose stream ends, the transport returns that body,
    having issued [k + 1] requests. *)
Theorem redirects_within_budget (h : Host) (n : nat) (locs : list string)
    (url : string) (w : World) (res : IncomingMessage) :
  (length locs <= n)%nat ->
  redirectChain h (epoch w) locs ->
  is_Some (URL_new h url) ->
  answersWith h (epoch w + length locs) res ->
  statusCode res = Some 200 ->
  streamError res = None ->
  (makeHttpsRequest h url n w).1 = Ok (collect (chunks res)) /\
  exists added,
    newRequests w (makeHttpsRequest h url n w).2 added /\
    length added = S (length locs).
Proof.
  intros Hlen Hchain Hurl Hfinal Hcode Hend.
  destruct (makeHttpsRequest_follows h locs n url w res Hlen Hchain Hurl Hfinal Hcode Hend)
    as (w' & Heq & He).
  destruct (makeHttpsRequest_count h url n w) as (added & Hadded & Hcount).
  rewrite Heq in *. cbn [fst snd] in *.
  split; [reflexivity|]. exists added. split; [exact Hadded|]. lia.
Qed.

(** X2, exercised: three redirects back to the endpoint, then the summary
    in two chunks. *)
Lemma redirects_within_budget_witness :
  (makeHttpsRequest (Demo.host (Some "abc") Demo.threeHops) endpoint 5
     Demo.start).1 = Ok Demo.minimalBody.
Proof.
  refine (proj1 (redirects_within_budget
                   (Demo.host (Some "abc") Demo.threeHops) 5
                   (replicate 3 "/api/usage-summary") endpoint Demo.start
                   {| statusCode := Some 200; statusMessage := Some "OK";
                      location := None;
                      chunks := ["{" +:+ Demo.quote +:+ "individualUsage";
                                 Demo.quote +:+ ":{}}"];
                      streamError := None |}
                   _ _ _ _ eq_refl eq_refl)).
  - simpl. lia.
  - intros k loc Hk.
    assert (loc = "/api/usage-summary" /\ (k < 3)%nat) as [-> Hlt].
    { do 3 (destruct k as [|k]; [injection Hk as <-; split; [reflexivity|lia]|]).
      discriminate. }
    split; [discriminate|]. split; [eexists; reflexivity|].
    intros options.
    do 3 (destruct k as [|k]; [eexists; repeat split|]). lia.
  - eexists; reflexivity.
  - intros options. reflexivity.
Defined.

(** X3. A redirect without a usable [Location] (absent or empty) ends the
    call at once with its own error, also when no redirect is left to
    spend: the location is looked at before the budget. *)
Theorem redirect_without_location (h : Host) (url : string) (n : nat) (w : World)
    (urlObj : URL) (res : IncomingMessage) (code : Z) :
  URL_new h url = Some urlObj ->
  https_request h (epoch w) (firstOptions h urlObj w) = Response res ->
  statusCode res = Some code ->
  300 <= code < 400 ->
  location res = None \/ location res = Some "" ->
  makeHttpsRequest h url n w =
    (Throws (Error "Redirect without location header"), afterFirst h urlObj w).
Proof.
  intros Hurl Hres Hcode Hrange Hloc.
  rewrite (makeHttpsRequest_response h _ _ _ _ _ Hurl Hres). cbv zeta.
  rewrite (isRedirect_range _ _ Hcode Hrange).
  destruct Hloc as [->| ->]; reflexivity.
Qed.

(** X3, exercised: a 302 with an empty [Location] and nothing left to
    spend. *)
Lemma redirect_without_location_witness :
  (makeHttpsRequest (Demo.host (Some "abc")
                       (fun _ => Demo.respond 302 "Found" (Some "") []))
     endpoint 0 Demo.start).1
  = Throws (Error "Redirect without location header").
Proof.
  rewrite (redirect_without_location
             (Demo.host (Some "abc") (fun _ => Demo.respond 302 "Found" (Some "") []))
             endpoint 0 Demo.start
             {| hostname := "cursor.com"; port := "";
                pathname := "/api/usage-summary"; search := "" |}
             {| statusCode := Some 302; statusMessage := Some "Found";
                location := Some ""; chunks := []; streamError := None |}
             302 eq_refl eq_refl eq_refl); [reflexivity|lia|now right].
Defined.

(** X5. A redirect that is followed continues at its [Location] as it is
    when that begins with [http], and at [https://cursor.com] followed by
    the [Location] otherwise; when the result is not a well-formed URL the
    call ends with [TypeError: Invalid URL] after its one request. *)
Theorem redirect_target_resolution (h : Host) (url : string) (n : nat) (w : World)
    (urlObj : URL) (res : IncomingMessage) (code : Z) (loc : string) :
  URL_new h url = Some urlObj ->
  https_request h (epoch w) (firstOptions h urlObj w) = Response res ->
  statusCode res = Some code ->
  300 <= code < 400 ->
  location res = Some loc ->
  loc <> "" ->
  makeHttpsRequest h url (S n) w =
    makeHttpsRequest h
      (if startsWith loc "http" then loc else "https://cursor.com" +:+ loc)
      n (afterFirst h urlObj w) /\
  (URL_new h (if startsWith loc "http" then loc else "https://cursor.com" +:+ loc)
     = None ->
   (makeHttpsRequest h url (S n) w).1 = Throws (TypeError "Invalid URL") /\
   newRequests w (makeHttpsRequest h url (S n) w).2 [firstOptions h urlObj w]).
Proof.
  intros Hurl Hres Hcode Hrange Hloc Hne.
  assert (Hgo : makeHttpsRequest h url (S n) w =
                makeHttpsRequest h (redirectUrl loc) n (afterFirst h urlObj w)).
  { rewrite (makeHttpsRequest_response h _ _ _ _ _ Hurl Hres). cbv zeta.
    now rewrite (isRedirect_range _ _ Hcode Hrange), Hloc, (truthy_Some _ Hne). }
  split; [exact Hgo|].
  fold (redirectUrl loc). intros Hbad.
  rewrite Hgo, (makeHttpsRequest_bad_url h _ _ _ Hbad). cbn [fst snd].
  split; [reflexivity|].
  pose proof (afterFirst_requests h urlObj w) as Hone.
  pose proof (getRequestOptions_frame h (afterFirst h urlObj w)) as (_ & _ & Hr).
  unfold newRequests in *. now rewrite Hr.
Qed.

(** X5, exercised: a [Location] that names a scheme and no host. *)
Lemma redirect_target_resolution_witness :
  (makeHttpsRequest (Demo.host (Some "abc")
                       (fun _ => Demo.respond 301 "Moved" (Some "http://") []))
     endpoint 5 Demo.start).1
  = Throws (TypeError "Invalid URL").
Proof.
  refine (proj1 (proj2 (redirect_target_resolution
             (Demo.host (Some "abc")
                (fun _ => Demo.respond 301 "Moved" (Some "http://") []))
             endpoint 4 Demo.start
             {| hostname := "cursor.com"; port := "";
                pathname := "/api/usage-summary"; search := "" |}
             {| statusCode := Some 301; statusMessage := Some "Moved";
                location := Some "http://"; chunks := []; streamError := None |}
             301 "http://" eq_refl eq_refl eq_refl _ eq_refl _) eq_refl));
    [lia|discriminate].
Defined.

(** ** The proxy *)

Section Proxy.
Context (h : Host).

Lemma trim_not_empty (s : string) : trim s <> "" -> s <> "".
Proof. intros Ht ->. now apply Ht. Qed.

Lemma isBlank_false (s : string) : trim s <> "" -> isBlank (Some s) = false.
Proof.
  intros Ht. unfold isBlank. cbn [fmap option_fmap option_map].
  now rewrite (truthy_Some _ (trim_not_empty _ Ht)), (truthy_Some _ Ht).
Qed.

Lemma or_string_truthy (a b : option string) :
  truthy a = true -> or_string a b = a.
Proof. unfold or_string. now intros ->. Qed.

Lemma or_string_falsy (a b : option string) :
  truthy a = false -> or_string a b = b.
Proof. unfold or_string. now intros ->. Qed.

(** The agent and the world [getRequestOptions] leaves, for the proxy URL
    it settles on when the setting is blank. *)
Lemma getRequestOptions_blank (w : World) :
  isBlank (proxy (getConfiguration h (epoch w))) = true ->
  forall resolved : option string,
    or_string (or_string (or_string (or_string
      (https_proxy (process_env h (epoch w)))
      (HTTPS_PROXY (process_env h (epoch w))))
      (http_proxy (process_env h (epoch w))))
      (HTTP_PROXY (process_env h (epoch w))))
      (Some "") = resolved ->
    (isBlank resolved = true ->
     (getRequestOptions h w).1.1 = Some (https_Agent false 1) /\
     (getRequestOptions h w).2 = w) /\
    (forall v, resolved = Some v -> isBlank resolved = false ->
     (getRequestOptions h w).1.1 = proxyAgentFor h v).
Proof.
  intros Hblank resolved Hres.
  unfold getRequestOptions, isBlank in *. rewrite Hblank, Hres.
  split.
  - intros Hb. apply orb_true_iff in Hb.
    destruct resolved as [v|]; [|split; reflexivity].
    replace (truthy (Some v) && truthy (trim <$> Some v)) with false
      by (symmetry; apply andb_false_iff;
          destruct Hb as [Hb|Hb]; apply negb_true_iff in Hb; auto).
    split; reflexivity.
  - intros v -> Hb. apply orb_false_iff in Hb as [Hb1 Hb2].
    apply negb_false_iff in Hb1, Hb2. rewrite Hb1, Hb2. cbn [andb].
    unfold proxyAgentFor. destruct (HttpsProxyAgent_new h v); reflexivity.
Qed.

(** The first proxy variable that is set and not empty is the one the
    chain of [||] yields. *)
Lemma first_variable (a b c d : option string) (i : nat) (v : string) :
  [a; b; c; d] !! i = Some (Some v) ->
  v <> "" ->
  (forall (j : nat) (u : option string),
     (j < i)%nat -> [a; b; c; d] !! j = Some u -> truthy u = false) ->
  or_string (or_string (or_string (or_string a b) c) d) (Some "") = Some v.
Proof.
  intros Hi Hv Hearlier.
  pose proof (truthy_Some _ Hv) as Htv.
  destruct i as [|[|[|[|i]]]]; simpl in Hi; try discriminate;
    injection Hi as ->.
  - now rewrite !(or_string_truthy (Some v)) by exact Htv.
  - rewrite (or_string_falsy a) by (now apply (Hearlier 0%nat); [lia|]).
    now rewrite !(or_string_truthy (Some v)) by exact Htv.
  - rewrite (or_string_falsy a) by (now apply (Hearlier 0%nat); [lia|]).
    rewrite (or_string_falsy b) by (now apply (Hearlier 1%nat); [lia|]).
    now rewrite !(or_string_truthy (Some v)) by exact Htv.
  - rewrite (or_string_falsy a) by (now apply (Hearlier 0%nat); [lia|]).
    rewrite (or_string_falsy b) by (now apply (Hearlier 1%nat); [lia|]).
    rewrite (or_string_falsy c) by (now apply (Hearlier 2%nat); [lia|]).
    now rewrite !(or_string_truthy (Some v)) by exact Htv.
Qed.

(** The agent for the proxy URL the service settles on, and what is shown
    when it cannot be built. *)
Lemma getRequestOptions_settled (w : World) (p : string) :
  settlesOn h w p ->
  (getRequestOptions h w).1.1 = proxyAgentFor h p /\
  trace (getRequestOptions h w).2 =
    match HttpsProxyAgent_new h p with
    | None => trace w
    | Some error =>
        (trace w ++ [showErrorMessage
                       ("Cursor Usage: Failed to configure proxy: "
                        +:+ String_of_thrown error)])%list
    end.
Proof.
  intros [Ht Hsource].
  pose proof (isBlank_false p Ht) as Hb. unfold isBlank in Hb.
  apply orb_false_iff in Hb as [Hb1 Hb2].
  apply negb_false_iff in Hb1, Hb2.
  assert (Hagent : forall headers : gmap string string,
    let r :=
      match HttpsProxyAgent_new h p with
      | None => (Some (HttpsProxyAgent p), headers, w)
      | Some error =>
          (None, headers,
           emit (showErrorMessage
                   ("Cursor Usage: Failed to configure proxy: "
                    +:+ String_of_thrown error)) w)
      end in
    r.1.1 = proxyAgentFor h p /\
    trace r.2 =
      match HttpsProxyAgent_new h p with
      | None => trace w
      | Some error =>
          (trace w ++ [showErrorMessage
                         ("Cursor Usage: Failed to configure proxy: "
                          +:+ String_of_thrown error)])%list
      end).
  { intros headers. unfold proxyAgentFor.
    destruct (HttpsProxyAgent_new h p); split; reflexivity. }
  destruct Hsource as [Hp|(Hblank & i & Hi & Hearlier)].
  - unfold getRequestOptions. rewrite Hp. cbv zeta.
    rewrite !Hb1, !Hb2. cbn [negb orb andb]. rewrite !Hb1, !Hb2. cbn [andb].
    apply Hagent.
  - unfold proxyVariables in Hi, Hearlier.
    unfold getRequestOptions. unfold isBlank in Hblank. rewrite Hblank.
    destruct (process_env h (epoch w)) as [a b c d]; cbn [https_proxy HTTPS_PROXY
      http_proxy HTTP_PROXY] in *.
    rewrite (first_variable a b c d i p Hi (trim_not_empty _ Ht) Hearlier).
    cbv zeta. rewrite !Hb1, !Hb2. cbn [andb].
    apply Hagent.
Qed.

Lemma makeHttpsRequest_first_request (url : string) (n : nat) (w : World)
    (urlObj : URL) :
  URL_new h url = Some urlObj ->
  exists rest,
    newRequests w (makeHttpsRequest h url n w).2 (firstOptions h urlObj w :: rest).
Proof.
  intros Hurl.
  pose proof (afterFirst_requests h urlObj w) as Hone.
  destruct (makeHttpsRequest_step h url n w)
    as [(Hnone & _)|(u & Hu & [Hend|(m & loc & _ & Hgo)])]; [congruence| |];
    rewrite Hurl in Hu; injection Hu as <-.
  - exists []. now rewrite Hend.
  - rewrite Hgo.
    destruct (makeHttpsRequest_frame h m (redirectUrl loc) (afterFirst h urlObj w))
      as (_ & rest & Hrest & _).
    exists rest. unfold newRequests in *. rewrite Hrest, Hone.
    now rewrite <- app_assoc.
Qed.
End Proxy.

(** X6. A proxy setting that is not blank decides alone: the process
    environment is not consulted, and the agent is the proxy agent for the
    setting as it is written (not trimmed), or none when its constructor
    throws. *)
Theorem proxy_setting_overrides_environment (h : Host)
    (env : nat -> ProcessEnv) (w : World) (p : string) :
  proxy (getConfiguration h (epoch w)) = Some p ->
  trim p <> "" ->
  getRequestOptions (withEnvironment h env) w = getRequestOptions h w /\
  (getRequestOptions h w).1.1 = proxyAgentFor h p.
Proof.
  intros Hp Ht.
  pose proof (isBlank_false p Ht) as Hb. unfold isBlank in Hb.
  apply orb_false_iff in Hb as [Hb1 Hb2].
  apply negb_false_iff in Hb1, Hb2.
  unfold getRequestOptions, proxyAgentFor. cbn [withEnvironment getConfiguration
    process_env HttpsProxyAgent_new].
  rewrite Hp. cbv zeta. rewrite !Hb1, !Hb2. cbn [negb orb andb].
  rewrite !Hb1, !Hb2. cbn [andb].
  split; [reflexivity|].
  destruct (HttpsProxyAgent_new h p); reflexivity.
Qed.

(** X6, exercised: a proxy in the settings and another in the
    environment. *)
Lemma proxy_setting_overrides_environment_witness :
  (getRequestOptions
     (Scenario.host (Some "abc") (Some " http://proxy:8080")
        (Scenario.environment (Some "http://other:3128") None None None)
        Demo.loginLoop)
     Demo.start).1.1
  = Some (HttpsProxyAgent " http://proxy:8080").
Proof.
  refine (proj2 (proxy_setting_overrides_environment
                   (Scenario.host (Some "abc") (Some " http://proxy:8080")
                      (Scenario.environment (Some "http://other:3128") None None None)
                      Demo.loginLoop)
                   (fun _ => Scenario.noProxy) Demo.start " http://proxy:8080"
                   eq_refl _)).
  discriminate.
Defined.

(** X7. With a blank proxy setting, the first of [https_proxy],
    [HTTPS_PROXY], [http_proxy], [HTTP_PROXY] that is set and not empty
    decides: a proxy agent for it, or, when it is white space only, a direct
    connection whatever the later variables hold. With none of them set the
    connection is direct, through an agent that keeps no connection alive,
    and nothing is shown. *)
Theorem first_proxy_variable_decides (h : Host) (w : World) :
  isBlank (proxy (getConfiguration h (epoch w))) = true ->
  (forall (i : nat) (v : string),
     proxyVariables (process_env h (epoch w)) !! i = Some (Some v) ->
     v <> "" ->
     (forall (j : nat) (u : option string),
        (j < i)%nat ->
        proxyVariables (process_env h (epoch w)) !! j = Some u ->
        truthy u = false) ->
     (getRequestOptions h w).1.1 =
       if String.eqb (trim v) "" then Some (https_Agent false 1)
       else proxyAgentFor h v) /\
  ((forall u : option string,
      u ∈ proxyVariables (process_env h (epoch w)) -> truthy u = false) ->
   (getRequestOptions h w).1.1 = Some (https_Agent false 1) /\
   (getRequestOptions h w).2 = w).
Proof.
  intros Hblank.
  pose proof (getRequestOptions_blank h w Hblank) as Hres.
  unfold proxyVariables.
  destruct (process_env h (epoch w)) as [a b c d]; cbn [https_proxy HTTPS_PROXY
    http_proxy HTTP_PROXY] in *.
  split.
  - intros i v Hi Hv Hearlier.
    pose proof (first_variable a b c d i v Hi Hv Hearlier) as Hresolved.
    destruct (Hres _ Hresolved) as (Hdirect & Hproxy).
    destruct (String.eqb_spec (trim v) "") as [Hempty|Hfull].
    + apply Hdirect. unfold isBlank. cbn [fmap option_fmap option_map truthy].
      rewrite Hempty. apply orb_true_r.
    + apply (Hproxy v eq_refl). now apply isBlank_false.
  - intros Hnone.
    assert (Hresolved :
      or_string (or_string (or_string (or_string a b) c) d) (Some "") = Some "").
    { rewrite (or_string_falsy a) by (apply Hnone; repeat constructor).
      rewrite (or_string_falsy b) by (apply Hnone; repeat constructor).
      rewrite (or_string_falsy c) by (apply Hnone; repeat constructor).
      rewrite (or_string_falsy d) by (apply Hnone; repeat constructor).
      reflexivity. }
    apply (Hres _ Hresolved). reflexivity.
Qed.

(** X7, exercised: [https_proxy] is a blank and [HTTP_PROXY] names a proxy;
    the connection is direct. *)
Lemma first_proxy_variable_decides_witness :
  (getRequestOptions
     (Scenario.host (Some "abc") None
        (Scenario.environment (Some " ") None None (Some "http://proxy:8080"))
        Demo.loginLoop)
     Demo.start).1.1
  = Some (https_Agent false 1).
Proof.
  refine (proj1 (first_proxy_variable_decides
                   (Scenario.host (Some "abc") None
                      (Scenario.environment (Some " ") None None
                         (Some "http://proxy:8080"))
                      Demo.loginLoop)
                   Demo.start eq_refl) 0%nat " " eq_refl _ _).
  - discriminate.
  - intros j u Hj. lia.
Defined.

(** X8. When the proxy agent cannot be built for the proxy URL the
    service settles on, be it the setting or a variable of the
    environment, the failure is shown and the request is sent all the
    same, with no agent at all and with the cookie. *)
Theorem failed_proxy_goes_direct (h : Host) (url : string) (n : nat) (w : World)
    (p : string) (error : Thrown) (urlObj : URL) :
  settlesOn h w p ->
  HttpsProxyAgent_new h p = Some error ->
  URL_new h url = Some urlObj ->
  trace (getRequestOptions h w).2 =
    (trace w ++ [showErrorMessage
                   ("Cursor Usage: Failed to configure proxy: "
                    +:+ String_of_thrown error)])%list /\
  opt_agent (firstOptions h urlObj w) = None /\
  opt_headers (firstOptions h urlObj w) !! "Cookie" = configuredCookie h (epoch w) /\
  exists rest,
    newRequests w (makeHttpsRequest h url n w).2 (firstOptions h urlObj w :: rest).
Proof.
  intros Hsettled Hfail Hurl.
  destruct (getRequestOptions_settled h w p Hsettled) as [Hagent Htrace].
  unfold proxyAgentFor in Hagent. rewrite Hfail in Hagent, Htrace.
  split; [exact Htrace|]. split; [exact Hagent|]. split.
  - unfold firstOptions, requestOptions. cbn [opt_headers].
    apply getRequestOptions_cookie.
  - now apply makeHttpsRequest_first_request.
Qed.

(** X8, exercised: [HTTPS_PROXY] holds what is no URL, with no proxy in
    the settings. *)
Lemma failed_proxy_goes_direct_witness :
  exists rest,
    newRequests Demo.start
      (makeHttpsRequest
         (Scenario.host (Some "abc") None
            (Scenario.environment None (Some "proxy:8080") None None)
            Demo.loginLoop)
         endpoint 5 Demo.start).2
      ({| opt_hostname := "cursor.com";
          opt_port := PortNumber 443;
          opt_path := "/api/usage-summary";
          opt_method := "GET";
          opt_headers :=
            <["Cookie" := "WorkosCursorSessionToken=abc"]>
              (<["Accept" := "application/json"]>
                 (<["User-Agent" := "Cursor-Usage-Summary-Extension/1.0.0"]> ∅));
          opt_agent := None;
          opt_rejectUnauthorized := true;
          opt_timeout := 30000 |} :: rest).
Proof.
  refine (proj2 (proj2 (proj2 (failed_proxy_goes_direct
            (Scenario.host (Some "abc") None
               (Scenario.environment None (Some "proxy:8080") None None)
               Demo.loginLoop)
            endpoint 5 Demo.start "proxy:8080" (TypeError "Invalid URL")
            {| hostname := "cursor.com"; port := "";
               pathname := "/api/usage-summary"; search := "" |}
            _ eq_refl eq_refl)))).
  split; [discriminate|]. right. split; [reflexivity|].
  exists 1%nat. split; [reflexivity|].
  intros [|j] u Hj; [intros [= <-]; reflexivity|lia].
Defined.

(** The same with the proxy in the settings. *)
Example failed_proxy_setting :
  trace (getRequestOptions
           (Scenario.host (Some "abc") (Some "proxy:8080") Scenario.noProxy
              Demo.loginLoop)
           Demo.start).2
  = [showErrorMessage
       "Cursor Usage: Failed to configure proxy: TypeError: Invalid URL"].
Proof. reflexivity. Qed.

(** White space is what [trim] takes it for: a proxy setting that is a
    no-break space (U+00A0) only is blank, and the environment decides. *)
Example no_break_space_is_blank :
  trim (bytes [194; 160]%nat) = "" /\
  trim (" " +:+ bytes [226; 128; 175; 104; 105; 239; 187; 191; 9]%nat) = "hi" /\
  (getRequestOptions
     (Scenario.host (Some "abc") (Some (bytes [194; 160]%nat))
        (Scenario.environment (Some "http://other:3128") None None None)
        Demo.loginLoop)
     Demo.start).1.1
  = Some (HttpsProxyAgent "http://other:3128").
Proof. repeat split. Qed.

(** ** More about the orchestrator *)

Section OrchestratorMore.
Context (h : Host).

Lemma makeHttpsRequest_status (url : string) (n : nat) (w : World)
    (urlObj : URL) (res : IncomingMessage) (code : Z) :
  URL_new h url = Some urlObj ->
  https_request h (epoch w) (firstOptions h urlObj w) = Response res ->
  statusCode res = Some code ->
  code <> 200 ->
  ~ (300 <= code < 400) ->
  makeHttpsRequest h url n w =
    (Throws (Error ("HTTP " +:+ pretty code +:+ ": "
                    +:+ default "undefined" (statusMessage res))),
     afterFirst h urlObj w).
Proof.
  intros Hurl Hres Hcode H200 H3xx.
  rewrite (makeHttpsRequest_response h _ _ _ _ _ Hurl Hres). cbv zeta.
  unfold isRedirect, isNot200, httpStatusMessage. rewrite Hcode. cbn [from_option].
  replace (negb (code =? 0) && (300 <=? code) && (code <? 400)) with false
    by (symmetry; apply andb_false_iff;
        destruct (Z.ltb_spec code 400); [left|now right];
        apply andb_false_iff; right; apply Z.leb_gt; lia).
  replace (negb (code =? 200)) with true
    by (symmetry; apply negb_true_iff, Z.eqb_neq, H200).
  reflexivity.
Qed.

(** A call that fetches and whose transport rejects falls back after two
    notifications. *)
Lemma getUsageSummary_rejected (forceRefresh : bool) (w w1 : World)
    (error : Thrown) :
  cacheHit forceRefresh (cache w !! cacheKey) (Date_now h (epoch w)) = false ->
  truthy (apiToken (getConfiguration h (epoch w))) = true ->
  makeHttpsRequest h endpoint 5 w = (Throws error, w1) ->
  getUsageSummary h forceRefresh w =
    (Ok (fallback w),
     emit (showWarningMessage (fallbackWarning w))
       (emit (showErrorMessage (errorNotification error)) w1)).
Proof.
  intros Hmiss Htoken Hreq.
  rewrite (getUsageSummary_fetch h _ _ Hmiss Htoken).
  unfold getUsageSummary_try. fold endpoint. rewrite Hreq.
  unfold getUsageSummary_catch, fallback, fallbackWarning.
  destruct (cache w !! cacheKey); reflexivity.
Qed.
End OrchestratorMore.

(** In the message [HTTP <code>: <reason>], a keyword that the part before
    the reason cannot hold is looked for in the reason alone; the code
    itself is found at once. *)
Ltac past_prefix reason keyword :=
  match goal with
  | |- context [includes ?message keyword] =>
      replace (includes message keyword) with (includes reason keyword)
        by reflexivity
  end.

Ltac found_in_prefix keyword :=
  match goal with
  | |- context [includes ?message keyword] =>
      replace (includes message keyword) with true by reflexivity
  end.

(** X9. A 401, 403 or 404 answer is explained to the user as an invalid
    token, a denied access or a missing endpoint, and the call falls back;
    this for a status message that names no condition looked for earlier
    (a redirect loop, a refused connection, a failed lookup, a time-out,
    and, for 403 and 404, the lower codes). *)
Theorem http_status_is_explained (h : Host) (forceRefresh : bool) (w : World)
    (urlObj : URL) (res : IncomingMessage) (reason : string) :
  cacheHit forceRefresh (cache w !! cacheKey) (Date_now h (epoch w)) = false ->
  truthy (apiToken (getConfiguration h (epoch w))) = true ->
  URL_new h endpoint = Some urlObj ->
  https_request h (epoch w) (firstOptions h urlObj w) = Response res ->
  default "undefined" (statusMessage res) = reason ->
  mentionsNone reason
    ["Too many redirects"; "ECONNREFUSED"; "ENOTFOUND"; "timeout"] ->
  (statusCode res = Some 401 ->
   fallsBack h forceRefresh w (afterFirst h urlObj w)
     "Invalid or expired authentication token.") /\
  (statusCode res = Some 403 ->
   mentionsNone reason ["401"] ->
   fallsBack h forceRefresh w (afterFirst h urlObj w)
     "Access denied. The API token may not have the required permissions.") /\
  (statusCode res = Some 404 ->
   mentionsNone reason ["401"; "403"] ->
   fallsBack h forceRefresh w (afterFirst h urlObj w)
     "API endpoint not found.").
Proof.
  intros Hmiss Htoken Hurl Hres Hreason Hclean.
  assert (H1 : includes reason "Too many redirects" = false)
    by (apply Hclean; repeat constructor).
  assert (H2 : includes reason "ECONNREFUSED" = false)
    by (apply Hclean; repeat constructor).
  assert (H3 : includes reason "ENOTFOUND" = false)
    by (apply Hclean; repeat constructor).
  assert (H4 : includes reason "timeout" = false)
    by (apply Hclean; repeat constructor).
  unfold fallsBack.
  split; [|split].
  - intros Hcode.
    rewrite (getUsageSummary_rejected h _ _ _ _ Hmiss Htoken
               (makeHttpsRequest_status h _ _ _ _ _ _ Hurl Hres Hcode
                  ltac:(lia) ltac:(lia))).
    rewrite Hreason. do 3 f_equal. unfold errorNotification, Error.
    change (pretty 401) with "401".
    past_prefix reason "Too many redirects". past_prefix reason "ECONNREFUSED".
    past_prefix reason "ENOTFOUND". past_prefix reason "timeout".
    found_in_prefix "401".
    now rewrite H1, H2, H3, H4.
  - intros Hcode Hlower.
    assert (H5 : includes reason "401" = false)
      by (apply Hlower; repeat constructor).
    rewrite (getUsageSummary_rejected h _ _ _ _ Hmiss Htoken
               (makeHttpsRequest_status h _ _ _ _ _ _ Hurl Hres Hcode
                  ltac:(lia) ltac:(lia))).
    rewrite Hreason. do 3 f_equal. unfold errorNotification, Error.
    change (pretty 403) with "403".
    past_prefix reason "Too many redirects". past_prefix reason "ECONNREFUSED".
    past_prefix reason "ENOTFOUND". past_prefix reason "timeout".
    past_prefix reason "401". found_in_prefix "403".
    now rewrite H1, H2, H3, H4, H5.
  - intros Hcode Hlower.
    assert (H5 : includes reason "401" = false)
      by (apply Hlower; repeat constructor).
    assert (H6 : includes reason "403" = false)
      by (apply Hlower; repeat constructor).
    rewrite (getUsageSummary_rejected h _ _ _ _ Hmiss Htoken
               (makeHttpsRequest_status h _ _ _ _ _ _ Hurl Hres Hcode
                  ltac:(lia) ltac:(lia))).
    rewrite Hreason. do 3 f_equal. unfold errorNotification, Error.
    change (pretty 404) with "404".
    past_prefix reason "Too many redirects". past_prefix reason "ECONNREFUSED".
    past_prefix reason "ENOTFOUND". past_prefix reason "timeout".
    past_prefix reason "401". past_prefix reason "403". found_in_prefix "404".
    now rewrite H1, H2, H3, H4, H5, H6.
Qed.

(** X9, exercised: a 401 with the usual status message, no cache. *)
Lemma http_status_is_explained_witness :
  fallsBack
    (Demo.host (Some "abc") (fun _ => Demo.respond 401 "Unauthorized" None []))
    true Demo.start
    (afterFirst
       (Demo.host (Some "abc") (fun _ => Demo.respond 401 "Unauthorized" None []))
       {| hostname := "cursor.com"; port := "";
          pathname := "/api/usage-summary"; search := "" |}
       Demo.start)
    "Invalid or expired authentication token.".
Proof.
  refine (proj1 (http_status_is_explained
                   (Demo.host (Some "abc")
                      (fun _ => Demo.respond 401 "Unauthorized" None []))
                   true Demo.start
                   {| hostname := "cursor.com"; port := "";
                      pathname := "/api/usage-summary"; search := "" |}
                   {| statusCode := Some 401; statusMessage := Some "Unauthorized";
                      location := None; chunks := []; streamError := None |}
                   "Unauthorized" eq_refl eq_refl eq_refl eq_refl eq_refl _)
                eq_refl).
  intros keyword Hk.
  repeat (apply elem_of_cons in Hk as [->|Hk]; [reflexivity|]).
  now apply elem_of_nil in Hk.
Defined.

(** X10. A fetch that fails shows one error message and then one warning,
    and returns the fallback: the error is the transport's own, explained,
    or, for a body that does not parse or lacks [individualUsage], one of
    two fixed texts. *)
Theorem failure_shows_error_then_warning (h : Host) (forceRefresh : bool)
    (w : World) :
  cacheHit forceRefresh (cache w !! cacheKey) (Date_now h (epoch w)) = false ->
  truthy (apiToken (getConfiguration h (epoch w))) = true ->
  (forall error w1,
     makeHttpsRequest h endpoint 5 w = (Throws error, w1) ->
     getUsageSummary h forceRefresh w =
       (Ok (fallback w),
        emit (showWarningMessage (fallbackWarning w))
          (emit (showErrorMessage (errorNotification error)) w1))) /\
  (forall body w1,
     makeHttpsRequest h endpoint 5 w = (Ok body, w1) ->
     JSON_parse h body = None ->
     fallsBack h forceRefresh w w1 "Invalid JSON response from API") /\
  (forall body w1 parsed,
     makeHttpsRequest h endpoint 5 w = (Ok body, w1) ->
     JSON_parse h body = Some parsed ->
     ToBoolean parsed && ToBoolean (get_opt parsed "individualUsage") = false ->
     fallsBack h forceRefresh w w1 "Invalid response structure from API").
Proof.
  intros Hmiss Htoken.
  split; [|split].
  - intros error w1 Hreq. now apply getUsageSummary_rejected.
  - intros body w1 Hreq Hparse. unfold fallsBack.
    rewrite (getUsageSummary_fetch h _ _ Hmiss Htoken).
    unfold getUsageSummary_try. fold endpoint. rewrite Hreq, Hparse.
    unfold getUsageSummary_catch, fallback, fallbackWarning.
    destruct (cache w !! cacheKey); reflexivity.
  - intros body w1 parsed Hreq Hparse Hinvalid. unfold fallsBack.
    rewrite (getUsageSummary_fetch h _ _ Hmiss Htoken).
    unfold getUsageSummary_try. fold endpoint. rewrite Hreq, Hparse.
    destruct (ToBoolean parsed) eqn:Hp; cbn [negb andb] in *.
    + rewrite (get_truthy _ _ Hp), Hinvalid. cbn [negb].
      unfold getUsageSummary_catch, fallback, fallbackWarning.
      destruct (cache w !! cacheKey); reflexivity.
    + unfold getUsageSummary_catch, fallback, fallbackWarning.
      destruct (cache w !! cacheKey); reflexivity.
Qed.

(** X10, exercised: an HTML page served with a 200. *)
Lemma failure_shows_error_then_warning_witness :
  fallsBack
    (Demo.host (Some "abc") (fun _ => Demo.respond 200 "OK" None ["<html>"]))
    false Demo.start
    (makeHttpsRequest
       (Demo.host (Some "abc") (fun _ => Demo.respond 200 "OK" None ["<html>"]))
       endpoint 5 Demo.start).2
    "Invalid JSON response from API".
Proof.
  refine (proj1 (proj2 (failure_shows_error_then_warning
                   (Demo.host (Some "abc")
                      (fun _ => Demo.respond 200 "OK" None ["<html>"]))
                   false Demo.start eq_refl eq_refl)) "<html>" _ _ eq_refl).
  vm_compute. reflexivity.
Defined.

(** X11. What a successful fetch returned is what the next unforced call
    returns, from the cache and without a request, in any later world whose
    clock is less than 60 seconds past the write. *)
Theorem fetched_summary_is_served_again (h : Host) (forceRefresh : bool)
    (w w1 w2 : World) (parsed : JSValue) :
  cacheHit forceRefresh (cache w !! cacheKey) (Date_now h (epoch w)) = false ->
  truthy (apiToken (getConfiguration h (epoch w))) = true ->
  FetchSuccess h w parsed w1 ->
  cache w2 = cache (getUsageSummary h forceRefresh w).2 ->
  Date_now h (epoch w2) - Date_now h (epoch w1) < 60000 ->
  (getUsageSummary h forceRefresh w).1 = Ok parsed /\
  getUsageSummary h false w2 = (Ok parsed, w2).
Proof.
  intros Hmiss Htoken Hok Hcache Hage.
  destruct (getUsageSummary_cases h forceRefresh w)
    as [(entry & Hcached & Hhit & _)
       |(_ & [(Hno & _)|(_ & [(p & w1' & Hok' & Heq)|(Hfail & _)])])].
  - rewrite Hcached in Hmiss. congruence.
  - congruence.
  - destruct Hok as (body & Hreq & Hparse & _).
    destruct Hok' as (body' & Hreq' & Hparse' & _).
    rewrite Hreq in Hreq'. injection Hreq' as <- <-.
    rewrite Hparse in Hparse'. injection Hparse' as <-.
    rewrite Heq in *. cbn [fst snd cache] in *.
    split; [reflexivity|].
    apply (getUsageSummary_hit h w2
             {| data := parsed; timestamp := Date_now h (epoch w1) |}).
    + rewrite Hcache. apply lookup_insert_eq.
    + exact Hage.
  - destruct (FetchFailure_not_success _ _ _ _ Hfail Hok).
Qed.

(** X11, exercised: a fetch through three redirects, then a second call
    right after it. *)
Lemma fetched_summary_is_served_again_witness :
  getUsageSummary (Demo.host (Some "abc") Demo.threeHops) false
    (getUsageSummary (Demo.host (Some "abc") Demo.threeHops) true Demo.start).2
  = (Ok Demo.minimalSummary,
     (getUsageSummary (Demo.host (Some "abc") Demo.threeHops) true Demo.start).2).
Proof.
  refine (proj2 (fetched_summary_is_served_again
                   (Demo.host (Some "abc") Demo.threeHops) true Demo.start
                   (makeHttpsRequest (Demo.host (Some "abc") Demo.threeHops)
                      endpoint 5 Demo.start).2
                   (getUsageSummary (Demo.host (Some "abc") Demo.threeHops)
                      true Demo.start).2
                   Demo.minimalSummary eq_refl eq_refl _ eq_refl _)).
  - exists Demo.minimalBody. repeat split.
  - vm_compute. reflexivity.
Defined.

(** X12. After [clearCache] or [updateApiToken] the cache is empty, and the
    next call, unforced and with a token configured, goes to the network
    however fresh the entry it held was. *)
Theorem clearCache_forces_fetch (h : Host) (w : World) :
  truthy (apiToken (getConfiguration h (epoch w))) = true ->
  is_Some (URL_new h endpoint) ->
  cache (clearCache w) !! cacheKey = None /\
  (exists first rest,
     newRequests w (getUsageSummary h false (clearCache w)).2 (first :: rest)) /\
  (exists first rest,
     newRequests w (getUsageSummary h false (updateApiToken w)).2 (first :: rest)).
Proof.
  intros Htoken Hurl.
  assert (Hfetch : exists first rest,
            newRequests w (getUsageSummary h false (clearCache w)).2 (first :: rest)).
  { destruct (getUsageSummary_miss_requests h false (clearCache w))
      as (first & rest & Hreq); auto.
    exists first, rest. exact Hreq. }
  split; [apply lookup_empty|]. split; exact Hfetch.
Qed.

(** X12, exercised: an entry written one second ago is cleared. *)
Lemma clearCache_forces_fetch_witness :
  exists first rest,
    newRequests (Demo.holding Demo.minimalSummary 999000)
      (getUsageSummary (Demo.host (Some "abc") Demo.threeHops) false
         (clearCache (Demo.holding Demo.minimalSummary 999000))).2
      (first :: rest).
Proof.
  refine (proj1 (proj2 (clearCache_forces_fetch
                   (Demo.host (Some "abc") Demo.threeHops)
                   (Demo.holding Demo.minimalSummary 999000) eq_refl _))).
  eexists; reflexivity.
Defined.

(** X14. [testConnectivity] asks no token: it sends its request with
    whatever the settings give, without a cookie when they give none. It
    answers [true] exactly when the transport returns a body that parses,
    whatever that body holds, and it leaves the cache as it was. *)
Theorem testConnectivity_probe (h : Host) (w : World) :
  cache (testConnectivity h w).2 = cache w /\
  ((testConnectivity h w).1 = true <->
   exists body parsed,
     (makeHttpsRequest h endpoint 5 w).1 = Ok body /\
     JSON_parse h body = Some parsed) /\
  (is_Some (URL_new h endpoint) ->
   exists first rest,
     newRequests w (testConnectivity h w).2 (first :: rest)) /\
  ((forall e : nat, (epoch w <= e)%nat ->
      truthy (apiToken (getConfiguration h e)) = false) ->
   exists added,
     newRequests w (testConnectivity h w).2 added /\
     Forall (fun o : RequestOptions => opt_headers o !! "Cookie" = None) added).
Proof.
  rewrite testConnectivity_world.
  destruct (makeHttpsRequest_frame h 5 endpoint w)
    as (Hcache & added & Hadded & _ & Hsome & Hcookie).
  split; [exact Hcache|]. split; [|split].
  - unfold testConnectivity. fold endpoint.
    destruct (makeHttpsRequest h endpoint 5 w) as [[body|error] w1]; cbn [fst].
    + destruct (JSON_parse h body) as [parsed|] eqn:Hparse; cbn [fst].
      * split; [eauto|reflexivity].
      * split; [discriminate|].
        intros (b & p & [= <-] & Hp). congruence.
    + split; [discriminate|]. intros (b & p & Hb & _). discriminate.
  - intros Hurl. specialize (Hsome Hurl).
    destruct added as [|first rest]; [contradiction|]. eauto.
  - intros Hnone. exists added. split; [exact Hadded|].
    apply Forall_lookup. intros k o Hko. rewrite (Hcookie k o Hko).
    unfold configuredCookie.
    specialize (Hnone (epoch w + k)%nat ltac:(lia)).
    destruct (apiToken (getConfiguration h (epoch w + k))) as [token|];
      [|reflexivity].
    now rewrite Hnone.
Qed.

(** X14, exercised: no token, and a server that answers [null]. *)
Lemma testConnectivity_probe_witness :
  (testConnectivity
     (Demo.host None (fun _ => Demo.respond 200 "OK" None ["null"]))
     Demo.start).1 = true /\
  exists added,
    newRequests Demo.start
      (testConnectivity
         (Demo.host None (fun _ => Demo.respond 200 "OK" None ["null"]))
         Demo.start).2 added /\
    Forall (fun o : RequestOptions => opt_headers o !! "Cookie" = None) added.
Proof.
  pose proof (testConnectivity_probe
                (Demo.host None (fun _ => Demo.respond 200 "OK" None ["null"]))
                Demo.start) as (_ & Htrue & _ & Hcookie).
  split.
  - apply Htrue. exists "null", JSNull. split; reflexivity.
  - apply Hcookie. reflexivity.
Defined.

(** ** More about the percentage helpers *)

Section HelpersMore.
Context (h : Host).

Lemma get_nonNull (v : JSValue) (key : string) :
  nonNull v -> get v key = Ok (get_opt v key).
Proof. intros [Hn Hu]. destruct v; try contradiction; reflexivity. Qed.

Lemma get_null (v : JSValue) (key : string) :
  v = JSNull \/ v = JSUndefined -> exists error, get v key = Throws error.
Proof. intros [->| ->]; simpl; eauto. Qed.

Lemma nonNull_dec (v : JSValue) : nonNull v \/ v = JSNull \/ v = JSUndefined.
Proof. destruct v; auto; left; split; discriminate. Qed.

(** On a summary that is there, the individual helper is the percentage
    of the bucket, or 0 without one. *)
Lemma individual_nonNull (v : JSValue) :
  nonNull v ->
  getIndividualUsagePercentage h v =
    if ToBoolean (individualBucket v) then bucketPercentage h (individualBucket v)
    else Ok (of_Z 0).
Proof.
  intros Hv. unfold getIndividualUsagePercentage. rewrite (get_nonNull _ _ Hv).
  fold (individualBucket v). now destruct (ToBoolean (individualBucket v)).
Qed.

Lemma individual_convertible (v : JSValue) :
  nonNull v -> convertible h (individualBucket v) ->
  exists p, getIndividualUsagePercentage h v = Ok p.
Proof.
  intros Hv Hc. rewrite (individual_nonNull v Hv).
  destruct (ToBoolean (individualBucket v)) eqn:Hb; [|eauto].
  destruct Hc as [Hfalse|(u & l & Hfig)]; [congruence|].
  rewrite (bucketPercentage_figures h _ u l Hb Hfig). eauto.
Qed.

Lemma individual_throws (v : JSValue) :
  nonNull v ->
  (exists error, getIndividualUsagePercentage h v = Throws error) <->
  ~ convertible h (individualBucket v).
Proof.
  intros Hv. rewrite (individual_nonNull v Hv).
  destruct (ToBoolean (individualBucket v)) eqn:Hb.
  - now apply bucketPercentage_throws.
  - split; [intros (error & Hthrows); discriminate|].
    intros Hnot. destruct Hnot. now left.
Qed.

Lemma teamBucket_throws (teamUsage : JSValue) (name : string) :
  (exists error, teamBucket h teamUsage name = Throws error) <->
  ~ convertible h (get_opt teamUsage name).
Proof.
  unfold teamBucket.
  destruct (ToBoolean (get_opt teamUsage name)) eqn:Hb.
  - rewrite <- (bucketPercentage_throws h _ Hb).
    destruct (bucketPercentage h (get_opt teamUsage name)) as [p|error].
    + split; intros (error & Hthrows); discriminate.
    + split; eauto.
  - split; [intros (error & Hthrows); discriminate|].
    intros Hnot. destruct Hnot. now left.
Qed.

(** What the team helper returns is made of its two buckets. *)
Lemma team_inv (v : JSValue) (info : TeamUsageInfo) :
  getTeamUsageInfo h v = Ok info ->
  nonNull v /\
  teamBucket h (get_opt v "teamUsage") "onDemand" = Ok (onDemand info) /\
  teamBucket h (get_opt v "teamUsage") "pooled" = Ok (pooled info).
Proof.
  unfold getTeamUsageInfo. intros Hinfo.
  destruct (nonNull_dec v) as [Hv|Hnull].
  - rewrite (get_nonNull _ _ Hv) in Hinfo. split; [exact Hv|].
    destruct (teamBucket h (get_opt v "teamUsage") "onDemand") as [od|];
      [|discriminate].
    destruct (teamBucket h (get_opt v "teamUsage") "pooled") as [po|];
      [|discriminate].
    injection Hinfo as <-. split; reflexivity.
  - destruct (get_null v "teamUsage" Hnull) as (error & Herr).
    rewrite Herr in Hinfo. discriminate.
Qed.

Lemma team_convertible (v : JSValue) :
  nonNull v ->
  convertible h (teamBucketOf v "onDemand") ->
  convertible h (teamBucketOf v "pooled") ->
  exists od po,
    getTeamUsageInfo h v = Ok {| onDemand := od; pooled := po |} /\
    teamBucket h (get_opt v "teamUsage") "onDemand" = Ok od /\
    teamBucket h (get_opt v "teamUsage") "pooled" = Ok po.
Proof.
  intros Hv Hod Hpo.
  destruct (teamBucket_convertible h _ _ Hod) as (od & Hod').
  destruct (teamBucket_convertible h _ _ Hpo) as (po & Hpo').
  exists od, po. split; [|split; assumption].
  apply team_of_buckets; [now apply get_nonNull|assumption|assumption].
Qed.

Lemma team_throws (v : JSValue) :
  nonNull v ->
  (exists error, getTeamUsageInfo h v = Throws error) <->
  ~ convertible h (teamBucketOf v "onDemand") \/
  ~ convertible h (teamBucketOf v "pooled").
Proof.
  intros Hv. unfold teamBucketOf.
  rewrite <- !teamBucket_throws.
  unfold getTeamUsageInfo. rewrite (get_nonNull _ _ Hv).
  destruct (teamBucket h (get_opt v "teamUsage") "onDemand") as [od|e1],
           (teamBucket h (get_opt v "teamUsage") "pooled") as [po|e2].
  - split; [intros (error & Hthrows); discriminate|].
    intros [(error & Hthrows)|(error & Hthrows)]; discriminate.
  - split; eauto.
  - split; eauto.
  - split; eauto.
Qed.

Lemma or_truthyOrZero (v : JSValue) : truthyOrZero (JS.or v (JSNumber (of_Z 0))).
Proof.
  unfold truthyOrZero, JS.or. destruct (ToBoolean v) eqn:Hv; auto.
Qed.

Lemma teamBucket_fields (teamUsage : JSValue) (name : string) (info : BucketInfo) :
  teamBucket h teamUsage name = Ok info ->
  used info = JS.or (get_opt (get_opt teamUsage name) "used") (JSNumber (of_Z 0)) /\
  limit info = JS.or (get_opt (get_opt teamUsage name) "limit") (JSNumber (of_Z 0)) /\
  (ToBoolean (get_opt teamUsage name) = false -> info = emptyBucketInfo).
Proof.
  unfold teamBucket. intros Hinfo.
  destruct (ToBoolean (get_opt teamUsage name)) eqn:Hb.
  - destruct (bucketPercentage h (get_opt teamUsage name)) as [p|error];
      [|discriminate].
    injection Hinfo as <-. cbn [used limit].
    split; [reflexivity|]. split; [reflexivity|discriminate].
  - injection Hinfo as <-. cbn [used limit].
    split; [reflexivity|]. split; [reflexivity|].
    intros _. unfold emptyBucketInfo.
    destruct (get_opt teamUsage name); try discriminate; reflexivity.
Qed.

(** A summary that can be read at [individualUsage] is not [null] or
    [undefined]. *)
Lemma nonNull_parent (v : JSValue) (key : string) :
  nonNull (get_opt v key) -> nonNull v.
Proof.
  intros [Hn Hu]. destruct v; try (split; discriminate);
    exfalso; apply Hu; reflexivity.
Qed.

(** Under the cache invariant, what [getUsageSummary] returns has a
    non-null [individualUsage]. *)
Lemma getUsageSummary_valid (forceRefresh : bool) (w : World) :
  cacheInvariant w ->
  exists summary w',
    getUsageSummary h forceRefresh w = (Ok summary, w') /\
    nonNull (get_opt summary "individualUsage").
Proof.
  intros Hinv.
  assert (Hmock : nonNull (get_opt getMockUsageData "individualUsage"))
    by (split; discriminate).
  destruct (getUsageSummary_cases h forceRefresh w)
    as [(entry & Hcached & _ & Heq)
       |(_ & [(_ & Heq)|(_ & [(parsed & w1 & Hok & Heq)|(_ & error & Heq)])])];
    rewrite Heq.
  - eexists _, _. split; [reflexivity|]. apply (Hinv _ _ Hcached).
  - eexists _, _. split; [reflexivity|exact Hmock].
  - eexists _, _. split; [reflexivity|].
    destruct Hok as (_ & _ & _ & _ & Hvalid). now apply truthy_nonNull.
  - unfold getUsageSummary_catch.
    destruct (cache w !! cacheKey) as [entry|] eqn:Hcached;
      eexists _, _; (split; [reflexivity|]); [apply (Hinv _ _ Hcached)|exact Hmock].
Qed.
End HelpersMore.

(** X13. Provided every cached summary has a non-null [individualUsage]
    (which every operation preserves), what [getUsageSummary] returns has
    one too, so that no property read of a percentage helper fails on it:
    each helper returns as soon as the buckets it reads are absent or have
    a [used] and a [limit] that convert to numbers, which is all that can
    still go wrong. *)
Theorem returned_summary_is_usable (h : Host) (forceRefresh : bool) (w : World) :
  cacheInvariant w ->
  exists summary w',
    getUsageSummary h forceRefresh w = (Ok summary, w') /\
    nonNull (get_opt summary "individualUsage") /\
    (convertible h (individualBucket summary) ->
     exists p, getIndividualUsagePercentage h summary = Ok p) /\
    (convertible h (teamBucketOf summary "onDemand") ->
     convertible h (teamBucketOf summary "pooled") ->
     exists info, getTeamUsageInfo h summary = Ok info) /\
    ((exists error, getIndividualUsagePercentage h summary = Throws error) ->
     ~ convertible h (individualBucket summary)) /\
    ((exists error, getTeamUsageInfo h summary = Throws error) ->
     ~ convertible h (teamBucketOf summary "onDemand") \/
     ~ convertible h (teamBucketOf summary "pooled")).
Proof.
  intros Hinv.
  destruct (getUsageSummary_valid h forceRefresh w Hinv)
    as (summary & w' & Heq & Hvalid).
  pose proof (nonNull_parent _ _ Hvalid) as Hsummary.
  exists summary, w'. split; [exact Heq|]. split; [exact Hvalid|].
  split; [now apply individual_convertible|]. split.
  - intros Hod Hpo.
    destruct (team_convertible h summary Hsummary Hod Hpo) as (od & po & Hinfo & _).
    eauto.
  - split; [now apply individual_throws|now apply team_throws].
Qed.

(** X13, exercised: the cached summary without buckets comes back after a
    refused connection and both helpers return. *)
Lemma returned_summary_is_usable_witness :
  exists summary w',
    getUsageSummary (Demo.host (Some "abc") Demo.refused) true
      (Demo.holding Demo.minimalSummary 0) = (Ok summary, w') /\
    (exists p,
       getIndividualUsagePercentage (Demo.host (Some "abc") Demo.refused) summary
       = Ok p) /\
    (exists info,
       getTeamUsageInfo (Demo.host (Some "abc") Demo.refused) summary = Ok info).
Proof.
  destruct (returned_summary_is_usable (Demo.host (Some "abc") Demo.refused) true
              (Demo.holding Demo.minimalSummary 0))
    as (summary & w' & Heq & _ & Hindividual & Hteam & _).
  - intros key entry.
    destruct (decide (key = cacheKey)) as [->|Hne].
    + intros [= <-]. split; discriminate.
    + unfold Demo.holding; cbn [cache].
      rewrite lookup_singleton_ne by congruence. discriminate.
  - exists summary, w'. split; [exact Heq|].
    injection Heq as <- _.
    split; [apply Hindividual|apply Hteam]; left; reflexivity.
Defined.

(** A summary that passes every check of the service and still makes the
    individual helper throw: its [used] is an object with a [toString]
    key, which cannot be converted. *)
Example cached_summary_can_throw :
  (getUsageSummary (Demo.host (Some "abc") Demo.refused) false
     (Demo.holding Demo.unconvertible 0)).1 = Ok Demo.unconvertible /\
  cacheInvariant (Demo.holding Demo.unconvertible 0) /\
  getIndividualUsagePercentage (Demo.host (Some "abc") Demo.refused)
    Demo.unconvertible
  = Throws (TypeError "Cannot convert object to primitive value").
Proof.
  split; [reflexivity|]. split; [|reflexivity].
  intros key entry.
  destruct (decide (key = cacheKey)) as [->|Hne].
  - intros [= <-]. split; discriminate.
  - unfold Demo.holding; cbn [cache].
    rewrite lookup_singleton_ne by congruence. discriminate.
Qed.

(** X15. The individual helper throws exactly when the summary is [null]
    or [undefined], or the bucket it reads is there with a [used] or a
    [limit] that does not convert to a number; the team helper, exactly
    when the summary is [null] or [undefined], or one of its two buckets is
    of that kind.  A bucket whose [used] and [limit] are not objects or
    arrays (numbers, strings, booleans, [null], or missing) is never of
    that kind. *)
Theorem helpers_throw_exactly_when (h : Host) (usageData : JSValue) :
  ((exists error, getIndividualUsagePercentage h usageData = Throws error) <->
   nullish usageData \/ ~ convertible h (individualBucket usageData)) /\
  ((exists error, getTeamUsageInfo h usageData = Throws error) <->
   nullish usageData \/
   ~ convertible h (teamBucketOf usageData "onDemand") \/
   ~ convertible h (teamBucketOf usageData "pooled")) /\
  (forall bucket : JSValue,
     primitive (get_opt bucket "used") -> primitive (get_opt bucket "limit") ->
     convertible h bucket).
Proof.
  split; [|split].
  - destruct (nonNull_dec usageData) as [Hv|Hnull].
    + rewrite (individual_throws h usageData Hv).
      split; [auto|]. intros [[Hn|Hu]|Hnot]; [| |exact Hnot];
        destruct Hv; contradiction.
    + split; [intros _; left; exact Hnull|intros _].
      unfold getIndividualUsagePercentage.
      destruct (get_null usageData "individualUsage" Hnull) as (error & ->). eauto.
  - destruct (nonNull_dec usageData) as [Hv|Hnull].
    + rewrite (team_throws h usageData Hv).
      split; [auto|]. intros [[Hn|Hu]|Hnot]; [| |exact Hnot];
        destruct Hv; contradiction.
    + split; [intros _; left; exact Hnull|intros _].
      unfold getTeamUsageInfo.
      destruct (get_null usageData "teamUsage" Hnull) as (error & ->). eauto.
  - intros bucket Hused Hlimit. right.
    destruct (toNumber_primitive h _ Hused) as (u & Hu).
    destruct (toNumber_primitive h _ Hlimit) as (l & Hl).
    exists u, l. split; assumption.
Qed.

(** X15, exercised: the placeholder, whose figures are numbers, and
    [null]. *)
Lemma helpers_throw_exactly_when_witness :
  convertible (Demo.host None Demo.refused) (individualBucket getMockUsageData) /\
  exists error,
    getTeamUsageInfo (Demo.host None Demo.refused) JSNull = Throws error.
Proof.
  pose proof (helpers_throw_exactly_when (Demo.host None Demo.refused) JSNull)
    as (_ & Hteam & Hconvertible).
  split.
  - apply Hconvertible; exact I.
  - apply Hteam. left. left. reflexivity.
Defined.

(** X16. In what [getTeamUsageInfo] returns, [used] and [limit] of either
    bucket are the summary's own values when those are truthy and the
    number 0 otherwise, so never [undefined], [null] or NaN; a bucket the
    summary lacks comes back as all zeros. *)
Theorem team_usage_defaults (h : Host) (usageData : JSValue) (info : TeamUsageInfo) :
  getTeamUsageInfo h usageData = Ok info ->
  (ownOrZero (get_opt (teamBucketOf usageData "onDemand") "used")
     (used (onDemand info)) /\
   ownOrZero (get_opt (teamBucketOf usageData "onDemand") "limit")
     (limit (onDemand info)) /\
   ownOrZero (get_opt (teamBucketOf usageData "pooled") "used")
     (used (pooled info)) /\
   ownOrZero (get_opt (teamBucketOf usageData "pooled") "limit")
     (limit (pooled info))) /\
  (truthyOrZero (used (onDemand info)) /\ truthyOrZero (limit (onDemand info)) /\
   truthyOrZero (used (pooled info)) /\ truthyOrZero (limit (pooled info))) /\
  (ToBoolean (teamBucketOf usageData "onDemand") = false ->
   onDemand info = emptyBucketInfo) /\
  (ToBoolean (teamBucketOf usageData "pooled") = false ->
   pooled info = emptyBucketInfo).
Proof.
  intros Hinfo.
  destruct (team_inv h usageData info Hinfo) as (_ & Hod & Hpo).
  assert (Hor : forall own : JSValue,
            ownOrZero own (JS.or own (JSNumber (of_Z 0)))).
  { intros own. unfold ownOrZero, JS.or. split; now intros ->. }
  destruct (teamBucket_fields h _ _ _ Hod) as (Hu1 & Hl1 & He1).
  destruct (teamBucket_fields h _ _ _ Hpo) as (Hu2 & Hl2 & He2).
  unfold teamBucketOf. rewrite Hu1, Hl1, Hu2, Hl2.
  split; [repeat split; apply Hor|].
  split; [repeat split; apply or_truthyOrZero|].
  split; assumption.
Qed.

(** X16, exercised: the summary whose on-demand bucket is
    [used = 794, limit = 0] and which has no pooled bucket. *)
Lemma team_usage_defaults_witness :
  exists info,
    getTeamUsageInfo (Demo.host None Demo.refused) Demo.zeroLimit = Ok info /\
    used (onDemand info) = JSNumber (of_Z 794) /\
    limit (onDemand info) = JSNumber (of_Z 0) /\
    pooled info = emptyBucketInfo.
Proof.
  eexists. split; [reflexivity|].
  pose proof (team_usage_defaults (Demo.host None Demo.refused) Demo.zeroLimit
                _ eq_refl) as ((Hused & Hlimit & _) & _ & _ & Hpooled).
  split; [|split].
  - apply (proj1 Hused). reflexivity.
  - apply (proj2 Hlimit). reflexivity.
  - apply Hpooled. reflexivity.
Defined.

(** X17. A bucket whose [used] is zero and whose [limit] is any number
    other than zero and NaN is at 0 percent (a zero of either sign). *)
Theorem zero_usage_is_zero_percent (h : Host) (usageData : JSValue)
    (s : bool) (limitValue : number) :
  get (individualBucket usageData) "used" = Ok (JSNumber (S754_zero s)) ->
  get (individualBucket usageData) "limit" = Ok (JSNumber limitValue) ->
  isNonZero limitValue ->
  exists s', getIndividualUsagePercentage h usageData = Ok (S754_zero s').
Proof.
  intros Hused Hlimit Hnz.
  destruct (get_defined_inv _ _ _ Hused) as (properties & Hbucket);
    [discriminate|].
  assert (Hb : ToBoolean (individualBucket usageData) = true)
    by (rewrite Hbucket; reflexivity).
  unfold getIndividualUsagePercentage.
  rewrite (get_parent _ _ _ _ Hbucket).
  fold (individualBucket usageData). rewrite Hb. cbn [negb].
  rewrite (bucketPercentage_figures h _ (S754_zero s) limitValue Hb)
    by (unfold figuresOf, get_opt; rewrite Hused, Hlimit; split; reflexivity).
  change (of_Z 100) with (S754_finite false 7036874417766400 (-46)).
  destruct limitValue; try contradiction; simpl; eauto.
Qed.

(** X17, exercised: the placeholder's on-demand figures in the individual
    bucket. *)
Lemma zero_usage_is_zero_percent_witness :
  exists s',
    getIndividualUsagePercentage (Demo.host None Demo.refused)
      (JSObject [("individualUsage", JSObject [("overall", JSObject [
         ("used", JSNumber (of_Z 0)); ("limit", JSNumber (of_Z 15000000))])])])
    = Ok (S754_zero s').
Proof.
  refine (zero_usage_is_zero_percent (Demo.host None Demo.refused)
            (JSObject [("individualUsage", JSObject [("overall", JSObject [
               ("used", JSNumber (of_Z 0)); ("limit", JSNumber (of_Z 15000000))])])])
            false (of_Z 15000000) eq_refl eq_refl _).
  vm_compute. exact I.
Defined.

(** ** The diagnostic script beside the service *)

Section ScriptAgreement.
Context (h : Host) (script : TestApi.Script).
Hypothesis Hsteady : steadyNetwork h.
Hypothesis Hnonempty : TestApi.token script <> "".
Hypothesis Hconfigured :
  forall e : nat, apiToken (getConfiguration h e) = Some (TestApi.token script).
Hypothesis Hproxy : scriptProxyWorks h script.

Lemma firstOptions_headers (urlObj : URL) (w : World) :
  opt_headers (firstOptions h urlObj w) = TestApi.headers script.
Proof.
  pose proof (truthy_Some _ Hnonempty) as Ht.
  unfold firstOptions, UsageService.requestOptions; cbn [opt_headers].
  unfold getRequestOptions. rewrite Hconfigured, Ht.
  repeat case_match; reflexivity.
Qed.

Lemma script_sameTarget (urlObj : URL) (agent : option Agent) (w : World) :
  sameTarget (TestApi.requestOptions script urlObj agent) (firstOptions h urlObj w).
Proof.
  unfold sameTarget. rewrite firstOptions_headers. repeat split.
Qed.

Lemma script_isRedirect (res : IncomingMessage) :
  TestApi.isRedirect res = UsageService.isRedirect res.
Proof.
  unfold TestApi.isRedirect, UsageService.isRedirect.
  destruct (statusCode res) as [code|]; [|reflexivity].
  destruct (Z.eqb_spec code 0) as [->|Hne]; [reflexivity|].
  cbn [negb]. now rewrite andb_true_l.
Qed.

(** The agent the script settles on. *)
Lemma script_agent :
  exists agent,
    match TestApi.proxyUrl script with
    | Some proxy =>
        if truthy (TestApi.proxyUrl script) && TestApi.proxyAgentLoaded script then
          match HttpsProxyAgent_new h proxy with
          | None => Ok (Some (HttpsProxyAgent proxy))
          | Some error => Throws error
          end
        else Ok None
    | None => Ok None
    end = Ok agent.
Proof.
  destruct (TestApi.proxyUrl script) as [proxy|] eqn:Hp; [|eauto].
  destruct (truthy (Some proxy) && TestApi.proxyAgentLoaded script) eqn:Hbuilt;
    [|eauto].
  apply andb_true_iff in Hbuilt as [Hset Hloaded].
  rewrite (Hproxy proxy Hp); [eauto| |exact Hloaded].
  intros ->. discriminate.
Qed.

(** One hop of the service and one hop of the script, side by side. *)
Lemma makeHttpsRequest_unfold (url : string) (n : nat) (w : World) (urlObj : URL) :
  URL_new h url = Some urlObj ->
  makeHttpsRequest h url n w =
    let w2 := afterFirst h urlObj w in
    match https_request h (epoch w) (firstOptions h urlObj w) with
    | RequestError error => (Throws error, w2)
    | RequestTimeout =>
        (Throws (Error "Request timeout - connection took too long"), w2)
    | Response res =>
        if UsageService.isRedirect res then
          match location res with
          | Some loc =>
              if negb (truthy (Some loc)) then
                (Throws (Error "Redirect without location header"), w2)
              else
                match n with
                | O => (Throws (Error "Too many redirects - authentication likely failed"), w2)
                | S m => makeHttpsRequest h (redirectUrl loc) m w2
                end
          | None => (Throws (Error "Redirect without location header"), w2)
          end
        else if isNot200 res then (Throws (Error (httpStatusMessage res)), w2)
        else
          match streamError res with
          | Some error => (Throws error, w2)
          | None => (Ok (collect (chunks res)), w2)
          end
    end.
Proof.
  intros Hurl.
  destruct (https_request h (epoch w) (firstOptions h urlObj w))
    as [error| |res] eqn:Hres.
  3: now rewrite (makeHttpsRequest_response h _ _ _ _ _ Hurl Hres).
  all: pose proof (getRequestOptions_frame h w) as (_ & He & _);
    unfold afterFirst, firstOptions in *;
    destruct n; simpl;
    destruct (getRequestOptions h w) as [[agent headers] w1]; simpl in *;
    rewrite Hurl; simpl; rewrite He, Hres; reflexivity.
Qed.

Lemma makeRequest_unfold (url : string) (n : nat) (w : World) (urlObj : URL)
    (agent : option Agent) :
  URL_new h url = Some urlObj ->
  match TestApi.proxyUrl script with
  | Some proxy =>
      if truthy (TestApi.proxyUrl script) && TestApi.proxyAgentLoaded script then
        match HttpsProxyAgent_new h proxy with
        | None => Ok (Some (HttpsProxyAgent proxy))
        | Some error => Throws error
        end
      else Ok None
  | None => Ok None
  end = Ok agent ->
  TestApi.makeRequest h script url n w =
    let options := TestApi.requestOptions script urlObj agent in
    let w2 := tick (emit (Request options) w) in
    match https_request h (epoch w) options with
    | RequestError error => (TestApi.Settled (Throws error), w2)
    | RequestTimeout => (TestApi.Settled (Throws (Error "Request timed out")), w2)
    | Response res =>
        if TestApi.isRedirect res then
          match location res with
          | Some loc =>
              if negb (truthy (Some loc)) then
                (TestApi.Settled (Throws (Error "Redirect without location header")), w2)
              else
                match n with
                | O => (TestApi.Settled (Throws (Error
                          "Too many redirects - authentication likely failed")), w2)
                | S m => TestApi.makeRequest h script (redirectUrl loc) m w2
                end
          | None =>
              (TestApi.Settled (Throws (Error "Redirect without location header")), w2)
          end
        else if isNot200 res then
          (TestApi.Settled (Throws (Error (httpStatusMessage res))), w2)
        else
          match streamError res with
          | Some error => (TestApi.Uncaught error, w2)
          | None => (TestApi.Settled (Ok (collect (chunks res))), w2)
          end
    end.
Proof.
  intros Hurl Hagent.
  destruct n; simpl; rewrite Hurl, Hagent; cbn [epoch emit];
    destruct (https_request h (epoch w) (TestApi.requestOptions script urlObj agent))
      as [error| |res]; try reflexivity;
    destruct (TestApi.isRedirect res); try reflexivity;
    destruct (location res); reflexivity.
Qed.

Lemma script_agrees (n : nat) :
  forall (url : string) (w w' : World),
    epoch w = epoch w' ->
    (TestApi.makeRequest h script url n w).1 =
      TestApi.Settled (makeHttpsRequest h url n w').1.
Proof.
  destruct Hsteady as (Hsame & Hnotimeout & Hwhole).
  destruct script_agent as (agent & Hagent).
  induction n as [|n IH]; intros url w w' He.
  all: destruct (URL_new h url) as [urlObj|] eqn:Hurl;
    [| rewrite (makeHttpsRequest_bad_url h _ _ _ Hurl); simpl; now rewrite Hurl ].
  all: rewrite (makeHttpsRequest_unfold _ _ _ _ Hurl),
               (makeRequest_unfold _ _ _ _ _ Hurl Hagent); cbv zeta.
  all: rewrite (Hsame (epoch w) _ _ (script_sameTarget urlObj agent w')), He.
  all: destruct (https_request h (epoch w') (firstOptions h urlObj w'))
         as [error| |res] eqn:Hres;
       [reflexivity | destruct (Hnotimeout _ _ Hres) |].
  all: rewrite script_isRedirect, (Hwhole _ _ _ Hres).
  all: destruct (UsageService.isRedirect res);
         [|destruct (isNot200 res); reflexivity].
  all: destruct (location res) as [loc|]; [|reflexivity].
  all: destruct (negb (truthy (Some loc))); [reflexivity|].
  - reflexivity.
  - apply IH. cbn [tick emit epoch]. rewrite afterFirst_epoch. now f_equal.
Qed.
End ScriptAgreement.

(** X18. On a network that answers alike whatever the agent and the
    timeout, times nothing out and breaks no stream, and provided the
    proxy agent of the script can be built whenever the script builds one
    (the script has no [try] around the constructor, the service has), the
    diagnostic script's [makeRequest] settles exactly as the service's
    [makeHttpsRequest] does for the same token: the same body, or the same
    error after the same redirects. *)
Theorem script_agrees_with_service (h : Host) (script : TestApi.Script)
    (url : string) (n : nat) (w w' : World) :
  steadyNetwork h ->
  TestApi.token script <> "" ->
  (forall e : nat, apiToken (getConfiguration h e) = Some (TestApi.token script)) ->
  scriptProxyWorks h script ->
  epoch w = epoch w' ->
  (TestApi.makeRequest h script url n w).1 =
    TestApi.Settled (makeHttpsRequest h url n w').1.
Proof.
  intros Hsteady Htoken Hconfigured Hproxy He.
  now apply script_agrees.
Qed.

(** X18, exercised: the three redirects and the summary. *)
Lemma script_agrees_with_service_witness :
  (TestApi.makeRequest (Demo.host (Some "abc") Demo.threeHops)
     {| TestApi.token := "abc"; TestApi.proxyUrl := None;
        TestApi.proxyAgentLoaded := false |}
     endpoint 5 Demo.start).1
  = TestApi.Settled (Ok Demo.minimalBody).
Proof.
  rewrite (script_agrees_with_service (Demo.host (Some "abc") Demo.threeHops)
             {| TestApi.token := "abc"; TestApi.proxyUrl := None;
                TestApi.proxyAgentLoaded := false |}
             endpoint 5 Demo.start Demo.start).
  - reflexivity.
  - split; [|split].
    + intros e o o' _. reflexivity.
    + intros e o. cbn. unfold Demo.threeHops.
      destruct (e <? 3)%nat; discriminate.
    + intros e o res. cbn. unfold Demo.threeHops.
      destruct (e <? 3)%nat; intros [= <-]; reflexivity.
  - discriminate.
  - reflexivity.
  - intros proxy Hp. discriminate.
  - reflexivity.
Defined.

(** Where the two part: the script has its own time-out text, and a
    response stream that fails is nobody's to catch there. *)
Example script_parts_from_service :
  (TestApi.makeRequest (Demo.host (Some "abc") (fun _ => RequestTimeout))
     {| TestApi.token := "abc"; TestApi.proxyUrl := None;
        TestApi.proxyAgentLoaded := false |}
     endpoint 5 Demo.start).1
  = TestApi.Settled (Throws (Error "Request timed out")) /\
  (makeHttpsRequest (Demo.host (Some "abc") (fun _ => RequestTimeout))
     endpoint 5 Demo.start).1
  = Throws (Error "Request timeout - connection took too long") /\
  (TestApi.makeRequest
     (Demo.host (Some "abc")
        (fun _ => Response {| statusCode := Some 200; statusMessage := Some "OK";
                              location := None; chunks := ["{"];
                              streamError := Some (Error "aborted") |}))
     {| TestApi.token := "abc"; TestApi.proxyUrl := None;
        TestApi.proxyAgentLoaded := false |}
     endpoint 5 Demo.start).1
  = TestApi.Uncaught (Error "aborted").
Proof. repeat split. Qed.

(** And a proxy agent that cannot be built: the script gives up before
    any request, the service shows the failure and goes on without an
    agent. *)
Example script_stops_at_proxy :
  TestApi.makeRequest
    (Scenario.host (Some "abc") (Some "proxy:8080") Scenario.noProxy
       (fun _ => Demo.respond 200 "OK" None ["null"]))
    {| TestApi.token := "abc"; TestApi.proxyUrl := Some "proxy:8080";
       TestApi.proxyAgentLoaded := true |}
    endpoint 5 Demo.start
  = (TestApi.Settled (Throws (TypeError "Invalid URL")), Demo.start) /\
  (makeHttpsRequest
     (Scenario.host (Some "abc") (Some "proxy:8080") Scenario.noProxy
        (fun _ => Demo.respond 200 "OK" None ["null"]))
     endpoint 5 Demo.start).1
  = Ok "null".
Proof. split; reflexivity. Qed.

(** ** The token prompt *)

Section Prompt.






Lemma dropPrefix_length (p s r : string) :
  dropPrefix p s = Some r ->
  String.length s = (String.length p + String.length r)%nat.
Proof.
  revert s. induction p as [|a p IH]; intros s Hdrop.
  - simpl in Hdrop. injection Hdrop as <-. reflexivity.
  - destruct s as [|b s]; [discriminate|]. simpl in Hdrop.
    destruct (Ascii.eqb a b); [|discriminate].
    simpl. f_equal. now apply IH.
Qed.

Lemma dropAny_length (patterns : list string) (s r : string) :
  forallb (fun p => negb (String.eqb p "")) patterns = true ->
  dropAny patterns s = Some r ->
  (String.length r < String.length s)%nat.
Proof.
  induction patterns as [|p patterns IH]; [discriminate|].
  cbn [forallb dropAny]. intros [Hp Hrest]%andb_true_iff.
  destruct (dropPrefix p s) as [r'|] eqn:Hdrop.
  - intros [= ->]. apply dropPrefix_length in Hdrop.
    destruct p; [discriminate|]. simpl in Hdrop. lia.
  - now apply IH.
Qed.

(** The rounds allowed are enough: what [strip] leaves begins with none of
    the patterns. *)
Lemma strip_done (patterns : list string) (fuel : nat) (s : string) :
  forallb (fun p => negb (String.eqb p "")) patterns = true ->
  (String.length s <= fuel)%nat ->
  dropAny patterns (strip patterns fuel s) = None.
Proof.
  intros Hpatterns. revert s.
  induction fuel as [|fuel IH]; intros s Hlen; simpl.
  - destruct (dropAny patterns s) as [r|] eqn:Hdrop; [|reflexivity].
    apply (dropAny_length _ _ _ Hpatterns) in Hdrop. lia.
  - destruct (dropAny patterns s) as [r|] eqn:Hdrop; [|exact Hdrop].
    apply IH. apply (dropAny_length _ _ _ Hpatterns) in Hdrop. lia.
Qed.

(** What [trimStart] returns begins with no white space, and what [trim]
    returns ends with none. *)
Lemma trimStart_done (s : string) : dropAny whiteSpace (trimStart s) = None.
Proof. apply strip_done; [reflexivity|lia]. Qed.

Lemma rev_length (s : string) : String.length (String.rev s) = String.length s.
Proof.
  assert (Hlen : forall t acc, String.length (String.rev_app t acc)
                               = (String.length t + String.length acc)%nat).
  { induction t as [|d t IHt]; intros acc; simpl; [reflexivity|].
    rewrite IHt. simpl. lia. }
  unfold String.rev. rewrite Hlen. simpl. lia.
Qed.

Lemma rev_rev (s : string) : String.rev (String.rev s) = s.
Proof.
  assert (Happ : forall t acc,
            String.rev (String.rev_app t acc) = String.rev_app acc t).
  { induction t as [|d t IHt]; intros acc; [reflexivity|].
    cbn [String.rev_app]. now rewrite IHt. }
  unfold String.rev at 2. now rewrite Happ.
Qed.

Lemma trim_done (s : string) :
  dropAny (List.map String.rev whiteSpace) (String.rev (trim s)) = None.
Proof.
  unfold trim, trimEnd. rewrite rev_rev.
  apply strip_done; [reflexivity|]. now rewrite rev_length.
Qed.



End Prompt.

Section PromptMore.





End PromptMore.



(** What the prompt turns away. *)
Example prompt_complaints :
  Extension.validateInput "" = Some "Token cannot be empty" /\
  Extension.validateInput "   " = Some "Token cannot be empty" /\
  Extension.validateInput "user_01::short"
    = Some "Token seems too short. Make sure you copied the entire value." /\
  Extension.validateInput
    "0123456789012345678901234567890123456789012345678901234567890123"
    = Some "Token format looks incorrect. Should contain user_ID::JWT_TOKEN".
Proof. repeat split. Qed.

(** ** The status bar *)

Section StatusBarFacts.
Context (h : Host) (d : StatusBar.Display).

Lemma toLocaleString_nullish (v : JSValue) :
  nullish v -> exists error, StatusBar.toLocaleString d v = Throws error.
Proof. intros [->| ->]; simpl; eauto. Qed.

Lemma individual_of_bucket (v : JSValue) :
  ToBoolean (individualBucket v) = true ->
  nonNull v /\
  getIndividualUsagePercentage h v = bucketPercentage h (individualBucket v).
Proof.
  intros Hb.
  assert (Hv : nonNull v).
  { destruct v; try (split; discriminate); discriminate. }
  split; [exact Hv|].
  now rewrite (individual_nonNull h v Hv), Hb.
Qed.

Lemma figures_throws (used limit : JSValue) (p : number) :
  nullish used \/ nullish limit ->
  exists error, StatusBar.figures h d used limit p = Throws error.
Proof.
  intros Hnull. unfold StatusBar.figures.
  destruct (StatusBar.toLocaleString d used) as [u|error] eqn:Hu; [|eauto].
  destruct Hnull as [Hn|Hn].
  - destruct (toLocaleString_nullish _ Hn) as (error & He). congruence.
  - destruct (toLocaleString_nullish _ Hn) as (error & ->). eauto.
Qed.

(** The display throws on a bucket that lacks a figure it prints. *)
Lemma display_throws (v : JSValue) (e : nat) (item : StatusBar.StatusBarItem) :
  ToBoolean (individualBucket v) = true ->
  (StatusBar.compactMode d e = false /\
   nullish (get_opt (individualBucket v) "remaining")) \/
  nullish (get_opt (individualBucket v) "used") \/
  nullish (get_opt (individualBucket v) "limit") ->
  exists error item',
    StatusBar.updateStatusBarDisplay h d v e item = (Throws error, item').
Proof.
  intros Hb Hmissing.
  destruct (individual_of_bucket v Hb) as (Hv & _).
  unfold StatusBar.updateStatusBarDisplay.
  rewrite (get_nonNull _ _ Hv). fold (individualBucket v).
  rewrite Hb. cbn [negb].
  destruct (getIndividualUsagePercentage h v) as [p|error]; [|eauto].
  destruct (if StatusBar.ge p (of_Z 80) then ("$(error)", StatusBar.errorBackground)
            else if StatusBar.ge p (of_Z 60) then ("$(warning)", None)
            else ("$(check)", None)) as [icon background].
  destruct (StatusBar.compactMode d e) eqn:Hcompact.
  - destruct Hmissing as [[Hc _]|Hfig]; [discriminate|].
    destruct (figures_throws _ _ p Hfig) as (error & ->). eauto.
  - destruct (StatusBar.toLocaleString d (get_opt (individualBucket v) "remaining"))
      as [r|error] eqn:Hr; [|eauto].
    destruct Hmissing as [[_ Hn]|Hfig].
    + destruct (toLocaleString_nullish _ Hn) as (error & He). congruence.
    + destruct (figures_throws _ _ p Hfig) as (error & ->). eauto.
Qed.
End StatusBarFacts.

(** X20. The status bar can show its error state for a summary that was
    fetched without error: when the summary has an [overall] bucket that
    lacks [used] or [limit], or, outside compact mode, [remaining], the
    update ends in the error state, whatever [getUsageSummary] returned
    it from. *)
Theorem status_bar_error_despite_data (h : Host) (d : StatusBar.Display)
    (w w' : World) (item : StatusBar.StatusBarItem) (summary : JSValue) :
  getUsageSummary h false w = (Ok summary, w') ->
  ToBoolean (individualBucket summary) = true ->
  (StatusBar.compactMode d (epoch w') = false /\
   nullish (get_opt (individualBucket summary) "remaining")) \/
  nullish (get_opt (individualBucket summary) "used") \/
  nullish (get_opt (individualBucket summary) "limit") ->
  StatusBar.updateStatusBar h d (w, item) =
    (w',
     {| StatusBar.text :=
          if StatusBar.compactMode d (epoch w') then "$(error) Error"
          else "$(error) Usage: Error";
        StatusBar.tooltip := "Error fetching usage data. Click to retry.";
        StatusBar.backgroundColor := Some "statusBarItem.errorBackground" |}).
Proof.
  intros Hsummary Hb Hmissing.
  unfold StatusBar.updateStatusBar. rewrite Hsummary.
  destruct (display_throws h d summary (epoch w') item Hb Hmissing)
    as (error & item' & ->).
  reflexivity.
Qed.

(** X20, exercised: a cached summary with [used] and [limit] and no
    [remaining], outside compact mode. *)
Lemma status_bar_error_despite_data_witness :
  StatusBar.updateStatusBar (Demo.host (Some "abc") Demo.refused) (demoDisplay false)
    (Demo.holding (sampleSummary 1 2 []) 999000,
     {| StatusBar.text := ""; StatusBar.tooltip := "";
        StatusBar.backgroundColor := None |})
  = (Demo.holding (sampleSummary 1 2 []) 999000,
     {| StatusBar.text := "$(error) Usage: Error";
        StatusBar.tooltip := "Error fetching usage data. Click to retry.";
        StatusBar.backgroundColor := Some "statusBarItem.errorBackground" |}).
Proof.
  apply (status_bar_error_despite_data (Demo.host (Some "abc") Demo.refused)
           (demoDisplay false)
           (Demo.holding (sampleSummary 1 2 []) 999000)
           (Demo.holding (sampleSummary 1 2 []) 999000)
           _ (sampleSummary 1 2 [])).
  - reflexivity.
  - reflexivity.
  - left. split; [reflexivity|]. right. reflexivity.
Defined.

Section StatusBarNumbers.
Context (h : Host) (d : StatusBar.Display).

Lemma figures_numbers (used limit : JSValue) (p : number) :
  isNumber used -> isNumber limit ->
  exists f, StatusBar.figures h d used limit p = Ok f.
Proof. intros (u & ->) (l & ->). unfold StatusBar.figures. simpl. eauto. Qed.

Lemma positive_number (n : number) :
  StatusBar.positive h (JSNumber n) = Ok (StatusBar.gt n (of_Z 0)).
Proof. reflexivity. Qed.

Lemma teamLine_numbers (label : string) (bucket : BucketInfo) (t : string) :
  isNumber (used bucket) -> isNumber (limit bucket) ->
  exists t', StatusBar.teamLine h d label bucket t = Ok t'.
Proof.
  destruct bucket as [p u l]. cbn [used limit]. intros (n & ->) Hl.
  unfold StatusBar.teamLine. cbn [used limit percentage].
  rewrite positive_number.
  destruct (StatusBar.gt n (of_Z 0)); [|eauto].
  destruct (figures_numbers (JSNumber n) l p) as (f & ->);
    [now exists n|exact Hl|]. eauto.
Qed.

Lemma numeric_convertible (bucket : JSValue) :
  numericOrAbsent bucket -> convertible h bucket.
Proof.
  intros [Habsent|(u & l & Hu & Hl)]; [now left|right].
  exists u, l. unfold figuresOf. now rewrite Hu, Hl.
Qed.

Lemma teamBucket_numbers (teamUsage : JSValue) (name : string) (info : BucketInfo) :
  numericOrAbsent (get_opt teamUsage name) ->
  teamBucket h teamUsage name = Ok info ->
  isNumber (used info) /\ isNumber (limit info).
Proof.
  intros Hnum Hinfo.
  destruct Hnum as [Habsent|(u & l & Hu & Hl)].
  - destruct (teamBucket_fields h _ _ _ Hinfo) as (_ & _ & Hempty).
    rewrite (Hempty Habsent). split; eexists; reflexivity.
  - unfold teamBucket in Hinfo.
    destruct (if ToBoolean (get_opt teamUsage name)
              then bucketPercentage h (get_opt teamUsage name)
              else Ok (of_Z 0)) as [p|error]; [|discriminate].
    injection Hinfo as <-. cbn [used limit]. rewrite Hu, Hl.
    unfold JS.or. split.
    + destruct (ToBoolean (JSNumber u)); eexists; reflexivity.
    + destruct (ToBoolean (JSNumber l)); eexists; reflexivity.
Qed.

(** The display of a summary whose figures are numbers: it returns, with
    the icon and the background of the percentage. *)
Lemma display_numbers (v : JSValue) (e : nat) (item : StatusBar.StatusBarItem)
    (u l r : number) :
  get_opt (individualBucket v) "used" = JSNumber u ->
  get_opt (individualBucket v) "limit" = JSNumber l ->
  get_opt (individualBucket v) "remaining" = JSNumber r ->
  numericOrAbsent (teamBucketOf v "onDemand") ->
  numericOrAbsent (teamBucketOf v "pooled") ->
  getIndividualUsagePercentage h v =
    Ok (Math_round (mul (div u l) (of_Z 100))) /\
  exists tip,
    StatusBar.updateStatusBarDisplay h d v e item =
      (Ok tt,
       {| StatusBar.text :=
            let p := Math_round (mul (div u l) (of_Z 100)) in
            if StatusBar.compactMode d e then
              iconFor p +:+ " " +:+ NumberToString h p +:+ "%"
            else
              iconFor p +:+ " Usage: " +:+ NumberToString h p +:+ "% ("
              +:+ StatusBar.NumberToLocaleString d r +:+ " remaining)";
          StatusBar.tooltip :=
            tip +:+ StatusBar.newline +:+ StatusBar.newline
            +:+ "Click for detailed view";
          StatusBar.backgroundColor :=
            if StatusBar.ge (Math_round (mul (div u l) (of_Z 100))) (of_Z 80)
            then StatusBar.errorBackground else None |}).
Proof.
  intros Hu Hl Hr Hod Hpo.
  assert (Hobj : exists properties, individualBucket v = JSObject properties).
  { destruct (individualBucket v); try discriminate; eauto. }
  destruct Hobj as (properties & Hprops).
  assert (Hb : ToBoolean (individualBucket v) = true) by now rewrite Hprops.
  destruct (individual_of_bucket h v Hb) as (Hv & Hp).
  rewrite (bucketPercentage_figures h _ u l Hb) in Hp
    by (unfold figuresOf; rewrite Hu, Hl; split; reflexivity).
  split; [exact Hp|].
  destruct (team_convertible h v Hv (numeric_convertible _ Hod)
              (numeric_convertible _ Hpo)) as (od & po & Hteam & Hbod & Hbpo).
  destruct (teamBucket_numbers _ _ _ Hod Hbod) as (Hodu & Hodl).
  destruct (teamBucket_numbers _ _ _ Hpo Hbpo) as (Hpou & Hpol).
  unfold StatusBar.updateStatusBarDisplay.
  rewrite (get_nonNull _ _ Hv). fold (individualBucket v).
  rewrite Hb, Hp, Hu, Hl, Hr, Hteam. cbn [negb onDemand pooled].
  unfold iconFor. cbv zeta.
  set (p := Math_round (mul (div u l) (of_Z 100))).
  assert (Hteamtip : forall t0 : string, exists t,
    match
      match StatusBar.positive h (used od) with
      | Throws error => Throws error
      | Ok true => Ok true
      | Ok false => StatusBar.positive h (used po)
      end
    with
    | Throws error => Throws error
    | Ok true =>
        match StatusBar.teamLine h d "On-Demand" od
                (t0 +:+ StatusBar.newline +:+ StatusBar.newline +:+ "Team Usage:") with
        | Throws error => Throws error
        | Ok t => StatusBar.teamLine h d "Pooled" po t
        end
    | Ok false => Ok t0
    end = Ok t).
  { intros t0.
    assert (Hboth : forall t1 : string, exists t,
      match StatusBar.teamLine h d "On-Demand" od t1 with
      | Throws error => Throws error
      | Ok t => StatusBar.teamLine h d "Pooled" po t
      end = Ok t).
    { intros t1.
      destruct (teamLine_numbers "On-Demand" od t1 Hodu Hodl) as (t2 & ->).
      apply (teamLine_numbers "Pooled" po t2 Hpou Hpol). }
    destruct Hodu as (n1 & ->), Hpou as (n2 & ->).
    rewrite !positive_number.
    destruct (StatusBar.gt n1 (of_Z 0)); [apply Hboth|].
    destruct (StatusBar.gt n2 (of_Z 0)); [apply Hboth|eauto]. }
  cbn [StatusBar.figures StatusBar.toLocaleString].
  destruct (Hteamtip ("Individual Usage: "
              +:+ (StatusBar.NumberToLocaleString d u +:+ " / "
                   +:+ StatusBar.NumberToLocaleString d l +:+ " ("
                   +:+ NumberToString h p +:+ "%)"))) as (tip & Htip).
  exists tip.
  destruct (StatusBar.ge p (of_Z 80)), (StatusBar.ge p (of_Z 60)),
           (StatusBar.compactMode d e); cbn [StatusBar.text StatusBar.tooltip
             StatusBar.backgroundColor]; rewrite Htip; reflexivity.
Qed.
End StatusBarNumbers.

(** X21. For a summary whose individual figures are numbers, and whose
    team buckets are absent or have numbers for [used] and [limit], the
    update never ends in the error state: the text carries the error icon
    from 80 percent, the warning icon from 60 and the check icon below (or
    for NaN), the background is the error colour exactly from 80 percent,
    and the tooltip ends with the invitation to click. *)
Theorem status_bar_shows_numbers (h : Host) (d : StatusBar.Display)
    (w w' : World) (item : StatusBar.StatusBarItem) (summary : JSValue)
    (u l r : number) :
  getUsageSummary h false w = (Ok summary, w') ->
  get_opt (individualBucket summary) "used" = JSNumber u ->
  get_opt (individualBucket summary) "limit" = JSNumber l ->
  get_opt (individualBucket summary) "remaining" = JSNumber r ->
  numericOrAbsent (teamBucketOf summary "onDemand") ->
  numericOrAbsent (teamBucketOf summary "pooled") ->
  exists tip,
    StatusBar.updateStatusBar h d (w, item) =
      (w',
       {| StatusBar.text :=
            let p := Math_round (mul (div u l) (of_Z 100)) in
            if StatusBar.compactMode d (epoch w') then
              iconFor p +:+ " " +:+ NumberToString h p +:+ "%"
            else
              iconFor p +:+ " Usage: " +:+ NumberToString h p +:+ "% ("
              +:+ StatusBar.NumberToLocaleString d r +:+ " remaining)";
          StatusBar.tooltip :=
            tip +:+ StatusBar.newline +:+ StatusBar.newline
            +:+ "Click for detailed view";
          StatusBar.backgroundColor :=
            if StatusBar.ge (Math_round (mul (div u l) (of_Z 100))) (of_Z 80)
            then Some "statusBarItem.errorBackground" else None |}).
Proof.
  intros Hsummary Hu Hl Hr Hod Hpo.
  destruct (display_numbers h d summary (epoch w') item u l r Hu Hl Hr Hod Hpo)
    as (_ & tip & Hdisplay).
  exists tip. unfold StatusBar.updateStatusBar. now rewrite Hsummary, Hdisplay.
Qed.

(** X21, exercised: the placeholder, shown for want of a token, in compact
    mode. *)
Lemma status_bar_shows_numbers_witness :
  exists tip,
    StatusBar.updateStatusBar (printing (Demo.host None Demo.refused))
      (demoDisplay true)
      (Demo.start,
       {| StatusBar.text := ""; StatusBar.tooltip := "";
          StatusBar.backgroundColor := None |})
    = ((getUsageSummary (printing (Demo.host None Demo.refused)) false
          Demo.start).2,
       {| StatusBar.text := "$(check) 16%";
          StatusBar.tooltip :=
            tip +:+ StatusBar.newline +:+ StatusBar.newline
            +:+ "Click for detailed view";
          StatusBar.backgroundColor := None |}).
Proof.
  apply (status_bar_shows_numbers (printing (Demo.host None Demo.refused))
           (demoDisplay true) Demo.start
           (getUsageSummary (printing (Demo.host None Demo.refused)) false
              Demo.start).2
           _ getMockUsageData (of_Z 794) (of_Z 5000) (of_Z 4206)).
  - reflexivity.
  - reflexivity.
  - reflexivity.
  - reflexivity.
  - right. eexists _, _. split; reflexivity.
  - right. eexists _, _. split; reflexivity.
Defined.

(** The whole of that display outside compact mode: the text, and the
    tooltip with the pooled team line (the on-demand bucket is unused). *)
Example placeholder_on_status_bar :
  (StatusBar.updateStatusBar (printing (Demo.host None Demo.refused))
     (demoDisplay false)
     (Demo.start,
      {| StatusBar.text := ""; StatusBar.tooltip := "";
         StatusBar.backgroundColor := None |})).2
  = {| StatusBar.text := "$(check) Usage: 16% (4206 remaining)";
       StatusBar.tooltip :=
         "Individual Usage: 794 / 5000 (16%)"
         +:+ StatusBar.newline +:+ StatusBar.newline +:+ "Team Usage:"
         +:+ StatusBar.newline +:+ "• Pooled: 6175916 / 180000000 (3%)"
         +:+ StatusBar.newline +:+ StatusBar.newline +:+ "Click for detailed view";
       StatusBar.backgroundColor := None |}.
Proof. vm_compute. reflexivity. Qed.

(** X22. What the missing guard for a zero limit looks like: in compact
    mode a bucket with [limit = 0] shows, for [used = 0], the check icon
    before the text of NaN with no background, and, for a positive [used]
    and the positive zero, the error icon before the text of Infinity on
    the error background. *)
Theorem zero_limit_on_status_bar (h : Host) (d : StatusBar.Display)
    (summary : JSValue) (e : nat) (item : StatusBar.StatusBarItem)
    (u r : number) (s : bool) :
  get_opt (individualBucket summary) "used" = JSNumber u ->
  get_opt (individualBucket summary) "limit" = JSNumber (S754_zero s) ->
  get_opt (individualBucket summary) "remaining" = JSNumber r ->
  numericOrAbsent (teamBucketOf summary "onDemand") ->
  numericOrAbsent (teamBucketOf summary "pooled") ->
  StatusBar.compactMode d e = true ->
  ((exists su, u = S754_zero su) ->
   exists tip,
     StatusBar.updateStatusBarDisplay h d summary e item =
       (Ok tt,
        {| StatusBar.text := "$(check) " +:+ NumberToString h NaN +:+ "%";
           StatusBar.tooltip := tip;
           StatusBar.backgroundColor := None |})) /\
  ((exists m ex, u = S754_finite false m ex) -> s = false ->
   exists tip,
     StatusBar.updateStatusBarDisplay h d summary e item =
       (Ok tt,
        {| StatusBar.text := "$(error) " +:+ NumberToString h Infinity +:+ "%";
           StatusBar.tooltip := tip;
           StatusBar.backgroundColor := Some "statusBarItem.errorBackground" |})).
Proof.
  intros Hu Hl Hr Hod Hpo Hcompact.
  destruct (display_numbers h d summary e item u (S754_zero s) r Hu Hl Hr Hod Hpo)
    as (_ & tip & Hdisplay).
  rewrite Hcompact in Hdisplay. cbv zeta in Hdisplay.
  rewrite percentage_zero_limit in Hdisplay.
  split.
  - intros (su & ->). eexists. rewrite Hdisplay. reflexivity.
  - intros (m & ex & ->) ->. eexists. rewrite Hdisplay. reflexivity.
Qed.

(** X22, exercised: fifty units used of none allowed. *)
Lemma zero_limit_on_status_bar_witness :
  exists tip,
    StatusBar.updateStatusBarDisplay (printing (Demo.host None Demo.refused))
      (demoDisplay true)
      (sampleSummary 50 0 [("remaining", JSNumber (of_Z 0))]) 0
      {| StatusBar.text := ""; StatusBar.tooltip := "";
         StatusBar.backgroundColor := None |}
    = (Ok tt,
       {| StatusBar.text := "$(error) Infinity%";
          StatusBar.tooltip := tip;
          StatusBar.backgroundColor := Some "statusBarItem.errorBackground" |}).
Proof.
  refine (proj2 (zero_limit_on_status_bar (printing (Demo.host None Demo.refused))
                   (demoDisplay true)
                   (sampleSummary 50 0 [("remaining", JSNumber (of_Z 0))]) 0%nat _
                   (of_Z 50) (of_Z 0) false
                   eq_refl eq_refl eq_refl _ _ eq_refl) _ eq_refl).
  - left. reflexivity.
  - left. reflexivity.
  - vm_compute. eexists _, _. reflexivity.
Defined.

(** X23. A summary without an [overall] bucket is shown as not available,
    with the background cleared; the tooltip is not written, so it stays
    what the previous update left, the error text included. *)
Theorem status_bar_not_available (h : Host) (d : StatusBar.Display)
    (w w' : World) (item : StatusBar.StatusBarItem) (summary : JSValue) :
  cacheInvariant w ->
  getUsageSummary h false w = (Ok summary, w') ->
  ToBoolean (individualBucket summary) = false ->
  StatusBar.updateStatusBar h d (w, item) =
    (w',
     {| StatusBar.text :=
          if StatusBar.compactMode d (epoch w') then "$(warning) N/A"
          else "$(warning) Usage: N/A";
        StatusBar.tooltip := StatusBar.tooltip item;
        StatusBar.backgroundColor := None |}).
Proof.
  intros Hinv Hsummary Habsent.
  destruct (getUsageSummary_valid h false w Hinv) as (v & w1 & Heq & Hvalid).
  rewrite Hsummary in Heq. injection Heq as <- <-.
  pose proof (nonNull_parent _ _ Hvalid) as Hv.
  unfold StatusBar.updateStatusBar. rewrite Hsummary.
  unfold StatusBar.updateStatusBarDisplay.
  rewrite (get_nonNull _ _ Hv). fold (individualBucket summary).
  now rewrite Habsent.
Qed.

(** X23, exercised: after an update that failed, a fetch brings a summary
    with an empty [individualUsage]; the tooltip still speaks of the
    error. *)
Lemma status_bar_not_available_witness :
  (StatusBar.updateStatusBar (Demo.host (Some "abc") Demo.threeHops) (demoDisplay false)
     (Demo.start,
      StatusBar.setErrorState (demoDisplay false) 0
        {| StatusBar.text := ""; StatusBar.tooltip := "";
           StatusBar.backgroundColor := None |})).2
  = {| StatusBar.text := "$(warning) Usage: N/A";
       StatusBar.tooltip := "Error fetching usage data. Click to retry.";
       StatusBar.backgroundColor := None |}.
Proof.
  rewrite (status_bar_not_available (Demo.host (Some "abc") Demo.threeHops)
             (demoDisplay false) Demo.start
             (getUsageSummary (Demo.host (Some "abc") Demo.threeHops) false
                Demo.start).2
             _ Demo.minimalSummary).
  - reflexivity.
  - intros key entry. cbn [Demo.start cache]. rewrite lookup_empty. discriminate.
  - vm_compute. reflexivity.
  - reflexivity.
Defined.

(** ** Errors on the way, the one cache key, the edge of freshness *)

Section Late.
Context (h : Host).

(** Redirects within the budget bring the call to some later hop. *)
Lemma makeHttpsRequest_after_redirects (locs : list string) :
  forall (n : nat) (url : string) (w : World),
    (length locs <= n)%nat ->
    redirectChain h (epoch w) locs ->
    is_Some (URL_new h url) ->
    exists url' w',
      is_Some (URL_new h url') /\
      epoch w' = (epoch w + length locs)%nat /\
      makeHttpsRequest h url n w = makeHttpsRequest h url' (n - length locs) w'.
Proof.
  induction locs as [|loc locs IH]; intros n url w Hlen Hchain Hurl.
  - exists url, w. split; [exact Hurl|]. split; [simpl; lia|].
    simpl. now rewrite Nat.sub_0_r.
  - destruct n as [|n]; [simpl in Hlen; lia|].
    destruct Hurl as [urlObj Hurl].
    destruct (Hchain 0%nat loc eq_refl) as (Hne & Hnext & Hres).
    destruct (Hres (firstOptions h urlObj w)) as (res0 & Hans & Hred & Hloc).
    rewrite Nat.add_0_r in Hans.
    destruct (IH n (redirectUrl loc) (afterFirst h urlObj w))
      as (url' & w' & Hurl' & He & Heq).
    + simpl in Hlen. lia.
    + rewrite afterFirst_epoch. eapply redirectChain_tail, Hchain.
    + exact Hnext.
    + exists url', w'. split; [exact Hurl'|]. split.
      * rewrite He, afterFirst_epoch. simpl. lia.
      * rewrite (makeHttpsRequest_response h _ _ _ _ _ Hurl Hans). cbv zeta.
        rewrite Hred, Hloc, (truthy_Some _ Hne). cbn [negb]. exact Heq.
Qed.

(** A request that fails or times out ends the call there. *)
Lemma makeHttpsRequest_breaks (url : string) (n : nat) (w : World) :
  is_Some (URL_new h url) ->
  ((forall o, https_request h (epoch w) o = RequestTimeout) ->
   (makeHttpsRequest h url n w).1 =
     Throws (Error "Request timeout - connection took too long")) /\
  (forall error,
     (forall o, https_request h (epoch w) o = RequestError error) ->
     (makeHttpsRequest h url n w).1 = Throws error).
Proof.
  intros [urlObj Hurl].
  pose proof (getRequestOptions_frame h w) as (_ & He & _).
  split; [intros Hout|intros error Hout];
    destruct n; simpl;
    destruct (getRequestOptions h w) as [[agent headers] w1]; simpl in *;
    rewrite Hurl; simpl; rewrite He, Hout; reflexivity.
Qed.

Lemma getUsageSummary_single (forceRefresh : bool) (w : World) :
  singleEntry w -> singleEntry (getUsageSummary h forceRefresh w).2.
Proof.
  intros Hsingle key entry.
  destruct (getUsageSummary_cache h forceRefresh w)
    as [Hc|(parsed & w1 & _ & _ & Hc)]; rewrite Hc.
  - apply Hsingle.
  - destruct (decide (key = cacheKey)) as [->|Hne]; [reflexivity|].
    rewrite lookup_insert_ne by congruence. apply Hsingle.
Qed.
End Late.

(** X24. A request that times out or fails, at the first hop or after
    redirects within the budget, ends the call, and the user is told of a
    time-out, of a refused connection or of a failed lookup according to
    the error's message (which for the last two must not also name a
    condition looked for earlier). *)
Theorem transport_errors_are_explained (h : Host) (forceRefresh : bool)
    (w : World) (locs : list string) :
  cacheHit forceRefresh (cache w !! cacheKey) (Date_now h (epoch w)) = false ->
  truthy (apiToken (getConfiguration h (epoch w))) = true ->
  is_Some (URL_new h endpoint) ->
  (length locs <= 5)%nat ->
  redirectChain h (epoch w) locs ->
  ((forall o, https_request h (epoch w + length locs) o = RequestTimeout) ->
   exists w1,
     fallsBack h forceRefresh w w1
       "Request timed out. Check network connectivity and proxy settings.") /\
  (forall name message,
     (forall o, https_request h (epoch w + length locs) o
                = RequestError (ErrorObject name message)) ->
     includes message "Too many redirects" = false ->
     (includes message "ECONNREFUSED" = true ->
      exists w1,
        fallsBack h forceRefresh w w1
          "Connection refused. Check if proxy is accessible.") /\
     (includes message "ECONNREFUSED" = false ->
      includes message "ENOTFOUND" = true ->
      exists w1,
        fallsBack h forceRefresh w w1
          "DNS resolution failed. Check network connectivity.")).
Proof.
  intros Hmiss Htoken Hurl Hlen Hchain.
  destruct (makeHttpsRequest_after_redirects h locs 5 endpoint w Hlen Hchain Hurl)
    as (url' & w' & Hurl' & He & Heq).
  destruct (makeHttpsRequest_breaks h url' (5 - length locs) w' Hurl')
    as (Htimeout & Herror).
  rewrite He in Htimeout, Herror.
  split.
  - intros Hout. specialize (Htimeout Hout). rewrite <- Heq in Htimeout.
    destruct (makeHttpsRequest h endpoint 5 w) as [r w1] eqn:Hreq.
    cbn [fst] in Htimeout. subst r. exists w1. unfold fallsBack.
    now rewrite (getUsageSummary_rejected h _ _ _ _ Hmiss Htoken Hreq).
  - intros name message Hout Hloop.
    specialize (Herror _ Hout). rewrite <- Heq in Herror.
    destruct (makeHttpsRequest h endpoint 5 w) as [r w1] eqn:Hreq.
    cbn [fst] in Herror. subst r.
    split.
    + intros Hrefused. exists w1. unfold fallsBack.
      rewrite (getUsageSummary_rejected h _ _ _ _ Hmiss Htoken Hreq).
      unfold errorNotification. now rewrite Hloop, Hrefused.
    + intros Hrefused Hlookup. exists w1. unfold fallsBack.
      rewrite (getUsageSummary_rejected h _ _ _ _ Hmiss Htoken Hreq).
      unfold errorNotification. now rewrite Hloop, Hrefused, Hlookup.
Qed.

(** X24, exercised: the first connection is refused. *)
Lemma transport_errors_are_explained_witness :
  exists w1,
    fallsBack (Demo.host (Some "abc") Demo.refused) true Demo.start w1
      "Connection refused. Check if proxy is accessible.".
Proof.
  refine (proj1 (proj2 (transport_errors_are_explained
            (Demo.host (Some "abc") Demo.refused) true Demo.start []
            eq_refl eq_refl _ _ _)
            "Error" "connect ECONNREFUSED 127.0.0.1:443" _ eq_refl) eq_refl).
  - eexists; reflexivity.
  - simpl. lia.
  - intros k loc Hk. discriminate.
  - intros o. reflexivity.
Defined.

(** X25. The cache never holds an entry under another key than
    [usage-summary]: every operation keeps it to that one key, so at most
    one summary is resident. *)
Theorem cache_has_one_key (h : Host) (forceRefresh : bool) (w : World) :
  singleEntry w ->
  singleEntry (getUsageSummary h forceRefresh w).2 /\
  singleEntry (clearCache w) /\
  singleEntry (updateApiToken w) /\
  singleEntry (testConnectivity h w).2.
Proof.
  intros Hsingle.
  split; [now apply getUsageSummary_single|].
  split; [|split].
  - intros key entry. cbn [clearCache cache]. rewrite lookup_empty. discriminate.
  - intros key entry. cbn [updateApiToken clearCache cache].
    rewrite lookup_empty. discriminate.
  - intros key entry. rewrite testConnectivity_world.
    destruct (makeHttpsRequest_frame h 5 endpoint w) as (Hc & _).
    rewrite Hc. apply Hsingle.
Qed.

(** X25, exercised: a fetch into an empty cache. *)
Lemma cache_has_one_key_witness :
  singleEntry
    (getUsageSummary (Demo.host (Some "abc") Demo.threeHops) true Demo.start).2.
Proof.
  apply (cache_has_one_key (Demo.host (Some "abc") Demo.threeHops) true Demo.start).
  intros key entry. cbn [Demo.start cache]. rewrite lookup_empty. discriminate.
Defined.

(** X26. The edge of freshness: an entry exactly 60 seconds old, or older,
    is not served to an unforced call, which goes to the network when a
    token is configured; an entry stamped in the future of the clock counts
    as fresh. *)
Theorem cache_expires_at_sixty_seconds (h : Host) (w : World) (entry : CacheEntry) :
  cache w !! cacheKey = Some entry ->
  (60000 <= Date_now h (epoch w) - timestamp entry ->
   truthy (apiToken (getConfiguration h (epoch w))) = true ->
   is_Some (URL_new h endpoint) ->
   exists first rest,
     newRequests w (getUsageSummary h false w).2 (first :: rest)) /\
  (Date_now h (epoch w) < timestamp entry ->
   getUsageSummary h false w = (Ok (data entry), w)).
Proof.
  intros Hcached. split.
  - intros Hold Htoken Hurl.
    apply getUsageSummary_miss_requests; [|exact Htoken|exact Hurl].
    rewrite Hcached. unfold cacheHit. cbn [negb andb].
    apply Z.ltb_ge. unfold CACHE_DURATION. lia.
  - intros Hfuture. apply getUsageSummary_hit; [exact Hcached|].
    unfold CACHE_DURATION. lia.
Qed.

(** X26, exercised: an entry of exactly sixty seconds. *)
Lemma cache_expires_at_sixty_seconds_witness :
  exists first rest,
    newRequests (Demo.holding Demo.minimalSummary 940000)
      (getUsageSummary (Demo.host (Some "abc") Demo.threeHops) false
         (Demo.holding Demo.minimalSummary 940000)).2
      (first :: rest).
Proof.
  refine (proj1 (cache_expires_at_sixty_seconds
                   (Demo.host (Some "abc") Demo.threeHops)
                   (Demo.holding Demo.minimalSummary 940000)
                   {| data := Demo.minimalSummary; timestamp := 940000 |}
                   eq_refl) _ eq_refl _).
  - vm_compute. discriminate.
  - eexists; reflexivity.
Defined.
